(** * Parallel / federated training coordinator: a shallow embedding

    The development embeds the coordination layer of three programs of the
    repository:

    - [MASDL-HP/mainMASCNN.py]: the worker training unit [train_simulated]
      with its selector chains, epoch loop and early stopping;
    - [MASCNN_5/MASModelCNN.py]: the simulated multi-agent model
      [ParallelizationModel] (sharding, [step], [synchronize_weights],
      [report_testing_accuracy]);
    - [EXTENDED_REAL_PAR8020/main_p8020_EXT.py]: the real-parallel k-fold
      driver [main] with its best-fold selector.

    Numerical conventions.  Python integers are [Z].  Finite Python floats
    (durations, accuracies, parameter values) are idealised as exact
    rationals [Qc]; a validation loss, which the code compares with
    [float('inf')], is a [pyfloat] that also has the two infinities and NaN.
    The neural network itself (forward pass, gradients, timing) is opaque: it
    enters the model as an oracle giving what each epoch or batch produced.
    Side effects (optimizer steps, prints, calls to [load_state_dict]) are
    recorded as events in a trace threaded through a state-and-exception
    monad. *)

From Stdlib Require Import ZArith QArith Qcanon Lia Ascii String.
From stdpp Require Import base numbers list gmap strings.

Open Scope Z_scope.

(** ** Python: exceptions, the monad of effects, builtins *)

Module Py.

Inductive exn :=
| ValueError
| IndexError
| KeyError (key : string)
| ZeroDivisionError
| UnboundLocalError (name : string)
| AttributeError
| RuntimeError.

Inductive result (A : Type) :=
| Ok (a : A)
| Raise (e : exn).
Arguments Ok {A} a.
Arguments Raise {A} e.

(** A computation reads and writes a state [S] and either returns a value
    or raises; the state reached when the exception is raised is kept, as
    Python keeps the objects mutated so far. *)
Definition M (S A : Type) : Type := S -> S * result A.

Definition ret {S A} (a : A) : M S A := fun s => (s, Ok a).

Definition bind {S A B} (c : M S A) (k : A -> M S B) : M S B :=
  fun s => match c s with
           | (s', Ok a) => k a s'
           | (s', Raise e) => (s', Raise e)
           end.

Definition raise {S A} (e : exn) : M S A := fun s => (s, Raise e).

Definition get {S} : M S S := fun s => (s, Ok s).

Definition modify {S} (f : S -> S) : M S unit := fun s => (f s, Ok tt).

(** A pure fallible step lifted into the monad. *)
Definition lift {S A} (r : result A) : M S A := fun s => (s, r).

(** Reading a local variable that no branch has assigned. *)
Definition read_local {S A} (name : string) (v : option A) : M S A :=
  match v with
  | Some a => ret a
  | None => raise (UnboundLocalError name)
  end.

(** [for x in xs: body x] without [break]. *)
Fixpoint for_each {S A} (xs : list A) (body : A -> M S unit) : M S unit :=
  match xs with
  | [] => ret tt
  | x :: xs' => bind (body x) (fun _ => for_each xs' body)
  end.

(** [for x in xs: st = body x st], a loop that updates its variables. *)
Fixpoint for_fold {S A St} (xs : list A) (body : A -> St -> M S St) (st : St) : M S St :=
  match xs with
  | [] => ret st
  | x :: xs' => bind (body x st) (fun st' => for_fold xs' body st')
  end.

(** A loop whose body may [break]: the body returns the updated variables
    and whether it left the loop. *)
Fixpoint for_break {S A St} (xs : list A) (body : A -> St -> M S (St * bool))
    (st : St) : M S St :=
  match xs with
  | [] => ret st
  | x :: xs' =>
      bind (body x st) (fun r => if r.2 then ret r.1 else for_break xs' body r.1)
  end.

(** [range(n)] for a Python integer [n]: empty when [n <= 0]. *)
Definition range (n : Z) : list nat := seq 0 (Z.to_nat n).

(** [sum(xs)]: a left fold that starts from [0]. *)
Definition sum (xs : list Qc) : Qc := fold_left Qcplus xs 0%Qc.
Definition sumZ (xs : list Z) : Z := fold_left Z.add xs 0.

(** [max(xs)]: the running maximum is replaced only by a strictly greater
    item, so the first of several equal maxima is kept; the empty list
    raises [ValueError]. *)
Definition max (xs : list Qc) : result Qc :=
  match xs with
  | [] => Raise ValueError
  | x :: xs' =>
      Ok (fold_left (fun m y => if bool_decide (m < y)%Qc then y else m) xs' x)
  end.

(** [xs.index(v)]: the position of the first item equal to [v]. *)
Fixpoint index (xs : list Qc) (v : Qc) : result nat :=
  match xs with
  | [] => Raise ValueError
  | x :: xs' =>
      if bool_decide (x = v) then Ok 0%nat
      else match index xs' v with
           | Ok i => Ok (S i)
           | Raise e => Raise e
           end
  end.

(** [xs[i]] on a list, for an index that is not negative. *)
Definition getitem {T} (xs : list T) (i : nat) : result T :=
  match xs !! i with
  | Some x => Ok x
  | None => Raise IndexError
  end.

(** [a / b] with [b] an integer count: [ZeroDivisionError] on zero. *)
Definition div (a : Qc) (b : Z) : result Qc :=
  if bool_decide (b = 0) then Raise ZeroDivisionError
  else Ok (a / Qc_of_Z b)%Qc.

(** A Python float that may be non-finite. *)
Inductive pyfloat :=
| Fin (q : Qc)
| PInf
| NInf
| NaN.

(** [a < b] on floats: every comparison with NaN is false. *)
Definition float_lt (a b : pyfloat) : bool :=
  match a, b with
  | NaN, _ | _, NaN => false
  | Fin x, Fin y => bool_decide (x < y)%Qc
  | Fin _, PInf => true
  | Fin _, NInf => false
  | PInf, _ => false
  | NInf, NInf => false
  | NInf, _ => true
  end.

End Py.

Notation "x <- c ;; k" := (Py.bind c (fun x => k))
  (at level 100, c at next level, right associativity).
Notation "c ;;; k" := (Py.bind c (fun _ => k))
  (at level 100, right associativity).

(** ** NumPy: [array_split] along the first axis *)

Module Numpy.
Import Py.

(** [cumsum]: running sums of a list of sizes. *)
Fixpoint cumsum_from (acc : nat) (xs : list nat) : list nat :=
  match xs with
  | [] => []
  | x :: xs' => (acc + x)%nat :: cumsum_from (acc + x) xs'
  end.
Definition cumsum (xs : list nat) : list nat := cumsum_from 0 xs.

(** The slice [ary[st:stop]]. *)
Definition slice {A} (ary : list A) (st stop : nat) : list A :=
  take (stop - st) (drop st ary).

(** [np.array_split(ary, sections)]: the first [Ntotal mod sections]
    pieces have [Ntotal / sections + 1] rows, the others [Ntotal / sections];
    the pieces are cut at the running sums of these sizes. *)
Definition array_split {A} (ary : list A) (sections : Z) : result (list (list A)) :=
  if bool_decide (sections <= 0) then Raise ValueError
  else
    let Nsections := Z.to_nat sections in
    let Ntotal := length ary in
    let Neach_section := (Ntotal / Nsections)%nat in
    let extras := (Ntotal mod Nsections)%nat in
    let section_sizes :=
      0%nat :: replicate extras (Neach_section + 1)%nat
              ++ replicate (Nsections - extras) Neach_section in
    let div_points := cumsum section_sizes in
    Ok (map (fun i => slice ary (div_points !!! i) (div_points !!! (i + 1)%nat))
            (seq 0 Nsections)).

End Numpy.

(** ** [MASCNN_5/MASModelCNN.py]: the simulated multi-agent model *)

Module MAS.
Import Py.

(** A parameter tensor, flattened: its shape is its length.  A
    [state_dict] maps parameter names to tensors. *)
Abbreviation tensor := (list Qc).
Abbreviation state_dict := (gmap string (list Qc)).

(** [torch.zeros_like(v)] *)
Definition zeros_like (v : tensor) : tensor := replicate (length v) 0%Qc.

(** [a += v], in place on [a]: the shapes must agree (broadcasting of a
    smaller [v] is not part of the model; the tensors of one architecture
    have one shape per name). *)
Definition tensor_iadd (a v : tensor) : result tensor :=
  if bool_decide (length a = length v) then Ok (zip_with Qcplus a v)
  else Raise RuntimeError.

(** [a /= n], in place on [a], for an integer count [n]. *)
Definition tensor_idiv (a : tensor) (n : nat) : tensor :=
  (fun x => x / Qc_of_Z (Z.of_nat n))%Qc <$> a.

(** [module.load_state_dict(src)], strict: the names and shapes of [src]
    must be those of the module's own parameters, whose values are then
    overwritten by copies of the tensors of [src]. *)
Definition load_state_dict (own src : state_dict) : result state_dict :=
  if bool_decide (length <$> own = length <$> src) then Ok src
  else Raise RuntimeError.

Section Model.
Context {A B : Type}.

(** Modelled from the spec: the class [ProcessorAgent] (module
    [MASAgentCNN], imported by the model but absent from the sources).  By
    the spec's worker state an agent has an identifier, its shard, an owned
    model-parameter snapshot and cumulative local metrics (loss, correct
    count, examples processed, elapsed time); the field names are those
    the model reads.  [neural_net_model] is [None] as long as the agent
    holds no usable model instance. *)
Record agent := ProcessorAgentRecord {
  unique_id : nat;
  X_train : list A;
  y_train : list B;
  neural_net_model : option state_dict;
  fold_loss : Qc;
  processing_time : Qc;
  correct_classifications : Z;
  total_examples_processed : Z
}.

(** Modelled from the spec: the constructor [ProcessorAgent(unique_id,
    model, X_train, y_train, X_test, y_test, device, args)]: a worker is
    created at dispatch time with its shard, no model instance yet and
    empty metrics.  The test data, device and options, which every agent
    receives unchanged, are not part of the model. *)
Definition ProcessorAgent (uid : nat) (X : list A) (y : list B) : agent :=
  {| unique_id := uid; X_train := X; y_train := y;
     neural_net_model := None; fold_loss := 0%Qc; processing_time := 0%Qc;
     correct_classifications := 0; total_examples_processed := 0 |}.

Definition set_neural_net_model (a : agent) (m : state_dict) : agent :=
  {| unique_id := unique_id a; X_train := X_train a; y_train := y_train a;
     neural_net_model := Some m; fold_loss := fold_loss a;
     processing_time := processing_time a;
     correct_classifications := correct_classifications a;
     total_examples_processed := total_examples_processed a |}.

(** What the model does to the world, in order. *)
Inductive event :=
| EvLoadStateDict (uid : nat)
    (* agent.neural_net_model.load_state_dict(global_weights) *)
| EvReport (cumulative_time average_time_per_node : Qc)
           (total_correct total_processed : Z) (final_accuracy : Qc)
    (* the three summary lines printed by step *)
| EvInference (uid : nat).
    (* the representative model run over the test set *)

(** The fields of [ParallelizationModel]; [agents] is
    [self.schedule.agents], in the order of [schedule.add]. *)
Record model_state := {
  num_processors : Z;
  model_X_train : list A;
  model_y_train : list B;
  agents : list agent;
  trace : list event
}.

Definition set_agents (f : list agent -> list agent) (s : model_state) : model_state :=
  {| num_processors := num_processors s; model_X_train := model_X_train s;
     model_y_train := model_y_train s; agents := f (agents s);
     trace := trace s |}.

Definition emit (e : event) : M model_state unit :=
  modify (fun s =>
    {| num_processors := num_processors s; model_X_train := model_X_train s;
       model_y_train := model_y_train s; agents := agents s;
       trace := trace s ++ [e] |}).

(** [self.schedule.add(agent)] *)
Definition schedule_add (a : agent) : M model_state unit :=
  modify (set_agents (fun l => l ++ [a])).

(** [_split_data_and_create_agents] *)
Definition _split_data_and_create_agents : M model_state unit :=
  s <- get ;;
  if bool_decide (num_processors s = 1) then
    schedule_add (ProcessorAgent 0 (model_X_train s) (model_y_train s))
  else
    split_X_train <- lift (Numpy.array_split (model_X_train s) (num_processors s)) ;;
    split_y_train <- lift (Numpy.array_split (model_y_train s) (num_processors s)) ;;
    for_each (range (num_processors s)) (fun i =>
      X_i <- lift (getitem split_X_train i) ;;
      y_i <- lift (getitem split_y_train i) ;;
      schedule_add (ProcessorAgent i X_i y_i)).

(** [__init__]: the fields, then the split. *)
Definition init (X : list A) (y : list B) (processors : Z) : model_state * result unit :=
  _split_data_and_create_agents
    {| num_processors := processors; model_X_train := X; model_y_train := y;
       agents := []; trace := [] |}.

(** The body of the summation loop for one agent:
    [for k, v in agent.neural_net_model.state_dict().items():
       global_weights[k] += v].
    A name missing from [global_weights] raises [KeyError].  The items are
    visited in the order of the finite map; the weights obtained do not
    depend on it. *)
Definition add_state_dict (global_weights m : state_dict) : result state_dict :=
  map_fold (fun k v (acc : result state_dict) =>
    match acc with
    | Raise e => Raise e
    | Ok g =>
        match g !! k with
        | None => Raise (KeyError k)
        | Some t =>
            match tensor_iadd t v with
            | Ok t' => Ok (<[k := t']> g)
            | Raise e => Raise e
            end
        end
    end) (Ok global_weights) m.

(** The summation loop over the agents, skipping those without a model. *)
Fixpoint sum_agents (ags : list agent) (global_weights : state_dict) : result state_dict :=
  match ags with
  | [] => Ok global_weights
  | a :: ags' =>
      match neural_net_model a with
      | None => sum_agents ags' global_weights
      | Some m =>
          match add_state_dict global_weights m with
          | Ok g => sum_agents ags' g
          | Raise e => Raise e
          end
      end
  end.

(** The broadcast to the agent at position [i]. *)
Definition broadcast_to (global_weights : state_dict) (i : nat) : M model_state unit :=
  s <- get ;;
  a <- lift (getitem (agents s) i) ;;
  match neural_net_model a with
  | None => ret tt
  | Some own =>
      m <- lift (load_state_dict own global_weights) ;;
      modify (set_agents (fun l => <[i := set_neural_net_model a m]> l)) ;;;
      emit (EvLoadStateDict (unique_id a))
  end.

(** [synchronize_weights(model_state_dict=None)] *)
Definition synchronize_weights (model_state_dict : option state_dict) : M model_state unit :=
  match model_state_dict with
  | None => ret tt
  | Some sd =>
      s <- get ;;
      let global_weights := zeros_like <$> sd in
      let num_agents := length (agents s) in
      global_weights <- lift (sum_agents (agents s) global_weights) ;;
      let global_weights := (fun t => tensor_idiv t num_agents) <$> global_weights in
      for_each (seq 0 num_agents) (broadcast_to global_weights)
  end.

(** [report_testing_accuracy]: the final synchronization, seeded by the
    first agent's state, then inference with that agent's model.  The
    inference is opaque: the test set is taken to be well formed, so that
    reshaping and evaluating it does not raise, and the accuracy it yields
    is not printed. *)
Definition report_testing_accuracy : M model_state unit :=
  s <- get ;;
  a0 <- lift (getitem (agents s) 0) ;;
  seed <- match neural_net_model a0 with
          | Some m => ret m
          | None => raise AttributeError
          end ;;
  synchronize_weights (Some seed) ;;;
  s <- get ;;
  a0 <- lift (getitem (agents s) 0) ;;
  match neural_net_model a0 with
  | Some _ => emit (EvInference (unique_id a0))
  | None => raise AttributeError
  end.

(** Modelled from the spec: [ProcessorAgent.step], one agent's local
    training pass in a round, which by the spec touches only that agent's
    own state.  It is a parameter of the model. *)
Variable agent_step : agent -> agent.

(** [self.schedule.step()]: every agent runs its local pass. *)
Definition schedule_step : M model_state unit :=
  modify (set_agents (map agent_step)).

(** [step] *)
Definition step : M model_state unit :=
  schedule_step ;;;
  s <- get ;;
  (if bool_decide (1 < num_processors s) then synchronize_weights None else ret tt) ;;;
  s <- get ;;
  let losses := fold_loss <$> agents s in
  let processing_times := processing_time <$> agents s in
  let correct := correct_classifications <$> agents s in
  let total_examples := total_examples_processed <$> agents s in
  average_loss <- lift (div (sum losses) (Z.of_nat (length losses))) ;;
  let cumulative_time := sum processing_times in
  average_time_per_node <-
    lift (div cumulative_time (Z.of_nat (length processing_times))) ;;
  let total_correct := sumZ correct in
  let total_processed := sumZ total_examples in
  ratio <- lift (div (Qc_of_Z total_correct) total_processed) ;;
  let final_accuracy := (ratio * Qc_of_Z 100)%Qc in
  emit (EvReport cumulative_time average_time_per_node
                 total_correct total_processed final_accuracy) ;;;
  report_testing_accuracy.

End Model.
Arguments agent : clear implicits.
Arguments model_state : clear implicits.

End MAS.

(** ** [MASDL-HP/mainMASCNN.py]: the worker training unit *)

Module Worker.
Import Py.

(** The options [train_simulated] reads from [args]. *)
Record Args := {
  processors : Z;
  activation : string;
  loss : string;
  optimizer : string;
  patience : Z;
  epochs : Z;
  batch_size : Z
}.

Inductive activation_fn := ReLU | LeakyReLU | ELU | SELU | GELU | Mish.
Inductive criterion_fn := CrossEntropyLoss | LabelSmoothingLoss | FocalLoss | WeightedLoss.
Inductive optimizer_fn := Adam | AdamW | SGDMomentum | RMSprop.

(** The three [if]/[elif] chains.  None of them has an [else]: for a
    string that matches no branch the local variable stays unassigned,
    which is [None] here. *)
Definition choose_activation (s : string) : option activation_fn :=
  if String.eqb s "RELU" then Some ReLU
  else if String.eqb s "LEAKY_RELU" then Some LeakyReLU
  else if String.eqb s "ELU" then Some ELU
  else if String.eqb s "SELU" then Some SELU
  else if String.eqb s "GELU" then Some GELU
  else if String.eqb s "MISH" then Some Mish
  else None.

Definition choose_criterion (s : string) : option criterion_fn :=
  if String.eqb s "CE" then Some CrossEntropyLoss
  else if String.eqb s "LSCE" then Some LabelSmoothingLoss
  else if String.eqb s "FC" then Some FocalLoss
  else if String.eqb s "WCE" then Some WeightedLoss
  else None.

Definition choose_optimizer (s : string) : option optimizer_fn :=
  if String.eqb s "ADAM" then Some Adam
  else if String.eqb s "ADAMW" then Some AdamW
  else if String.eqb s "SGDM" then Some SGDMomentum
  else if String.eqb s "RMSP" then Some RMSprop
  else None.

(** What the opaque network and clock produce: the loss and number of
    correct predictions of batch [b] of epoch [e], the duration of the
    batch loop of epoch [e], the validation loss and number of correct
    validation predictions after epoch [e], and the number of correct
    predictions of the final pass over the training partition. *)
Record oracle := {
  batch_loss : nat -> nat -> pyfloat;
  batch_correct : nat -> nat -> Z;
  epoch_duration : nat -> Qc;
  val_loss : nat -> pyfloat;
  val_correct : nat -> Z;
  final_train_correct : Z
}.

(** The side effects of the unit, in order ([epoch] and [batch] count
    from 0; the two prints that carry an epoch number show it from 1). *)
Inductive event :=
| EvModelBuilt (a : activation_fn)          (* get_lenet5_model(...) *)
| EvEpochStart (epoch : nat)                (* model.train() *)
| EvZeroGrad (epoch batch : nat)            (* optimizer.zero_grad() *)
| EvForward (epoch batch : nat)             (* outputs = model(batch_X) *)
| EvBackward (epoch batch : nat)            (* loss.backward() *)
| EvOptimizerStep (epoch batch : nat)       (* optimizer.step() *)
| EvSyncCallback (epoch : nat)              (* sync_callback(model.state_dict()),
                                               taken to return normally *)
| EvValidation (epoch : nat)                (* val_outputs = model(X_val_fold) *)
| EvPrintEpoch (epoch1 : nat) (v : pyfloat) (training_accuracy validation_accuracy : Qc)
| EvEarlyStop (epoch1 : nat)                (* print "Early stopping at epoch ..." *)
| EvPrintProcessingTime (t : Qc)
| EvForwardTrainSet.                        (* train_outputs = model(X_train_fold) *)

Definition emit (e : event) : M (list event) unit :=
  modify (fun tr => tr ++ [e]).

(** The local variables that live across epochs.  [loss_var],
    [validation_accuracy] and [correct_val] are assigned inside the loop
    only, so they are unbound until then. *)
Record locals := {
  best_val_loss : pyfloat;
  epochs_without_improvement : Z;
  processing_times : list Qc;
  loss_var : option pyfloat;
  validation_accuracy : option Qc;
  correct_val : option Z
}.

(** The tuple returned by [train_simulated], but for the opaque model. *)
Record FoldResult := {
  final_loss : pyfloat;
  final_validation_accuracy : Qc;
  correct_classifications_train : Z;
  final_correct_val : Z;
  len_y_val_fold : nat;
  slowest_processing_time : Qc
}.

Section TrainSimulated.
Variable fold : nat.
Variable n_train : nat.        (* len(train_idx) *)
Variable n_val : nat.          (* len(val_idx) *)
Variable args : Args.
Variable o : oracle.

(** The batches a [DataLoader] yields: [ceil(n_train / batch_size)] of
    them, the last one possibly smaller. *)
Definition num_batches : nat :=
  Z.to_nat ((Z.of_nat n_train + batch_size args - 1) / batch_size args).

Definition batch_len (b : nat) : Z :=
  Z.min (batch_size args) (Z.of_nat n_train - Z.of_nat b * batch_size args).

Section Loop.
Variable criterion : option criterion_fn.
Variable optimizer_var : option optimizer_fn.
Variable len_val_fold : nat.   (* len(y_val_fold) *)

(** One mini-batch; the loop variables are [loss], [correct_train] and
    [total_train]. *)
Definition batch_body (epoch b : nat) (st : option pyfloat * Z * Z)
    : M (list event) (option pyfloat * Z * Z) :=
  let '(_, correct_train, total_train) := st in
  _ <- read_local "optimizer" optimizer_var ;;
  emit (EvZeroGrad epoch b) ;;;
  emit (EvForward epoch b) ;;;
  _ <- read_local "criterion" criterion ;;
  let loss := batch_loss o epoch b in
  emit (EvBackward epoch b) ;;;
  emit (EvOptimizerStep epoch b) ;;;
  ret (Some loss, correct_train + batch_correct o epoch b, total_train + batch_len b).

(** The early-stopping update of [best_val_loss] and
    [epochs_without_improvement]. *)
Definition update_early_stopping (v : pyfloat) (st : locals) : locals :=
  if float_lt v (best_val_loss st) then
    {| best_val_loss := v; epochs_without_improvement := 0;
       processing_times := processing_times st; loss_var := loss_var st;
       validation_accuracy := validation_accuracy st; correct_val := correct_val st |}
  else
    {| best_val_loss := best_val_loss st;
       epochs_without_improvement := epochs_without_improvement st + 1;
       processing_times := processing_times st; loss_var := loss_var st;
       validation_accuracy := validation_accuracy st; correct_val := correct_val st |}.

(** The body of [for epoch in range(args.epochs)]; the boolean tells
    whether the body ended in [break]. *)
Definition epoch_body (epoch : nat) (st : locals) : M (list event) (locals * bool) :=
  emit (EvEpochStart epoch) ;;;
  r <- for_fold (seq 0 num_batches) (batch_body epoch) (loss_var st, 0, 0) ;;
  let '(loss, correct_train, total_train) := r in
  let times := processing_times st ++ [epoch_duration o epoch] in
  emit (EvSyncCallback epoch) ;;;
  emit (EvValidation epoch) ;;;
  _ <- read_local "criterion" criterion ;;
  let v := val_loss o epoch in
  let cv := val_correct o epoch in
  ratio_val <- lift (div (Qc_of_Z cv) (Z.of_nat len_val_fold)) ;;
  let va := (ratio_val * Qc_of_Z 100)%Qc in
  ratio_train <- lift (div (Qc_of_Z correct_train) total_train) ;;
  let ta := (ratio_train * Qc_of_Z 100)%Qc in
  emit (EvPrintEpoch (S epoch) v ta va) ;;;
  let st' := update_early_stopping v
    {| best_val_loss := best_val_loss st;
       epochs_without_improvement := epochs_without_improvement st;
       processing_times := times; loss_var := loss;
       validation_accuracy := Some va; correct_val := Some cv |} in
  if bool_decide (patience args <= epochs_without_improvement st') then
    emit (EvEarlyStop (S epoch)) ;;; ret (st', true)
  else ret (st', false).

(** The variables as set before the loop. *)
Definition init_locals : locals :=
  {| best_val_loss := PInf; epochs_without_improvement := 0;
     processing_times := []; loss_var := None;
     validation_accuracy := None; correct_val := None |}.

(** The whole epoch loop, from the initial variables. *)
Definition epoch_loop : M (list event) locals :=
  for_break (range (epochs args)) epoch_body init_locals.

End Loop.

(** [train_simulated] *)
Definition train_simulated : M (list event) FoldResult :=
  split_y_test <- lift (Numpy.array_split (seq 0 n_val) (processors args)) ;;
  y_val_fold <- lift (getitem split_y_test fold) ;;
  let activation_var := choose_activation (activation args) in
  a <- read_local "activation_fn" activation_var ;;
  emit (EvModelBuilt a) ;;;
  let criterion := choose_criterion (loss args) in
  let optimizer_var := choose_optimizer (optimizer args) in
  (if bool_decide (batch_size args <= 0) then raise ValueError else ret tt) ;;;
  st <- epoch_loop criterion optimizer_var (length y_val_fold) ;;
  slowest <- lift (max (processing_times st)) ;;
  emit (EvPrintProcessingTime slowest) ;;;
  emit EvForwardTrainSet ;;;
  l <- read_local "loss" (loss_var st) ;;
  va <- read_local "validation_accuracy" (validation_accuracy st) ;;
  cv <- read_local "correct_val" (correct_val st) ;;
  ret {| final_loss := l; final_validation_accuracy := va;
         correct_classifications_train := final_train_correct o;
         final_correct_val := cv; len_y_val_fold := length y_val_fold;
         slowest_processing_time := slowest |}.

End TrainSimulated.

(** *** The early-stopping policy as the spec words it

    A state machine with [best_validation_loss] (initially +infinity) and
    a counter of epochs without improvement (initially 0); on a validation
    loss [v]: if [v < best_validation_loss], take [v] as the best and reset
    the counter, else increment the counter; stopped when the counter has
    reached the patience. *)
Record es_state := { best_validation_loss : pyfloat; counter : Z }.

Definition es_init : es_state := {| best_validation_loss := PInf; counter := 0 |}.

Definition es_update (s : es_state) (v : pyfloat) : es_state :=
  if float_lt v (best_validation_loss s)
  then {| best_validation_loss := v; counter := 0 |}
  else {| best_validation_loss := best_validation_loss s; counter := counter s + 1 |}.

Definition es_stopped (patience_ : Z) (s : es_state) : Prop := patience_ <= counter s.

(** The state after the first [k] epochs of a run. *)
Definition es_after (o : oracle) (k : nat) : es_state :=
  fold_left es_update (val_loss o <$> seq 0 k) es_init.

(** The epochs a trace has started. *)
Definition epochs_started (tr : list event) : list nat :=
  omap (fun e => match e with EvEpochStart k => Some k | _ => None end) tr.

(** The optimizer steps a trace has taken, as (epoch, batch). *)
Definition optimizer_steps (tr : list event) : list (nat * nat) :=
  omap (fun e => match e with EvOptimizerStep k b => Some (k, b) | _ => None end) tr.

(** The batches a trace has run forward, as (epoch, batch). *)
Definition forward_passes (tr : list event) : list (nat * nat) :=
  omap (fun e => match e with EvForward k b => Some (k, b) | _ => None end) tr.

End Worker.

(** ** [EXTENDED_REAL_PAR8020/main_p8020_EXT.py]: the real-parallel driver *)

Module KFoldMain.
Import Py.

(** The options the script reads from [args]. *)
Record Args := {
  folds : Z;
  processors : Z;
  batch_size : Z;
  epochs : Z;
  ds : string
}.

(** [s.upper()] on ASCII letters. *)
Definition upper_ascii (c : ascii) : ascii :=
  let n := nat_of_ascii c in
  if bool_decide (97 <= n <= 122)%nat then ascii_of_nat (n - 32) else c.

Fixpoint upper (s : string) : string :=
  match s with
  | EmptyString => EmptyString
  | String c s' => String (upper_ascii c) (upper s')
  end.

Inductive architecture := LeNet | VGG11.

(** [KFold(n_splits=k)]: scikit-learn rejects fewer than two splits when
    the splitter is built. *)
Definition KFold (n_splits : Z) : result Z :=
  if bool_decide (n_splits <= 1) then Raise ValueError else Ok n_splits.

(** [kf.split(X)] without shuffling, over [n] samples: the validation
    blocks are the consecutive pieces [array_split] cuts, the training
    indices of a fold are all the others; more folds than samples raise
    [ValueError]. *)
Definition kfold_split (n : nat) (k : Z) : result (list (list nat * list nat)) :=
  if bool_decide (Z.of_nat n < k) then Raise ValueError
  else
    match Numpy.array_split (seq 0 n) k with
    | Raise e => Raise e
    | Ok blocks =>
        Ok ((fun val_idx =>
               (filter (fun i => i ∉ val_idx) (seq 0 n), val_idx)) <$> blocks)
    end.

Section Main.
Context {Model : Type}.

(** The first three components of the tuple a fold returns: [result[0]],
    [result[1]] and [result[2]], the only ones [main] reads. *)
Record FoldResult := {
  loss : Qc;
  accuracy : Qc;
  model : Model
}.

(** The worker function [train] (module [train_p8020_EXT], absent from the
    sources) is a parameter: what fold [fold] returns for its index sets. *)
Variable train : nat -> list nat -> list nat -> FoldResult.

(** The opaque network: a fresh instance of an architecture, one optimizer
    step on batch [b] of epoch [e], and the accuracy [test_model] measures
    for a model on the held-out test set. *)
Variable fresh_model : architecture -> Model.
Variable sgd_step : Model -> nat -> nat -> Model.
Variable test_accuracy_of : Model -> Qc.

(** The wall-clock time of the pool, as measured by [parallel_kfold]. *)
Variable elapsed_time : Qc.

Inductive event :=
| EvPrintSplit (n_train n_test : nat)
| EvSkipCrossValidation            (* print "Folds is set to 1. Skipping ..." *)
| EvOptimizerStep (epoch batch : nat)
| EvStarmap (n_folds : nat)        (* pool.starmap(train, ...) over that many folds *)
| EvTestModel (m : Model)          (* test_model(m, X_test, y_test, device) *)
| EvPrintSingle (test_accuracy_pct : Qc)
| EvPrintCrossValidation (average_validation_accuracy_pct test_accuracy_pct : Qc)
                         (total_elapsed_time : Qc).

Definition emit (e : event) : M (list event) unit :=
  modify (fun tr => tr ++ [e]).

Variable args : Args.
Variable n_samples : nat.   (* len(X), the whole dataset *)
Variable n_train : nat.     (* len(y_train) after train_test_split *)
Variable n_test : nat.      (* len(y_test) *)

(** [parallel_kfold]: the pool, one call of [train] per fold, the results
    in submission order. *)
Definition parallel_kfold : M (list event) (list FoldResult * Qc) :=
  kf <- lift (KFold (folds args)) ;;
  (if bool_decide (processors args < 1) then raise ValueError else ret tt) ;;;
  splits <- lift (kfold_split n_samples kf) ;;
  emit (EvStarmap (length splits)) ;;;
  let results := imap (fun fold '(train_idx, val_idx) => train fold train_idx val_idx) splits in
  ret (results, elapsed_time).

(** The branch of [main] taken when [args.folds < 2]. *)
Definition train_whole_set : M (list event) unit :=
  emit EvSkipCrossValidation ;;;
  let model0 :=
    fresh_model (if String.eqb (upper (ds args)) "MNIST" then LeNet else VGG11) in
  (if bool_decide (batch_size args <= 0) then raise ValueError else ret tt) ;;;
  let num_batches :=
    Z.to_nat ((Z.of_nat n_train + batch_size args - 1) / batch_size args) in
  trained <- for_fold (range (epochs args)) (fun epoch m =>
      for_fold (seq 0 num_batches) (fun b m' =>
          emit (EvOptimizerStep epoch b) ;;; ret (sgd_step m' epoch b)) m)
    model0 ;;
  emit (EvTestModel trained) ;;;
  emit (EvPrintSingle (test_accuracy_of trained * Qc_of_Z 100)%Qc).

(** The branch of [main] after [parallel_kfold] has returned: selection of
    the best fold, test of its model, report. *)
Definition select_and_report (results : list FoldResult) (total_elapsed_time : Qc)
    : M (list event) unit :=
  let losses := loss <$> results in
  let accuracies := accuracy <$> results in
  best <- lift (max accuracies) ;;
  best_model_idx <- lift (index accuracies best) ;;
  best_result <- lift (getitem results best_model_idx) ;;
  let best_model := model best_result in
  emit (EvTestModel best_model) ;;;
  let test_accuracy := test_accuracy_of best_model in
  average <- lift (div (sum accuracies) (Z.of_nat (length accuracies))) ;;
  emit (EvPrintCrossValidation (average * Qc_of_Z 100)%Qc
                               (test_accuracy * Qc_of_Z 100)%Qc total_elapsed_time).

(** [main] *)
Definition main : M (list event) unit :=
  emit (EvPrintSplit n_train n_test) ;;;
  if bool_decide (folds args < 2) then train_whole_set
  else
    r <- parallel_kfold ;;
    select_and_report r.1 r.2.


End Main.
Arguments FoldResult : clear implicits.
Arguments event : clear implicits.

End KFoldMain.

(** * Specification-side definitions

    What the statements below need to speak about the runs: projections
    of traces, the spec's wording of a property, closed forms of what a
    loop computes. *)

(** The sizes [array_split] gives to [sections] pieces of [total] rows. *)
Definition section_sizes (total sections : nat) : list nat :=
  replicate (total mod sections) (total / sections + 1)%nat
  ++ replicate (sections - total mod sections) (total / sections)%nat.

(** The agents created for the pieces [sx] and [sy], with the ids
    [k], ..., [k + n - 1]. *)
Definition shard_agents {A B} (sx : list (list A)) (sy : list (list B)) (k n : nat)
    : list (MAS.agent A B) :=
  map (fun i => MAS.ProcessorAgent i (sx !!! i) (sy !!! i)) (seq k n).

(** The models a trace of the driver has passed to [test_model]. *)
Definition tested_models {Model} (tr : list (KFoldMain.event Model)) : list Model :=
  omap (fun e => match e with KFoldMain.EvTestModel m => Some m | _ => None end) tr.

(** The sum of [f k], ..., [f (k + n - 1)]. *)
Fixpoint sumZ_over (f : nat -> Z) (k n : nat) : Z :=
  match n with
  | O => 0
  | S n' => f k + sumZ_over f (S k) n'
  end.

(** The events of the batches [k], ..., [k + n - 1] of an epoch when both
    the optimizer and the criterion are bound. *)
Definition batch_events (epoch k n : nat) : list Worker.event :=
  flat_map (fun b => [Worker.EvZeroGrad epoch b; Worker.EvForward epoch b;
                      Worker.EvBackward epoch b; Worker.EvOptimizerStep epoch b])
           (seq k n).

(** The early-stopping variables of the code, read as a state of the
    spec's machine. *)
Definition locals_es (st : Worker.locals) : Worker.es_state :=
  {| Worker.best_validation_loss := Worker.best_val_loss st;
     Worker.counter := Worker.epochs_without_improvement st |}.

(** The spec's machine run from [s0] over the epochs [k], ..., [k + j - 1]. *)
Definition es_run (o : Worker.oracle) (s0 : Worker.es_state) (k j : nat) : Worker.es_state :=
  fold_left Worker.es_update (Worker.val_loss o <$> seq k j) s0.

(** The epochs (counted from 1) at which a trace announces early stopping. *)
Definition early_stops (tr : list Worker.event) : list nat :=
  omap (fun e => match e with Worker.EvEarlyStop k => Some k | _ => None end) tr.





(** The sum of a tensor of the running weights and the tensor an agent
    has under the same name. *)
Definition add_tensors (t v : option MAS.tensor) : option MAS.tensor :=
  match t, v with
  | Some t, Some v => Some (zip_with Qcplus t v)
  | Some t, None => Some t
  | None, _ => None
  end.

(** The agents, by id, whose model a trace has overwritten. *)
Definition loads (tr : list MAS.event) : list nat :=
  omap (fun e => match e with MAS.EvLoadStateDict uid => Some uid | _ => None end) tr.

(** The summary figures a trace has printed: cumulative time, average
    time per node, total correct, total processed, accuracy in percent. *)
Definition reports (tr : list MAS.event) : list (Qc * Qc * Z * Z * Qc) :=
  omap (fun e => match e with
                 | MAS.EvReport c a tc tp fa => Some (c, a, tc, tp, fa)
                 | _ => None
                 end) tr.

(** What the spec asks of a step with a single processor: no weight
    synchronization at all, so no model is overwritten. *)
Definition no_synchronization {A B} (s : MAS.model_state A B) : Prop :=
  loads (MAS.trace s) = [].

(** The accuracy of one worker, the mean of these accuracies over the
    workers, and the accuracy pooled over the workers. *)
Definition worker_accuracy {A B} (a : MAS.agent A B) : Qc :=
  (Qc_of_Z (MAS.correct_classifications a)
   / Qc_of_Z (MAS.total_examples_processed a))%Qc.

Definition mean_of_accuracies {A B} (ags : list (MAS.agent A B)) : Qc :=
  (foldr Qcplus 0%Qc (worker_accuracy <$> ags) / Qc_of_Z (Z.of_nat (length ags)))%Qc.

Definition pooled_accuracy {A B} (ags : list (MAS.agent A B)) : Qc :=
  (Qc_of_Z (foldr Z.add 0%Z (MAS.correct_classifications <$> ags))
   / Qc_of_Z (foldr Z.add 0%Z (MAS.total_examples_processed <$> ags)))%Qc.

Global Instance MAS_event_eq_dec : EqDecision MAS.event.
Proof. solve_decision. Defined.

(** The average validation accuracies (in percent) a trace of the driver
    has printed. *)
Definition average_accuracy_reports {Model} (tr : list (KFoldMain.event Model)) : list Qc :=
  omap (fun e => match e with
                 | KFoldMain.EvPrintCrossValidation avg _ _ => Some avg
                 | _ => None
                 end) tr.

(** The models the agents hold, in the order of the agents. *)
Definition held_models {A B} (ags : list (MAS.agent A B)) : list (gmap string (list Qc)) :=
  omap MAS.neural_net_model ags.

(** The running weights [g] after the state dicts [ms] have been added,
    and the arithmetic mean of the state dicts [ms] over the names and
    shapes of [sd]. *)
Definition sum_models (g : gmap string (list Qc)) (ms : list (gmap string (list Qc)))
    : gmap string (list Qc) :=
  fold_left (merge add_tensors) ms g.

Definition mean_models (sd : gmap string (list Qc)) (ms : list (gmap string (list Qc)))
    : gmap string (list Qc) :=
  (fun t => MAS.tensor_idiv t (length ms)) <$> sum_models (MAS.zeros_like <$> sd) ms.

(** Component [j] of the tensor named [k] in a state dict ([0] if there
    is none). *)
Definition component (m : gmap string (list Qc)) (k : string) (j : nat) : Qc :=
  default 0%Qc (m !! k ≫= fun t => t !! j).

(** Two agents that differ at most in the values of their parameters:
    same id, shard, metrics, and either both without a model or both with
    models of the same names and shapes. *)
Definition same_but_parameters {A B} (a a' : MAS.agent A B) : Prop :=
  MAS.unique_id a' = MAS.unique_id a /\
  MAS.X_train a' = MAS.X_train a /\
  MAS.y_train a' = MAS.y_train a /\
  MAS.fold_loss a' = MAS.fold_loss a /\
  MAS.processing_time a' = MAS.processing_time a /\
  MAS.correct_classifications a' = MAS.correct_classifications a /\
  MAS.total_examples_processed a' = MAS.total_examples_processed a /\
  fmap (M := gmap string) length <$> MAS.neural_net_model a'
  = fmap (M := gmap string) length <$> MAS.neural_net_model a.

(** A model state with another processor count. *)
Definition with_processors {A B} (k : Z) (s : MAS.model_state A B) : MAS.model_state A B :=
  {| MAS.num_processors := k; MAS.model_X_train := MAS.model_X_train s;
     MAS.model_y_train := MAS.model_y_train s; MAS.agents := MAS.agents s;
     MAS.trace := MAS.trace s |}.

(** The part of a model state that synchronization leaves alone. *)
Definition frame_of {A B} (s s' : MAS.model_state A B) : Prop :=
  MAS.num_processors s' = MAS.num_processors s /\
  MAS.model_X_train s' = MAS.model_X_train s /\
  MAS.model_y_train s' = MAS.model_y_train s /\
  Forall2 same_but_parameters (MAS.agents s) (MAS.agents s').

(** The summary of a round over the agents [ags]. *)
Definition summary_of {A B} (ags : list (MAS.agent A B)) : MAS.event :=
  let cumulative_time := Py.sum (MAS.processing_time <$> ags) in
  let total_correct := Py.sumZ (MAS.correct_classifications <$> ags) in
  let total_processed := Py.sumZ (MAS.total_examples_processed <$> ags) in
  MAS.EvReport cumulative_time
    (cumulative_time / Qc_of_Z (Z.of_nat (length ags)))%Qc
    total_correct total_processed
    (Qc_of_Z total_correct / Qc_of_Z total_processed * Qc_of_Z 100)%Qc.

(** The state after the local passes of a round. *)
Definition after_local_pass {A B} (agent_step : MAS.agent A B -> MAS.agent A B)
    (s : MAS.model_state A B) : MAS.model_state A B :=
  MAS.set_agents (map agent_step) s.

Definition with_trace {A B} (tr : list MAS.event) (s : MAS.model_state A B)
    : MAS.model_state A B :=
  {| MAS.num_processors := MAS.num_processors s;
     MAS.model_X_train := MAS.model_X_train s;
     MAS.model_y_train := MAS.model_y_train s;
     MAS.agents := MAS.agents s; MAS.trace := tr |}.

(** The synchronization callbacks of a trace, by epoch. *)
Definition sync_callbacks (tr : list Worker.event) : list nat :=
  omap (fun e => match e with Worker.EvSyncCallback k => Some k | _ => None end) tr.

(** The batches [(epoch, batch)] of the epochs [k], ..., [k + m - 1], each
    of [nb] batches, in the order in which a run visits them. *)
Definition all_batches (nb k m : nat) : list (nat * nat) :=
  flat_map (fun e => (fun b => (e, b)) <$> seq 0 nb) (seq k m).

(** The length of piece [fold] of [n_val] rows split over [processors]
    pieces. *)
Definition val_slice_len (n_val : nat) (processors : Z) (fold : nat) : nat :=
  let p := Z.to_nat processors in
  (n_val / p + (if decide (fold < n_val mod p) then 1 else 0))%nat.

(** The accuracy, in percent, of [correct] out of [total]. *)
Definition percent (correct : Z) (total : nat) : Qc :=
  (Qc_of_Z correct / Qc_of_Z (Z.of_nat total) * Qc_of_Z 100)%Qc.

(** The events of epoch [epoch] when nothing raises; [stop] tells whether
    the epoch ends in the early-stopping announcement. *)
Definition epoch_events (n_train : nat) (args : Worker.Args) (o : Worker.oracle)
    (len_val epoch : nat) (stop : bool) : list Worker.event :=
  let nb := Worker.num_batches n_train args in
  [Worker.EvEpochStart epoch] ++ batch_events epoch 0 nb
  ++ [Worker.EvSyncCallback epoch; Worker.EvValidation epoch;
      Worker.EvPrintEpoch (S epoch) (Worker.val_loss o epoch)
        (percent (sumZ_over (Worker.batch_correct o epoch) 0 nb) n_train)
        (percent (Worker.val_correct o epoch) len_val)]
  ++ (if stop then [Worker.EvEarlyStop (S epoch)] else []).

(** The local variables after epoch [epoch] has completed from [st]. *)
Definition locals_after_epoch (n_train : nat) (args : Worker.Args) (o : Worker.oracle)
    (len_val epoch : nat) (st : Worker.locals) : Worker.locals :=
  Worker.update_early_stopping (Worker.val_loss o epoch)
    {| Worker.best_val_loss := Worker.best_val_loss st;
       Worker.epochs_without_improvement := Worker.epochs_without_improvement st;
       Worker.processing_times :=
         Worker.processing_times st ++ [Worker.epoch_duration o epoch];
       Worker.loss_var :=
         Some (Worker.batch_loss o epoch (Worker.num_batches n_train args - 1));
       Worker.validation_accuracy := Some (percent (Worker.val_correct o epoch) len_val);
       Worker.correct_val := Some (Worker.val_correct o epoch) |}.



(** * The shapes of the tensors through the two networks

    The values a network computes are opaque; the shapes of its tensors
    are not.  A batch of images has the shape [(batch, channels, height,
    width)]; after flattening a tensor has the shape [(rows, features)].
    Every shape error is a [RuntimeError]. *)
Module Shapes.
Import Py.

Record images := { batch : nat; channels : nat; height : nat; width : nat }.

Definition and_then {T U} (r : result T) (f : T -> result U) : result U :=
  match r with
  | Ok x => f x
  | Raise e => Raise e
  end.

(** [nn.Conv2d(in_channels, out_channels, kernel_size, stride=1,
    padding)] on a batch: the channels must be [in_channels] and the
    padded image at least as large as the kernel. *)
Definition conv2d (in_channels out_channels kernel_size padding : nat) (x : images)
    : result images :=
  if bool_decide (channels x = in_channels
                  /\ kernel_size <= height x + 2 * padding
                  /\ kernel_size <= width x + 2 * padding)%nat
  then Ok {| batch := batch x; channels := out_channels;
             height := height x + 2 * padding - kernel_size + 1;
             width := width x + 2 * padding - kernel_size + 1 |}
  else Raise RuntimeError.

(** [nn.AvgPool2d(kernel_size=2, stride=2)] and [nn.MaxPool2d(2)]: the
    image must be at least as large as the window. *)
Definition pool2d (x : images) : result images :=
  if bool_decide (2 <= height x /\ 2 <= width x)%nat
  then Ok {| batch := batch x; channels := channels x;
             height := height x / 2; width := width x / 2 |}
  else Raise RuntimeError.

Definition numel (x : images) : nat :=
  (batch x * (channels x * height x * width x))%nat.

(** [x.view(x.size(0), -1)]: with no row the size of [-1] cannot be
    inferred. *)
Definition view_keep_batch (x : images) : result (nat * nat) :=
  if bool_decide (batch x = 0%nat) then Raise RuntimeError
  else Ok (batch x, (channels x * height x * width x)%nat).

(** [x.view(-1, features)], for [features > 0]: the number of elements
    must be a multiple of [features]. *)
Definition view_rows (features : nat) (x : images) : result (nat * nat) :=
  if bool_decide (numel x mod features = 0)%nat
  then Ok ((numel x / features)%nat, features)
  else Raise RuntimeError.

(** [nn.Linear(in_features, out_features)] *)
Definition linear (in_features out_features : nat) (x : nat * nat) : result (nat * nat) :=
  if bool_decide (x.2 = in_features) then Ok (x.1, out_features)
  else Raise RuntimeError.

(** [LeNet5.forward]; the activations keep the shapes. *)
Definition LeNet5_forward (num_classes : nat) (x : images) : result (nat * nat) :=
  and_then (conv2d 1 6 5 2 x) (fun x =>
  and_then (pool2d x) (fun x =>
  and_then (conv2d 6 16 5 0 x) (fun x =>
  and_then (pool2d x) (fun x =>
  and_then (view_keep_batch x) (fun x =>
  and_then (linear (16 * 5 * 5) 120 x) (fun x =>
  and_then (linear 120 84 x) (fun x =>
  linear 84 num_classes x))))))).

(** [LeNet.forward] of the driver. *)
Definition LeNet_forward (x : images) : result (nat * nat) :=
  and_then (conv2d 1 6 5 0 x) (fun x =>
  and_then (pool2d x) (fun x =>
  and_then (conv2d 6 16 5 0 x) (fun x =>
  and_then (pool2d x) (fun x =>
  and_then (view_rows (16 * 4 * 4) x) (fun x =>
  and_then (linear (16 * 4 * 4) 120 x) (fun x =>
  and_then (linear 120 84 x) (fun x =>
  linear 84 10 x))))))).

End Shapes.

(** * Proofs *)

(** ** [array_split] *)

Section ArraySplit.
Context {A : Type}.
Implicit Types (l : list A) (sizes : list nat).

Lemma slices_reshape l sizes off :
  map (fun i => Numpy.slice l ((off :: Numpy.cumsum_from off sizes) !!! i)
                              ((off :: Numpy.cumsum_from off sizes) !!! (i + 1)%nat))
      (seq 0 (length sizes))
  = reshape sizes (drop off l).
Proof.
  revert off. induction sizes as [|n ns IH]; intros off; [done|].
  cbn [length seq map reshape Numpy.cumsum_from].
  f_equal.
  - unfold Numpy.slice. cbn. f_equal. lia.
  - rewrite <- seq_shift, map_map, drop_drop, <- (IH (off + n)%nat).
    apply map_ext. intros i. reflexivity.
Qed.

Lemma reshape_sizes l sizes :
  (sum_list sizes <= length l)%nat ->
  length <$> reshape sizes l = sizes.
Proof.
  revert l. induction sizes as [|n ns IH]; intros l Hle; cbn in *; [done|].
  rewrite length_take, IH by (rewrite length_drop; lia).
  f_equal. lia.
Qed.

Lemma section_sizes_sum total sections :
  (0 < sections)%nat -> sum_list (section_sizes total sections) = total.
Proof.
  intros Hpos. unfold section_sizes.
  rewrite sum_list_with_app, !sum_list_replicate.
  pose proof (Nat.mod_upper_bound total sections ltac:(lia)) as Hlt.
  pose proof (Nat.div_mod_eq total sections) as Heq.
  nia.
Qed.

Lemma section_sizes_length total sections :
  (0 < sections)%nat -> length (section_sizes total sections) = sections.
Proof.
  intros Hpos. unfold section_sizes.
  pose proof (Nat.mod_upper_bound total sections ltac:(lia)).
  rewrite length_app, !length_replicate. lia.
Qed.

Lemma section_sizes_near total sections n :
  n ∈ section_sizes total sections ->
  n = (total / sections)%nat \/ n = (total / sections + 1)%nat.
Proof.
  unfold section_sizes. rewrite elem_of_app.
  intros [H|H]; apply elem_of_replicate in H as [-> _]; auto.
Qed.

(** [array_split] cuts the list into the pieces of its section sizes. *)
Lemma array_split_reshape l (sections : Z) :
  1 <= sections ->
  Numpy.array_split l sections
  = Py.Ok (reshape (section_sizes (length l) (Z.to_nat sections)) l).
Proof.
  intros Hpos. unfold Numpy.array_split.
  rewrite bool_decide_eq_false_2 by lia.
  cbv zeta. f_equal.
  fold (section_sizes (length l) (Z.to_nat sections)).
  unfold Numpy.cumsum. cbn [Numpy.cumsum_from Nat.add].
  pose proof (slices_reshape l (section_sizes (length l) (Z.to_nat sections)) 0) as H.
  rewrite section_sizes_length, drop_0 in H by lia. exact H.
Qed.

Lemma NoDup_join_disjoint (ls : list (list A)) i j a b :
  NoDup (mjoin ls) -> i ≠ j -> ls !! i = Some a -> ls !! j = Some b -> a ## b.
Proof.
  revert i j. induction ls as [|c ls IH]; intros i j Hnd Hne Hi Hj; [done|].
  cbn in Hnd. apply NoDup_app in Hnd as (Hc & Hdis & Hrest).
  destruct i as [|i], j as [|j]; simplify_eq/=.
  - intros x Hx Hxb. apply (Hdis x Hx).
    apply list_elem_of_join. exists b. split; [done|]. by eapply list_elem_of_lookup_2.
  - intros x Hxa Hx. apply (Hdis x Hx).
    apply list_elem_of_join. exists a. split; [done|]. by eapply list_elem_of_lookup_2.
  - apply (IH i j); auto with lia.
Qed.

End ArraySplit.

(** ** The monad *)

Ltac unfold_monad :=
  unfold Py.read_local;
  unfold Py.bind, Py.ret, Py.lift, Py.get, Py.modify, Py.raise.

(** ** Sharding: [_split_data_and_create_agents] *)

Section Sharding.
Context {A B : Type}.
Implicit Types (X : list A) (y : list B).

Lemma map_lookup_total_seq {T} `{Inhabited T} (l : list T) :
  map (fun i => l !!! i) (seq 0 (length l)) = l.
Proof.
  apply list_eq. intros i. rewrite list_lookup_fmap.
  destruct (decide (i < length l)%nat) as [Hlt|Hge].
  - rewrite lookup_seq_lt by done. cbn.
    by rewrite (list_lookup_lookup_total_lt l i).
  - rewrite lookup_seq_ge by lia. cbn. symmetry. apply lookup_ge_None. lia.
Qed.

Lemma create_agents_loop sx sy n : forall k (s : MAS.model_state A B),
  (k + n <= length sx)%nat -> (k + n <= length sy)%nat ->
  Py.for_each (seq k n) (fun i =>
      X_i <- Py.lift (Py.getitem sx i) ;;
      y_i <- Py.lift (Py.getitem sy i) ;;
      MAS.schedule_add (MAS.ProcessorAgent i X_i y_i)) s
  = (MAS.set_agents (fun l => l ++ shard_agents sx sy k n) s, Py.Ok tt).
Proof.
  induction n as [|n IH]; intros k s Hx Hy.
  - destruct s. cbn. unfold MAS.set_agents, Py.ret. cbn. by rewrite app_nil_r.
  - cbn [seq Py.for_each]. unfold Py.bind at 1. unfold Py.bind at 1.
    unfold Py.lift at 1, Py.getitem at 1.
    rewrite (list_lookup_lookup_total_lt sx k) by lia.
    unfold Py.bind at 1. unfold Py.lift at 1, Py.getitem at 1.
    rewrite (list_lookup_lookup_total_lt sy k) by lia.
    unfold MAS.schedule_add, Py.modify.
    rewrite IH by lia.
    destruct s. unfold MAS.set_agents, shard_agents. cbn.
    by rewrite <- app_assoc.
Qed.

Lemma init_shards X y (N : Z) :
  1 <= N ->
  MAS.init X y N
  = ({| MAS.num_processors := N; MAS.model_X_train := X; MAS.model_y_train := y;
        MAS.agents :=
          shard_agents (reshape (section_sizes (length X) (Z.to_nat N)) X)
                       (reshape (section_sizes (length y) (Z.to_nat N)) y)
                       0 (Z.to_nat N);
        MAS.trace := [] |}, Py.Ok tt).
Proof.
  intros HN. unfold MAS.init, MAS._split_data_and_create_agents.
  unfold Py.bind at 1. unfold Py.get at 1. cbn [MAS.num_processors].
  case_bool_decide as H1.
  - subst N. cbn [MAS.model_X_train MAS.model_y_train].
    unfold MAS.schedule_add, Py.modify, MAS.set_agents. cbn.
    unfold section_sizes. rewrite !Nat.mod_1_r, !Nat.div_1_r. cbn.
    change (Z.to_nat 1) with 1%nat. unfold shard_agents. cbn.
    by rewrite !firstn_all.
  - cbn [MAS.model_X_train MAS.model_y_train].
    unfold Py.bind at 1. unfold Py.lift at 1. rewrite array_split_reshape by done.
    unfold Py.bind at 1. unfold Py.lift at 1. rewrite array_split_reshape by done.
    unfold Py.range.
    rewrite create_agents_loop;
      [done | rewrite length_reshape, section_sizes_length; lia ..].
Qed.

End Sharding.

Section ShardingFacts.
Context {A B : Type}.

Lemma shard_agents_X_train (sx : list (list A)) (sy : list (list B)) :
  MAS.X_train <$> shard_agents sx sy 0 (length sx) = sx.
Proof.
  unfold shard_agents. rewrite <- list_fmap_compose.
  etrans; [|apply (map_lookup_total_seq sx)]. by apply map_ext.
Qed.

Lemma shard_agents_y_train (sx : list (list A)) (sy : list (list B)) :
  MAS.y_train <$> shard_agents sx sy 0 (length sy) = sy.
Proof.
  unfold shard_agents. rewrite <- list_fmap_compose.
  etrans; [|apply (map_lookup_total_seq sy)]. by apply map_ext.
Qed.

Lemma shard_agents_unique_id (sx : list (list A)) (sy : list (list B)) k n :
  MAS.unique_id <$> shard_agents sx sy k n = seq k n.
Proof.
  unfold shard_agents. rewrite <- list_fmap_compose.
  etrans; [|apply (list_fmap_id (seq k n))]. by apply map_ext.
Qed.

End ShardingFacts.

(** C7.  For every training set and every shard count [N >= 1], the model
    creates [N] agents, numbered from 0, whose shards are consecutive
    pieces of the training set in the original order: their concatenation
    is the training set (inputs and labels alike), any two shard sizes
    differ by at most 1, and distinct shards of a duplicate-free training
    set are disjoint. *)
Theorem shards_partition_training_set {A B} (X : list A) (y : list B) (N : Z) :
  1 <= N ->
  let out := MAS.init X y N in
  let shards := MAS.X_train <$> MAS.agents out.1 in
  out.2 = Py.Ok tt /\
  length shards = Z.to_nat N /\
  MAS.unique_id <$> MAS.agents out.1 = seq 0 (Z.to_nat N) /\
  mjoin shards = X /\
  mjoin (MAS.y_train <$> MAS.agents out.1) = y /\
  (forall a b, a ∈ shards -> b ∈ shards -> (length a <= length b + 1)%nat) /\
  (NoDup X -> forall i j a b,
     i ≠ j -> shards !! i = Some a -> shards !! j = Some b -> a ## b).
Proof.
  intros HN. rewrite init_shards by done. cbn [fst snd MAS.agents].
  set (n := Z.to_nat N).
  assert (Hn : (0 < n)%nat) by (subst n; lia).
  set (sx := reshape (section_sizes (length X) n) X).
  set (sy := reshape (section_sizes (length y) n) y).
  assert (Hlx : length sx = n)
    by (subst sx; rewrite length_reshape; by apply section_sizes_length).
  assert (Hly : length sy = n)
    by (subst sy; rewrite length_reshape; by apply section_sizes_length).
  assert (HX : MAS.X_train <$> shard_agents sx sy 0 n = sx)
    by (rewrite <- Hlx at 1; apply shard_agents_X_train).
  assert (Hy : MAS.y_train <$> shard_agents sx sy 0 n = sy)
    by (rewrite <- Hly at 1; apply shard_agents_y_train).
  cbv zeta. rewrite HX, Hy, shard_agents_unique_id.
  assert (Hjoin : mjoin sx = X)
    by (subst sx; apply join_reshape; by apply section_sizes_sum).
  split_and!; try done.
  - subst sy. apply join_reshape. by apply section_sizes_sum.
  - intros a b Ha Hb.
    assert (Hsz : length <$> sx = section_sizes (length X) n).
    { subst sx. apply reshape_sizes. by rewrite section_sizes_sum. }
    assert (Hin : forall c, c ∈ sx -> length c ∈ section_sizes (length X) n).
    { intros c Hc. rewrite <- Hsz. by apply list_elem_of_fmap_2. }
    apply Hin, section_sizes_near in Ha. apply Hin, section_sizes_near in Hb.
    lia.
  - intros Hnd i j a b Hne Hi Hj.
    apply (NoDup_join_disjoint sx i j); by rewrite ?Hjoin.
Qed.

Lemma shards_partition_training_set_witness :
  let out := MAS.init [10; 20; 30; 40; 50] [1; 0; 1; 0; 1] 2 in
  let shards := MAS.X_train <$> MAS.agents out.1 in
  out.2 = Py.Ok tt /\
  length shards = Z.to_nat 2 /\
  MAS.unique_id <$> MAS.agents out.1 = seq 0 (Z.to_nat 2) /\
  mjoin shards = [10; 20; 30; 40; 50] /\
  mjoin (MAS.y_train <$> MAS.agents out.1) = [1; 0; 1; 0; 1] /\
  (forall a b, a ∈ shards -> b ∈ shards -> (length a <= length b + 1)%nat) /\
  (NoDup [10; 20; 30; 40; 50] -> forall i j a b,
     i ≠ j -> shards !! i = Some a -> shards !! j = Some b -> a ## b).
Proof.
  apply (shards_partition_training_set [10; 20; 30; 40; 50] [1; 0; 1; 0; 1] 2).
  lia.
Defined.

(** ** Python builtins: [max], [index], [sum] *)

Section Builtins.
Local Open Scope Qc_scope.

Lemma running_max_spec (xs : list Qc) : forall m0,
  let m := fold_left (fun m y => if bool_decide (m < y) then y else m) xs m0 in
  (m = m0 \/ m ∈ xs) /\ m0 ≤ m /\ (forall x, x ∈ xs -> x ≤ m).
Proof.
  induction xs as [|y xs IH]; intros m0; cbn.
  - split_and!; [by left | apply Qcle_refl | intros x Hx; by apply elem_of_nil in Hx].
  - destruct (IH (if bool_decide (m0 < y) then y else m0)) as (Hin & Hle & Hall).
    case_bool_decide as Hlt.
    + split_and!.
      * right. destruct Hin as [->|Hin]; [left | by right].
      * eapply Qcle_trans; [by apply Qclt_le_weak | done].
      * intros x [->|Hx]%elem_of_cons; auto.
    + apply Qcnot_lt_le in Hlt. split_and!.
      * destruct Hin as [->|Hin]; [by left | right; by right].
      * done.
      * intros x [->|Hx]%elem_of_cons; [by eapply Qcle_trans | auto].
Qed.

(** [max] of a non-empty list is one of its items and bounds them all. *)
Lemma max_spec (xs : list Qc) :
  xs ≠ [] -> exists m, Py.max xs = Py.Ok m /\ m ∈ xs /\ (forall x, x ∈ xs -> x ≤ m).
Proof.
  destruct xs as [|x xs]; [done|]. intros _. eexists. split; [reflexivity|].
  destruct (running_max_spec xs x) as (Hin & Hle & Hall).
  split.
  - destruct Hin as [->|Hin]; [left | by right].
  - intros z [->|Hz]%elem_of_cons; auto.
Qed.

(** [index] returns the first position of an item that occurs. *)
Lemma index_spec (xs : list Qc) (v : Qc) :
  v ∈ xs ->
  exists i, Py.index xs v = Py.Ok i /\ xs !! i = Some v /\
            (forall j x, (j < i)%nat -> xs !! j = Some x -> x ≠ v).
Proof.
  induction xs as [|x xs IH]; [by intros ?%elem_of_nil|].
  intros Hin. cbn. case_bool_decide as Heq.
  - exists 0%nat. subst. split_and!; [done..|]. intros; lia.
  - apply elem_of_cons in Hin as [->|Hin]; [done|].
    destruct (IH Hin) as (i & -> & Hi & Hfirst).
    exists (S i). split_and!; [done..|].
    intros [|j] z Hj Hz; simplify_eq/=; [done|].
    apply (Hfirst j); [lia | done].
Qed.

(** [sum] is the sum of the items, whatever the direction of the fold. *)
Lemma sum_from (xs : list Qc) : forall a, fold_left Qcplus xs a = a + foldr Qcplus 0 xs.
Proof.
  induction xs as [|x xs IH]; intros a; cbn.
  - by rewrite Qcplus_0_r.
  - by rewrite IH, Qcplus_assoc.
Qed.

Lemma sum_foldr (xs : list Qc) : Py.sum xs = foldr Qcplus 0 xs.
Proof. unfold Py.sum. by rewrite sum_from, Qcplus_0_l. Qed.

End Builtins.

Lemma sumZ_from (xs : list Z) : forall a, fold_left Z.add xs a = a + foldr Z.add 0 xs.
Proof. induction xs as [|x xs IH]; intros a; cbn; [lia | rewrite IH; lia]. Qed.

Lemma sumZ_foldr (xs : list Z) : Py.sumZ xs = foldr Z.add 0 xs.
Proof. unfold Py.sumZ. by rewrite sumZ_from. Qed.

(** ** The best-fold selector *)

(** The run of the selection and report on a non-empty sequence. *)
Lemma select_and_report_run {Model} (test_accuracy_of : Model -> Qc)
    (results : list (KFoldMain.FoldResult Model)) (total_elapsed_time : Qc) :
  results ≠ [] ->
  exists i best,
    results !! i = Some best /\
    (forall r, r ∈ results -> (KFoldMain.accuracy r ≤ KFoldMain.accuracy best)%Qc) /\
    (forall j r, (j < i)%nat -> results !! j = Some r ->
                 (KFoldMain.accuracy r < KFoldMain.accuracy best)%Qc) /\
    forall tr,
    KFoldMain.select_and_report test_accuracy_of results total_elapsed_time tr
    = (tr ++
       [KFoldMain.EvTestModel (KFoldMain.model best);
        KFoldMain.EvPrintCrossValidation
          (Py.sum (KFoldMain.accuracy <$> results)
           / Qc_of_Z (Z.of_nat (length results)) * Qc_of_Z 100)%Qc
          (test_accuracy_of (KFoldMain.model best) * Qc_of_Z 100)%Qc
          total_elapsed_time],
       Py.Ok tt).
Proof.
  intros Hne.
  set (accuracies := KFoldMain.accuracy <$> results).
  destruct (max_spec accuracies) as (m & Hmax & Hin & Hbound).
  { subst accuracies. by destruct results. }
  destruct (index_spec accuracies m Hin) as (i & Hidx & Hi & Hfirst).
  subst accuracies.
  rewrite list_lookup_fmap in Hi.
  destruct (results !! i) as [best|] eqn:Hbest; [|done].
  injection Hi as Hacc.
  exists i, best. split_and!; [done| | |].
  - intros r Hr. rewrite Hacc. apply Hbound. by apply list_elem_of_fmap_2.
  - intros j r Hj Hr. rewrite Hacc.
    destruct (Qcle_lt_or_eq (KFoldMain.accuracy r) m) as [|Heq]; [|done|].
    + apply Hbound, list_elem_of_fmap_2. by eapply list_elem_of_lookup_2.
    + exfalso. apply (Hfirst j (KFoldMain.accuracy r)); [done| |done].
      by rewrite list_lookup_fmap, Hr.
  - intros tr. unfold KFoldMain.select_and_report, KFoldMain.emit. unfold_monad.
    rewrite Hmax, Hidx. unfold Py.getitem. rewrite Hbest.
    unfold Py.div. rewrite bool_decide_eq_false_2.
    + rewrite length_fmap, <- app_assoc. reflexivity.
    + rewrite length_fmap. destruct results; [done|]. cbn. lia.
Qed.


(** X23.  In cross-validation mode (two folds or more, no more than
    samples, a pool of one process or more) [main] trains every fold in the pool,
    then selects and tests as above: the model it passes to [test_model]
    is the one of the first fold of maximal validation accuracy. *)
Lemma main_tests_first_best {Model}
    (train : nat -> list nat -> list nat -> KFoldMain.FoldResult Model)
    (fresh_model : KFoldMain.architecture -> Model)
    (sgd_step : Model -> nat -> nat -> Model) (test_accuracy_of : Model -> Qc)
    (elapsed_time : Qc) (args : KFoldMain.Args) (n_samples n_train n_test : nat) :
  2 <= KFoldMain.folds args -> KFoldMain.folds args <= Z.of_nat n_samples ->
  1 <= KFoldMain.processors args ->
  exists results i best tr,
    length results = Z.to_nat (KFoldMain.folds args) /\
    (forall fold r, results !! fold = Some r ->
       exists train_idx val_idx, r = train fold train_idx val_idx) /\
    results !! i = Some best /\
    (forall r, r ∈ results -> (KFoldMain.accuracy r ≤ KFoldMain.accuracy best)%Qc) /\
    (forall j r, (j < i)%nat -> results !! j = Some r ->
                 (KFoldMain.accuracy r < KFoldMain.accuracy best)%Qc) /\
    KFoldMain.main train fresh_model sgd_step test_accuracy_of elapsed_time
      args n_samples n_train n_test [] = (tr, Py.Ok tt) /\
    tested_models tr = [KFoldMain.model best].
Proof.
  intros Hfolds Hsamples Hproc.
  unfold KFoldMain.main. unfold Py.bind at 1. unfold KFoldMain.emit at 1, Py.modify at 1.
  rewrite bool_decide_eq_false_2 by lia.
  unfold Py.bind at 1. unfold KFoldMain.parallel_kfold.
  unfold Py.bind at 1. unfold Py.lift at 1, KFoldMain.KFold.
  rewrite bool_decide_eq_false_2 by lia.
  unfold Py.bind at 1. rewrite bool_decide_eq_false_2 by lia. unfold Py.ret at 1.
  unfold Py.bind at 1. unfold Py.lift at 1, KFoldMain.kfold_split.
  rewrite bool_decide_eq_false_2 by lia.
  rewrite array_split_reshape by lia.
  set (blocks := reshape _ _).
  set (splits := _ <$> blocks).
  assert (Hlen : length splits = Z.to_nat (KFoldMain.folds args)).
  { subst splits blocks. rewrite length_fmap, length_reshape, section_sizes_length; lia. }
  unfold Py.bind at 1. unfold KFoldMain.emit at 1, Py.modify at 1. unfold Py.ret at 1.
  cbn [fst snd].
  set (results := imap _ splits).
  assert (Hres : length results = Z.to_nat (KFoldMain.folds args))
    by (subst results; by rewrite length_imap).
  destruct (select_and_report_run test_accuracy_of results elapsed_time)
    as (i & best & Hi & Hmax & Hfirst & Hrun).
  { intros Hnil. rewrite Hnil in Hres. cbn in Hres. lia. }
  rewrite Hrun. exists results, i, best. eexists. split_and!; try done.
  intros fold r Hr. subst results. rewrite list_lookup_imap in Hr.
  destruct (splits !! fold) as [[train_idx val_idx]|]; simplify_eq/=. eauto.
Qed.


(** The two examples of the spec: the accuracies 0.81, 0.95, 0.74 select
    the second fold; the tie 0.9, 0.9 selects the first. *)
Example selector_second_of_three :
  let r := fun (acc : Z) (m : nat) =>
    {| KFoldMain.loss := 0%Qc; KFoldMain.accuracy := (Qc_of_Z acc / Qc_of_Z 100)%Qc;
       KFoldMain.model := m |} in
  tested_models
    (KFoldMain.select_and_report (fun _ => 1%Qc) [r 81 0%nat; r 95 1%nat; r 74 2%nat]
       0%Qc []).1 = [1%nat].
Proof. vm_compute. reflexivity. Qed.

Example selector_tie_takes_lowest :
  let r := fun (acc : Z) (m : nat) =>
    {| KFoldMain.loss := 0%Qc; KFoldMain.accuracy := (Qc_of_Z acc / Qc_of_Z 100)%Qc;
       KFoldMain.model := m |} in
  tested_models
    (KFoldMain.select_and_report (fun _ => 1%Qc) [r 90 0%nat; r 90 1%nat] 0%Qc []).1
  = [0%nat].
Proof. vm_compute. reflexivity. Qed.

(** ** The worker: the batch loop and one epoch *)

Section WorkerEpoch.
Import Worker.
Variables (n_train : nat) (args : Args) (o : oracle).
Variables (c : criterion_fn) (op : optimizer_fn) (len_val : nat).

Lemma epochs_started_app (a b : list event) :
  epochs_started (a ++ b) = epochs_started a ++ epochs_started b.
Proof. apply omap_app. Qed.

Lemma early_stops_app (a b : list event) :
  early_stops (a ++ b) = early_stops a ++ early_stops b.
Proof. apply omap_app. Qed.

Lemma batch_loop_ok epoch n : forall k l ct tt tr,
  exists l',
    Py.for_fold (seq k n) (batch_body n_train args o (Some c) (Some op) epoch) (l, ct, tt) tr
    = (tr ++ batch_events epoch k n,
       Py.Ok (l', ct + sumZ_over (batch_correct o epoch) k n,
                  tt + sumZ_over (batch_len n_train args) k n))
    /\ (n = 0%nat /\ l' = l \/ is_Some l').
Proof.
  induction n as [|n IH]; intros k l ct tt tr.
  - exists l. cbn. unfold Py.ret, batch_events. cbn.
    rewrite app_nil_r, !Z.add_0_r. auto.
  - destruct (IH (S k) (Some (batch_loss o epoch k))
                (ct + batch_correct o epoch k) (tt + batch_len n_train args k)
                ((((tr ++ [EvZeroGrad epoch k]) ++ [EvForward epoch k])
                    ++ [EvBackward epoch k]) ++ [EvOptimizerStep epoch k]))
      as (l' & Heq & Hl').
    exists l'. split.
    + cbn [seq Py.for_fold]. unfold Py.bind at 1.
      unfold batch_body at 1, emit. unfold_monad. cbn.
      rewrite Heq. unfold batch_events. cbn [flat_map].
      rewrite <- !app_assoc. cbn [app sumZ_over].
      rewrite !Z.add_assoc. reflexivity.
    + right. destruct Hl' as [[_ ->]|?]; eauto.
Qed.

(** The batches of an epoch cover the training partition once. *)
Lemma batch_len_total :
  0 < batch_size args ->
  sumZ_over (batch_len n_train args) 0 (num_batches n_train args) = Z.of_nat n_train.
Proof.
  intros Hbs. unfold num_batches.
  set (bs := batch_size args) in *. set (n := Z.of_nat n_train).
  set (q := (n + bs - 1) / bs).
  assert (Hlo : bs * q <= n + bs - 1) by (apply Z.mul_div_le; lia).
  assert (Hhi : n + bs - 1 < bs * Z.succ q) by (apply Z.mul_succ_div_gt; lia).
  assert (Hq : 0 <= q) by (apply Z.div_pos; lia).
  assert (Hgen : forall m k, (k + m)%nat = Z.to_nat q ->
            sumZ_over (batch_len n_train args) k m = Z.max 0 (n - Z.of_nat k * bs)).
  { induction m as [|m IH]; intros k Hk; cbn [sumZ_over].
    - assert (Z.of_nat k = q) by lia. nia.
    - rewrite IH by lia. unfold batch_len. fold bs n.
      assert (Z.of_nat k + 1 <= q) by lia.
      assert (Z.of_nat k * bs <= n - 1) by nia.
      replace (Z.of_nat (S k)) with (Z.of_nat k + 1) by lia. nia. }
  rewrite (Hgen (Z.to_nat q) 0%nat) by lia. lia.
Qed.

(** One epoch when nothing raises: the trace grows by the events of the
    epoch, the duration is appended, the early-stopping variables follow
    the update, and the body breaks exactly when the counter has reached
    the patience. *)
Lemma epoch_body_ok epoch st tr :
  (0 < n_train)%nat -> 0 < batch_size args -> (0 < len_val)%nat ->
  exists evs st',
    epoch_body n_train args o (Some c) (Some op) len_val epoch st tr
    = (tr ++ evs, Py.Ok (st', bool_decide (patience args <= epochs_without_improvement st')))
    /\ epochs_started evs = [epoch]
    /\ early_stops evs
       = (if bool_decide (patience args <= epochs_without_improvement st')
          then [S epoch] else [])
    /\ locals_es st' = es_update (locals_es st) (val_loss o epoch)
    /\ processing_times st' = processing_times st ++ [epoch_duration o epoch]
    /\ is_Some (loss_var st')
    /\ is_Some (validation_accuracy st')
    /\ is_Some (correct_val st').
Proof.
  intros Hn Hbs Hv.
  unfold epoch_body. unfold Py.bind at 1. unfold emit at 1, Py.modify at 1.
  unfold Py.bind at 1.
  destruct (batch_loop_ok epoch (num_batches n_train args) 0 (loss_var st) 0 0
              (tr ++ [EvEpochStart epoch])) as (l' & -> & Hl').
  rewrite batch_len_total by done. rewrite !Z.add_0_l.
  assert (Hsome : is_Some l').
  { destruct Hl' as [[H0 _]|?]; [|done]. exfalso. revert H0. unfold num_batches.
    assert (1 <= (Z.of_nat n_train + batch_size args - 1) / batch_size args); [|lia].
    apply Z.div_le_lower_bound; lia. }
  unfold emit, Py.div. unfold_monad.
  rewrite !bool_decide_eq_false_2 by lia.
  cbv zeta.
  match goal with |- context [update_early_stopping ?v ?s] =>
    set (st0 := s); set (st' := update_early_stopping v st0) end.
  assert (Hes : locals_es st' = es_update (locals_es st) (val_loss o epoch)).
  { subst st' st0. unfold update_early_stopping, es_update, locals_es. cbn.
    by destruct (Py.float_lt _ _). }
  assert (Hrest : processing_times st' = processing_times st ++ [epoch_duration o epoch]
                  /\ loss_var st' = l' /\ is_Some (validation_accuracy st')
                  /\ is_Some (correct_val st')).
  { subst st' st0. unfold update_early_stopping.
    destruct (Py.float_lt _ _); cbn; eauto. }
  destruct Hrest as (Ht & Hl & Hva & Hcv).
  assert (Hnone : forall k n,
            epochs_started (batch_events epoch k n) = []
            /\ early_stops (batch_events epoch k n) = []).
  { intros k n. revert k. induction n as [|n IH]; intros k; [done|].
    apply (IH (S k)). }
  exists ([EvEpochStart epoch] ++ batch_events epoch 0 (num_batches n_train args)
          ++ [EvSyncCallback epoch; EvValidation epoch;
              EvPrintEpoch (S epoch) (val_loss o epoch)
                (Qc_of_Z (sumZ_over (batch_correct o epoch) 0 (num_batches n_train args))
                 / Qc_of_Z (Z.of_nat n_train) * Qc_of_Z 100)%Qc
                (Qc_of_Z (val_correct o epoch) / Qc_of_Z (Z.of_nat len_val)
                 * Qc_of_Z 100)%Qc]
          ++ (if bool_decide (patience args <= epochs_without_improvement st')
              then [EvEarlyStop (S epoch)] else [])), st'.
  rewrite Hl. split_and!; try done.
  - destruct (bool_decide (patience args <= epochs_without_improvement st'));
      cbn [fst snd]; rewrite <- ?app_assoc; cbn [app]; by rewrite ?app_nil_r.
  - rewrite !epochs_started_app, (proj1 (Hnone _ _)).
    by destruct (bool_decide _).
  - rewrite !early_stops_app, (proj2 (Hnone _ _)).
    by destruct (bool_decide _).
Qed.

End WorkerEpoch.

(** ** The worker: the epoch loop and early stopping *)

Section WorkerLoop.
Import Worker.
Variables (n_train : nat) (args : Args) (o : oracle).
Variables (c : criterion_fn) (op : optimizer_fn) (len_val : nat).
Hypothesis Hn : (0 < n_train)%nat.
Hypothesis Hbs : 0 < batch_size args.
Hypothesis Hv : (0 < len_val)%nat.

Lemma es_run_S s k j :
  es_run o s k (S j) = es_run o (es_update s (val_loss o k)) (S k) j.
Proof. reflexivity. Qed.

Lemma es_run_snoc s k j :
  es_run o s k (S j) = es_update (es_run o s k j) (val_loss o (k + j)).
Proof.
  unfold es_run. rewrite seq_S, fmap_app, fold_left_app. reflexivity.
Qed.

Lemma epoch_loop_ok_from n : forall k st tr,
  exists m evs st',
    Py.for_break (seq k n) (epoch_body n_train args o (Some c) (Some op) len_val) st tr
    = (tr ++ evs, Py.Ok st')
    /\ (m <= n)%nat /\ ((0 < n)%nat -> (0 < m)%nat)
    /\ epochs_started evs = seq k m
    /\ locals_es st' = es_run o (locals_es st) k m
    /\ processing_times st' = processing_times st ++ (epoch_duration o <$> seq k m)
    /\ (forall j, (0 < j < m)%nat ->
          ~ es_stopped (patience args) (es_run o (locals_es st) k j))
    /\ ((m < n)%nat -> es_stopped (patience args) (es_run o (locals_es st) k m))
    /\ ((0 < m)%nat -> es_stopped (patience args) (es_run o (locals_es st) k m) ->
          early_stops evs = [(k + m)%nat])
    /\ (~ es_stopped (patience args) (es_run o (locals_es st) k m) ->
          early_stops evs = [])
    /\ ((0 < m)%nat -> is_Some (loss_var st') /\ is_Some (validation_accuracy st')
                       /\ is_Some (correct_val st'))
    /\ (m = 0%nat -> st' = st /\ evs = []).
Proof.
  induction n as [|n IH]; intros k st tr.
  - exists 0%nat, [], st. cbn. unfold Py.ret. rewrite !app_nil_r.
    split_and!; try done; try lia.
  - cbn [seq Py.for_break]. unfold Py.bind at 1.
    destruct (epoch_body_ok n_train args o c op len_val k st tr Hn Hbs Hv)
      as (evs1 & st1 & -> & Hstart1 & Hstop1 & Hes1 & Ht1 & Hl1 & Hva1 & Hcv1).
    cbn [fst snd].
    assert (Hone : es_run o (locals_es st) k 1 = locals_es st1) by (by rewrite Hes1).
    case_bool_decide as Hbrk.
    + (* break *)
      exists 1%nat, evs1, st1. unfold Py.ret.
      split_and!; try done; try lia.
      * intros _. rewrite Hone. exact Hbrk.
      * intros _ _. by rewrite Hstop1, Nat.add_1_r.
      * intros Hns. exfalso. apply Hns. rewrite Hone. exact Hbrk.
    + (* next epoch *)
      destruct (IH (S k) st1 (tr ++ evs1))
        as (m & evs & st' & -> & Hm & Hpos & Hstart & Hes & Ht & Hbefore & Hafter
            & Hstop & Hnostop & Hsome & Hzero).
      exists (S m), (evs1 ++ evs), st'. rewrite <- app_assoc.
      assert (Hrun : forall j, es_run o (locals_es st) k (S j)
                               = es_run o (locals_es st1) (S k) j).
      { intros j. by rewrite es_run_S, Hes1. }
      split_and!; try done; try lia.
      * by rewrite epochs_started_app, Hstart1, Hstart.
      * by rewrite Hrun.
      * rewrite Ht, Ht1, <- app_assoc. reflexivity.
      * intros [|j] Hj; [lia|]. rewrite Hrun.
        destruct j as [|j]; [exact Hbrk|].
        apply Hbefore. lia.
      * intros Hlt. rewrite Hrun. apply Hafter. lia.
      * intros _ Hst. rewrite Hrun in Hst. rewrite early_stops_app, Hstop1.
        destruct m as [|m].
        -- destruct (Hzero eq_refl) as [-> _]. done.
        -- rewrite Hstop by (done || lia). cbn. f_equal. lia.
      * intros Hns. rewrite Hrun in Hns. rewrite early_stops_app, Hstop1.
        by rewrite Hnostop.
      * intros _. destruct m as [|m].
        -- destruct (Hzero eq_refl) as [-> _]. done.
        -- apply Hsome. lia.
Qed.

End WorkerLoop.

Lemma es_update_counter (s : Worker.es_state) (v : Py.pyfloat) :
  Worker.counter (Worker.es_update s v) <= Worker.counter s + 1
  \/ Worker.counter (Worker.es_update s v) = 0.
Proof. unfold Worker.es_update. destruct (Py.float_lt _ _); cbn; lia. Qed.

(** C2.  The early-stopping variables start as the spec's machine does
    (best loss +infinity, counter 0) and, through the epochs that run
    without error, follow its update on each validation loss.  The loop
    runs the epochs [0], ..., [n - 1] where [n] is the first epoch count at
    which the counter has reached the patience, or all configured epochs
    if that never happens: it is never stopped earlier, it never runs an
    epoch after the counter has reached the patience, it then announces
    early stopping at epoch [n], and for a positive patience the counter
    then equals the patience. *)
Theorem early_stopping_policy (n_train : nat) (args : Worker.Args) (o : Worker.oracle)
    (c : Worker.criterion_fn) (op : Worker.optimizer_fn) (len_val : nat) :
  (0 < n_train)%nat -> 0 < Worker.batch_size args -> (0 < len_val)%nat ->
  let out := Worker.epoch_loop n_train args o (Some c) (Some op) len_val [] in
  let n := length (Worker.epochs_started out.1) in
  let p := Worker.patience args in
  locals_es Worker.init_locals = Worker.es_init /\
  exists st,
    out.2 = Py.Ok st /\
    Worker.epochs_started out.1 = seq 0 n /\
    (n <= Z.to_nat (Worker.epochs args))%nat /\
    (0 < Worker.epochs args -> (0 < n)%nat) /\
    locals_es st = Worker.es_after o n /\
    (forall j, (0 < j < n)%nat -> ~ Worker.es_stopped p (Worker.es_after o j)) /\
    ((n < Z.to_nat (Worker.epochs args))%nat -> Worker.es_stopped p (Worker.es_after o n)) /\
    ((0 < n)%nat -> Worker.es_stopped p (Worker.es_after o n) ->
       early_stops out.1 = [n] /\
       (0 < p -> Worker.counter (Worker.es_after o n) = p)) /\
    (~ Worker.es_stopped p (Worker.es_after o n) -> early_stops out.1 = []).
Proof.
  intros Hn Hbs Hv. cbv zeta. split; [reflexivity|].
  unfold Worker.epoch_loop, Py.range.
  destruct (epoch_loop_ok_from n_train args o c op len_val Hn Hbs Hv
              (Z.to_nat (Worker.epochs args)) 0 Worker.init_locals [])
    as (m & evs & st & -> & Hm & Hpos & Hstart & Hes & Ht & Hbefore & Hafter
        & Hstop & Hnostop & _ & _).
  cbn [fst snd app]. rewrite Hstart, length_seq.
  change (locals_es Worker.init_locals) with Worker.es_init in *.
  change (es_run o Worker.es_init 0) with (Worker.es_after o) in *.
  exists st. split_and!; try done; try lia.
  intros Hm0 Hst. split; [by apply Hstop|].
  intros Hp. unfold Worker.es_stopped in Hst.
  destruct m as [|m]; [lia|].
  assert (Hprev : Worker.counter (Worker.es_after o m) < Worker.patience args).
  { destruct m as [|m]; [cbn; lia|].
    specialize (Hbefore (S m) ltac:(lia)). unfold Worker.es_stopped in Hbefore. lia. }
  unfold Worker.es_after in *.
  pose proof (es_run_snoc o Worker.es_init 0 m) as Hsn. unfold es_run in Hsn.
  rewrite Hsn in Hst |- *.
  destruct (es_update_counter (fold_left Worker.es_update
              (Worker.val_loss o <$> seq 0 m) Worker.es_init)
              (Worker.val_loss o (0 + m))); lia.
Qed.

Lemma early_stopping_policy_witness :
  let args := {| Worker.processors := 2; Worker.activation := "RELU";
                 Worker.loss := "CE"; Worker.optimizer := "ADAM";
                 Worker.patience := 2; Worker.epochs := 10;
                 Worker.batch_size := 4 |} in
  let o := {| Worker.batch_loss := fun _ _ => Py.Fin 1%Qc;
              Worker.batch_correct := fun _ _ => 3;
              Worker.epoch_duration := fun e => Qc_of_Z (Z.of_nat e);
              Worker.val_loss := fun e => match e with
                                          | O => Py.Fin (Qc_of_Z 5)
                                          | _ => Py.Fin (Qc_of_Z 6)
                                          end;
              Worker.val_correct := fun _ => 4;
              Worker.final_train_correct := 7 |} in
  let out := Worker.epoch_loop 10 args o (Some Worker.CrossEntropyLoss)
               (Some Worker.Adam) 6 [] in
  let n := length (Worker.epochs_started out.1) in
  let p := Worker.patience args in
  locals_es Worker.init_locals = Worker.es_init /\
  exists st,
    out.2 = Py.Ok st /\
    Worker.epochs_started out.1 = seq 0 n /\
    (n <= Z.to_nat (Worker.epochs args))%nat /\
    (0 < Worker.epochs args -> (0 < n)%nat) /\
    locals_es st = Worker.es_after o n /\
    (forall j, (0 < j < n)%nat -> ~ Worker.es_stopped p (Worker.es_after o j)) /\
    ((n < Z.to_nat (Worker.epochs args))%nat -> Worker.es_stopped p (Worker.es_after o n)) /\
    ((0 < n)%nat -> Worker.es_stopped p (Worker.es_after o n) ->
       early_stops out.1 = [n] /\
       (0 < p -> Worker.counter (Worker.es_after o n) = p)) /\
    (~ Worker.es_stopped p (Worker.es_after o n) -> early_stops out.1 = []).
Proof.
  intros args o.
  apply (early_stopping_policy 10 args o Worker.CrossEntropyLoss Worker.Adam 6);
    [lia | reflexivity | lia].
Defined.

(** ** The worker: what holds of every run, failed or not *)

Section WorkerAnyRun.
Import Worker.
Variables (n_train : nat) (args : Args) (o : oracle).
Variables (criterion : option criterion_fn) (optimizer_var : option optimizer_fn).
Variable len_val : nat.

(** The batch loop starts no epoch. *)
Lemma batch_loop_epochs_started epoch n : forall k acc tr,
  epochs_started
    (Py.for_fold (seq k n) (batch_body n_train args o criterion optimizer_var epoch) acc tr).1
  = epochs_started tr.
Proof.
  induction n as [|n IH]; intros k [[l ct] tt] tr; [done|].
  cbn [seq Py.for_fold]. unfold Py.bind at 1.
  unfold batch_body at 1, emit. unfold_monad.
  destruct optimizer_var, criterion; cbn [fst snd];
    rewrite ?IH, ?epochs_started_app; cbn; by rewrite ?app_nil_r.
Qed.

(** An epoch that completes has started exactly itself and appended its
    duration. *)
Lemma epoch_body_times epoch st tr tr' st' brk :
  epoch_body n_train args o criterion optimizer_var len_val epoch st tr
  = (tr', Py.Ok (st', brk)) ->
  epochs_started tr' = epochs_started tr ++ [epoch]
  /\ processing_times st' = processing_times st ++ [epoch_duration o epoch].
Proof.
  unfold epoch_body. unfold Py.bind at 1. unfold emit at 1, Py.modify at 1.
  unfold Py.bind at 1.
  pose proof (batch_loop_epochs_started epoch (num_batches n_train args) 0
                (loss_var st, 0, 0) (tr ++ [EvEpochStart epoch])) as Hb.
  destruct (Py.for_fold _ _ _ _) as [tr1 [[[l ct] tt]|e]]; [|done].
  cbn [fst] in Hb. rewrite epochs_started_app in Hb. cbn in Hb.
  unfold emit, Py.div. unfold_monad.
  destruct criterion; [|done].
  repeat case_bool_decide; try done; cbn [fst snd]; intros Heq; simplify_eq.
  all: rewrite ?epochs_started_app, ?Hb; cbn; rewrite ?app_nil_r.
  all: unfold update_early_stopping; destruct (Py.float_lt _ _); done.
Qed.

Lemma epoch_loop_times n : forall k st tr tr' st',
  Py.for_break (seq k n) (epoch_body n_train args o criterion optimizer_var len_val) st tr
  = (tr', Py.Ok st') ->
  exists m,
    epochs_started tr' = epochs_started tr ++ seq k m
    /\ processing_times st' = processing_times st ++ (epoch_duration o <$> seq k m).
Proof.
  induction n as [|n IH]; intros k st tr tr' st'.
  - cbn. unfold Py.ret. intros [= <- <-]. exists 0%nat. cbn. by rewrite !app_nil_r.
  - cbn [seq Py.for_break]. unfold Py.bind at 1.
    destruct (epoch_body _ _ _ _ _ _ _ _ _) as [tr1 [[st1 brk]|e]] eqn:Hbody; [|done].
    apply epoch_body_times in Hbody as [Hs1 Ht1]. cbn [fst snd].
    destruct brk.
    + unfold Py.ret. intros [= <- <-]. exists 1%nat. done.
    + intros (m & Hs & Ht)%IH. exists (S m).
      rewrite Hs, Hs1, Ht, Ht1, <- !app_assoc. done.
Qed.

End WorkerAnyRun.

(** ** The worker: the reported processing time *)

(** C8.  When [train_simulated] returns, it has run one or more epochs,
    [0] to [n - 1], and the processing time in its result is the largest
    of the durations of these epochs: it is one of them and none of them
    exceeds it. *)
Theorem slowest_epoch_is_reported (fold n_train n_val : nat) (args : Worker.Args)
    (o : Worker.oracle) :
  let out := Worker.train_simulated fold n_train n_val args o [] in
  forall r, out.2 = Py.Ok r ->
  let n := length (Worker.epochs_started out.1) in
  let durations := Worker.epoch_duration o <$> seq 0 n in
  (0 < n)%nat /\
  Worker.epochs_started out.1 = seq 0 n /\
  Worker.slowest_processing_time r ∈ durations /\
  (forall d, d ∈ durations -> (d ≤ Worker.slowest_processing_time r)%Qc).
Proof.
  intros out r Hr.
  assert (Hout : Worker.train_simulated fold n_train n_val args o [] = (out.1, Py.Ok r))
    by (rewrite <- Hr; subst out; by destruct (Worker.train_simulated _ _ _ _ _ _)).
  generalize dependent (out.1). clear out Hr. intros tr. revert tr r.
  unfold Worker.train_simulated. intros tr r.
  unfold Py.bind at 1. unfold Py.lift at 1.
  destruct (Numpy.array_split _ _) as [split|e]; [|done].
  unfold Py.bind at 1. unfold Py.lift at 1.
  destruct (Py.getitem _ _) as [y_val_fold|e]; [|done].
  unfold Py.bind at 1. unfold Py.read_local at 1.
  destruct (Worker.choose_activation _) as [a|]; [|done].
  unfold Py.ret at 1. unfold Py.bind at 1. unfold Worker.emit at 1, Py.modify at 1.
  unfold Py.bind at 1.
  case_bool_decide; [done|]. unfold Py.ret at 1.
  unfold Py.bind at 1. unfold Worker.epoch_loop.
  destruct (Py.for_break _ _ _ _) as [tr1 [st|e]] eqn:Hloop; [|done].
  apply epoch_loop_times in Hloop as (m & Hs & Ht).
  cbn in Hs, Ht.
  unfold Py.bind at 1. unfold Py.lift at 1.
  destruct (Py.max (Worker.processing_times st)) as [slowest|e] eqn:Hmax; [|done].
  unfold Worker.emit. unfold_monad.
  destruct (Worker.loss_var st); [|done].
  destruct (Worker.validation_accuracy st); [|done].
  destruct (Worker.correct_val st); [|done].
  intros [= <- <-]. cbn [Worker.slowest_processing_time].
  rewrite !epochs_started_app, Hs. cbn. rewrite !app_nil_r, length_seq.
  rewrite Ht in Hmax.
  destruct (max_spec (Worker.epoch_duration o <$> seq 0 m)) as (mx & Hmx & Hin & Hall).
  { destruct m; [done|]. done. }
  rewrite Hmx in Hmax. injection Hmax as <-.
  split_and!; try done.
  destruct m; [|lia]. by apply elem_of_nil in Hin.
Qed.

Lemma slowest_epoch_is_reported_witness :
  let args := {| Worker.processors := 2; Worker.activation := "RELU";
                 Worker.loss := "CE"; Worker.optimizer := "ADAM";
                 Worker.patience := 2; Worker.epochs := 10;
                 Worker.batch_size := 4 |} in
  let o := {| Worker.batch_loss := fun _ _ => Py.Fin 1%Qc;
              Worker.batch_correct := fun _ _ => 3;
              Worker.epoch_duration :=
                fun e => match e with 1%nat => Qc_of_Z 7 | _ => Qc_of_Z 4 end;
              Worker.val_loss := fun e => match e with
                                          | O => Py.Fin (Qc_of_Z 5)
                                          | _ => Py.Fin (Qc_of_Z 6)
                                          end;
              Worker.val_correct := fun _ => 4;
              Worker.final_train_correct := 7 |} in
  let out := Worker.train_simulated 0 10 11 args o [] in
  exists r, out.2 = Py.Ok r /\
  let n := length (Worker.epochs_started out.1) in
  let durations := Worker.epoch_duration o <$> seq 0 n in
  (0 < n)%nat /\
  Worker.epochs_started out.1 = seq 0 n /\
  Worker.slowest_processing_time r ∈ durations /\
  (forall d, d ∈ durations -> (d ≤ Worker.slowest_processing_time r)%Qc).
Proof.
  intros args o out.
  assert (Hr : exists r, out.2 = Py.Ok r) by (eexists; vm_compute; reflexivity).
  destruct Hr as [r Hr]. exists r. split; [exact Hr|].
  exact (slowest_epoch_is_reported 0 10 11 args o r Hr).
Defined.

(** In that run the three epochs last 4, 7 and 4: the reported time is 7,
    the slowest epoch, and not their mean 5. *)
Example slowest_not_mean :
  let args := {| Worker.processors := 2; Worker.activation := "RELU";
                 Worker.loss := "CE"; Worker.optimizer := "ADAM";
                 Worker.patience := 2; Worker.epochs := 10;
                 Worker.batch_size := 4 |} in
  let o := {| Worker.batch_loss := fun _ _ => Py.Fin 1%Qc;
              Worker.batch_correct := fun _ _ => 3;
              Worker.epoch_duration :=
                fun e => match e with 1%nat => Qc_of_Z 7 | _ => Qc_of_Z 4 end;
              Worker.val_loss := fun e => match e with
                                          | O => Py.Fin (Qc_of_Z 5)
                                          | _ => Py.Fin (Qc_of_Z 6)
                                          end;
              Worker.val_correct := fun _ => 4;
              Worker.final_train_correct := 7 |} in
  let out := Worker.train_simulated 0 10 11 args o [] in
  Worker.epochs_started out.1 = [0; 1; 2]%nat /\
  (Worker.slowest_processing_time <$>
     match out.2 with Py.Ok r => Some r | Py.Raise _ => None end) = Some (Qc_of_Z 7).
Proof.
  split; [vm_compute; reflexivity | compute_done].
Qed.

(** On a well-formed call (a valid slot among the processors, non-empty
    partitions, known selectors, at least one epoch) [train_simulated]
    returns a result. *)
Lemma train_simulated_returns (fold n_train n_val : nat) (args : Worker.Args)
    (o : Worker.oracle) :
  1 <= Worker.processors args ->
  Z.of_nat fold < Worker.processors args ->
  Worker.processors args <= Z.of_nat n_val ->
  is_Some (Worker.choose_activation (Worker.activation args)) ->
  is_Some (Worker.choose_criterion (Worker.loss args)) ->
  is_Some (Worker.choose_optimizer (Worker.optimizer args)) ->
  (0 < n_train)%nat -> 0 < Worker.batch_size args -> 0 < Worker.epochs args ->
  exists tr r, Worker.train_simulated fold n_train n_val args o [] = (tr, Py.Ok r).
Proof.
  intros Hp Hfold Hval [a Ha] [c Hc] [op Hop] Hn Hbs Hep.
  unfold Worker.train_simulated.
  unfold Py.bind at 1. unfold Py.lift at 1. rewrite array_split_reshape by done.
  set (sizes := section_sizes (length (seq 0 n_val)) (Z.to_nat (Worker.processors args))).
  assert (Hlen : length sizes = Z.to_nat (Worker.processors args))
    by (apply section_sizes_length; lia).
  destruct (lookup_lt_is_Some_2 (reshape sizes (seq 0 n_val)) fold) as [piece Hpiece].
  { rewrite length_reshape, Hlen. lia. }
  assert (Hpos : (0 < length piece)%nat).
  { assert (Hin : length piece ∈ sizes).
    { rewrite <- (reshape_sizes (seq 0 n_val) sizes)
        by (subst sizes; rewrite section_sizes_sum; lia).
      apply list_elem_of_fmap_2. by eapply list_elem_of_lookup_2. }
    apply section_sizes_near in Hin. rewrite length_seq in Hin.
    assert (1 <= n_val / Z.to_nat (Worker.processors args))%nat; [|lia].
    apply Nat.div_le_lower_bound; lia. }
  unfold Py.bind at 1. unfold Py.lift at 1, Py.getitem at 1. rewrite Hpiece.
  rewrite Ha, Hc, Hop.
  unfold Py.bind at 1. unfold Py.read_local at 1, Py.ret at 1.
  unfold Py.bind at 1. unfold Worker.emit at 1, Py.modify at 1.
  unfold Py.bind at 1. rewrite bool_decide_eq_false_2 by lia. unfold Py.ret at 1.
  unfold Py.bind at 1. unfold Worker.epoch_loop, Py.range.
  destruct (epoch_loop_ok_from n_train args o c op (length piece) Hn Hbs Hpos
              (Z.to_nat (Worker.epochs args)) 0 Worker.init_locals
              ([] ++ [Worker.EvModelBuilt a]))
    as (m & evs & st & -> & _ & Hm & _ & _ & Ht & _ & _ & _ & _ & Hsome & _).
  specialize (Hm ltac:(lia)).
  destruct (Hsome Hm) as ([l Hl] & [va Hva] & [cv Hcv]).
  unfold Py.bind at 1. unfold Py.lift at 1.
  destruct (max_spec (Worker.processing_times st)) as (mx & -> & _).
  { rewrite Ht. destruct m; [lia|]. done. }
  unfold Worker.emit. unfold_monad. rewrite Hl, Hva, Hcv. eauto.
Qed.

(** ** The worker: unknown selectors *)

Section WorkerUnbound.
Import Worker.
Variables (n_train : nat) (args : Args) (o : oracle).
Variables (criterion : option criterion_fn) (optimizer_var : option optimizer_fn).
Variable len_val : nat.
Hypothesis Hunbound : criterion = None \/ optimizer_var = None.

Lemma optimizer_steps_app (a b : list event) :
  optimizer_steps (a ++ b) = optimizer_steps a ++ optimizer_steps b.
Proof. apply omap_app. Qed.




End WorkerUnbound.




(** ** The driver: a fold count below 2 *)

Section DriverSingleSplit.
Import KFoldMain.
Context {Model : Type}.
Variable train : nat -> list nat -> list nat -> FoldResult Model.
Variable fresh_model : architecture -> Model.
Variable sgd_step : Model -> nat -> nat -> Model.
Variable test_accuracy_of : Model -> Qc.
Variable elapsed_time : Qc.



End DriverSingleSplit.

(** The splitter itself would reject a fold count below 2, but [main]
    never builds it for such a count: [parallel_kfold] is only called from
    the other branch. *)
Lemma KFold_rejects_fewer_than_two (k : Z) :
  k < 2 -> KFoldMain.KFold k = Py.Raise Py.ValueError.
Proof. intros Hk. unfold KFoldMain.KFold. by rewrite bool_decide_eq_true_2 by lia. Qed.




(** ** Weight synchronization *)

Section Tensors.
Local Open Scope Qc_scope.

Lemma zip_with_zeros (v : MAS.tensor) :
  zip_with Qcplus (MAS.zeros_like v) v = v.
Proof.
  unfold MAS.zeros_like. induction v as [|x v IH]; cbn; [done|].
  by rewrite Qcplus_0_l, IH.
Qed.

Lemma Qc_of_Z_1 : Qc_of_Z 1 = 1.
Proof. by apply Qc_is_canon. Qed.

Lemma tensor_idiv_1 (v : MAS.tensor) : MAS.tensor_idiv v 1 = v.
Proof.
  unfold MAS.tensor_idiv. change (Z.of_nat 1) with 1%Z. rewrite Qc_of_Z_1.
  induction v as [|x v IH]; cbn; [done|].
  rewrite (right_id 1 Qcdiv). f_equal. exact IH.
Qed.

Lemma length_zeros_like (v : MAS.tensor) : length (MAS.zeros_like v) = length v.
Proof. unfold MAS.zeros_like. apply length_replicate. Qed.

Lemma lookup_add_tensors (g m : gmap string (list Qc)) k :
  merge add_tensors g m !! k = add_tensors (g !! k) (m !! k).
Proof.
  rewrite lookup_merge. unfold diag_None.
  destruct (g !! k) as [t|]; [done|]. destruct (m !! k) as [v|]; done.
Qed.

(** The summation loop over one state dict adds it name by name, provided
    every name is present with the same shape. *)
Lemma add_state_dict_ok (g m : gmap string (list Qc)) :
  (forall k v, m !! k = Some v -> exists t, g !! k = Some t /\ length t = length v) ->
  MAS.add_state_dict g m = Py.Ok (merge add_tensors g m).
Proof.
  unfold MAS.add_state_dict.
  apply (map_fold_weak_ind (fun r m' =>
    (forall k v, m' !! k = Some v -> exists t, g !! k = Some t /\ length t = length v) ->
    r = Py.Ok (merge add_tensors g m'))).
  - intros _. f_equal. apply map_eq. intros k.
    rewrite lookup_add_tensors, lookup_empty. by destruct (g !! k).
  - intros i x m' r Hi IH Hpre.
    rewrite IH.
    2:{ intros k v Hk. apply Hpre. rewrite lookup_insert_ne; [done|]. by intros ->; simplify_eq. }
    destruct (Hpre i x) as (t & Ht & Hlen); [by rewrite lookup_insert_eq|].
    rewrite lookup_add_tensors, Ht, Hi. cbn.
    unfold MAS.tensor_iadd. rewrite bool_decide_eq_true_2 by done.
    f_equal. apply map_eq. intros k.
    destruct (decide (k = i)) as [->|Hne].
    + by rewrite lookup_insert_eq, lookup_add_tensors, lookup_insert_eq, Ht.
    + by rewrite lookup_insert_ne, !lookup_add_tensors, lookup_insert_ne by done.
Qed.

Lemma add_state_dict_zeros (m : gmap string (list Qc)) :
  MAS.add_state_dict (MAS.zeros_like <$> m) m = Py.Ok m.
Proof.
  rewrite add_state_dict_ok.
  - f_equal. apply map_eq. intros k. rewrite lookup_add_tensors, lookup_fmap.
    destruct (m !! k) as [v|]; cbn; [|done]. by rewrite zip_with_zeros.
  - intros k v Hk. exists (MAS.zeros_like v).
    by rewrite lookup_fmap, Hk, length_zeros_like.
Qed.

Lemma load_own_state_dict (m : gmap string (list Qc)) :
  MAS.load_state_dict m m = Py.Ok m.
Proof. unfold MAS.load_state_dict. by rewrite bool_decide_eq_true_2. Qed.

End Tensors.

Section Synchronization.
Context {A B : Type}.
Implicit Types (s : MAS.model_state A B) (a : MAS.agent A B).

Lemma loads_app (t1 t2 : list MAS.event) : loads (t1 ++ t2) = loads t1 ++ loads t2.
Proof. apply omap_app. Qed.

Lemma reports_app (t1 t2 : list MAS.event) : reports (t1 ++ t2) = reports t1 ++ reports t2.
Proof. apply omap_app. Qed.

Lemma set_own_model a m :
  MAS.neural_net_model a = Some m -> MAS.set_neural_net_model a m = a.
Proof. destruct a. cbn. by intros ->. Qed.

(** Synchronization prints no summary, whatever its outcome. *)
Lemma broadcast_to_reports gw i s :
  reports (MAS.trace (MAS.broadcast_to gw i s).1) = reports (MAS.trace s).
Proof.
  unfold MAS.broadcast_to. unfold Py.bind at 1. unfold Py.get at 1.
  unfold Py.bind at 1. unfold Py.lift at 1.
  destruct (Py.getitem _ _) as [a|e]; [|done].
  destruct (MAS.neural_net_model a) as [own|]; [|done].
  unfold Py.bind at 1. unfold Py.lift at 1.
  destruct (MAS.load_state_dict _ _) as [m|e]; [|done].
  unfold MAS.emit. unfold_monad. cbn. rewrite reports_app. cbn. by rewrite app_nil_r.
Qed.

Lemma broadcast_loop_reports gw is_ : forall s,
  reports (MAS.trace (Py.for_each is_ (MAS.broadcast_to gw) s).1) = reports (MAS.trace s).
Proof.
  induction is_ as [|i is_ IH]; intros s; [done|].
  cbn [Py.for_each]. unfold Py.bind at 1.
  pose proof (broadcast_to_reports gw i s) as Hb.
  destruct (MAS.broadcast_to gw i s) as [s1 [[]|e]]; cbn [fst snd] in *.
  - by rewrite IH.
  - done.
Qed.

Lemma synchronize_weights_reports seed s :
  reports (MAS.trace (MAS.synchronize_weights seed s).1) = reports (MAS.trace s).
Proof.
  destruct seed as [sd|]; [|done]. unfold MAS.synchronize_weights.
  unfold Py.bind at 1. unfold Py.get at 1.
  unfold Py.bind at 1. unfold Py.lift at 1.
  destruct (MAS.sum_agents _ _) as [g|e]; [|done].
  apply broadcast_loop_reports.
Qed.

Lemma report_testing_accuracy_reports s :
  reports (MAS.trace (MAS.report_testing_accuracy s).1) = reports (MAS.trace s).
Proof.
  unfold MAS.report_testing_accuracy. unfold Py.bind at 1. unfold Py.get at 1.
  unfold Py.bind at 1. unfold Py.lift at 1.
  destruct (Py.getitem _ _) as [a0|e]; [|done].
  unfold Py.bind at 1.
  destruct (MAS.neural_net_model a0) as [seed|]; [|done].
  unfold Py.ret at 1. unfold Py.bind at 1.
  pose proof (synchronize_weights_reports (Some seed) s) as Hs.
  destruct (MAS.synchronize_weights (Some seed) s) as [s1 [[]|e]];
    cbn [fst snd] in *; [|done].
  unfold Py.bind at 1. unfold Py.get at 1.
  unfold Py.bind at 1. unfold Py.lift at 1.
  destruct (Py.getitem _ _) as [a1|e]; [|done].
  destruct (MAS.neural_net_model a1); [|done].
  unfold MAS.emit, Py.modify. cbn. rewrite reports_app, Hs. cbn. by rewrite app_nil_r.
Qed.

(** The final synchronization over a single agent that holds a model
    loads back the agent's own parameters. *)
Lemma synchronize_single s a m :
  MAS.agents s = [a] -> MAS.neural_net_model a = Some m ->
  MAS.synchronize_weights (Some m) s
  = ({| MAS.num_processors := MAS.num_processors s;
        MAS.model_X_train := MAS.model_X_train s;
        MAS.model_y_train := MAS.model_y_train s;
        MAS.agents := [a];
        MAS.trace := MAS.trace s ++ [MAS.EvLoadStateDict (MAS.unique_id a)] |}, Py.Ok tt).
Proof.
  intros Hags Hm. unfold MAS.synchronize_weights.
  unfold Py.bind at 1. unfold Py.get at 1.
  unfold Py.bind at 1. unfold Py.lift at 1.
  rewrite Hags. cbn [MAS.sum_agents length]. rewrite Hm, add_state_dict_zeros.
  replace ((fun t => MAS.tensor_idiv t 1) <$> m) with m.
  2:{ apply map_eq. intros k. rewrite lookup_fmap.
      destruct (m !! k) as [v|]; cbn; [|done]. by rewrite tensor_idiv_1. }
  cbn [seq Py.for_each]. unfold Py.bind at 1.
  unfold MAS.broadcast_to. unfold Py.bind at 1. unfold Py.get at 1.
  unfold Py.bind at 1. unfold Py.lift at 1. rewrite Hags. cbn [Py.getitem lookup].
  cbn. rewrite Hm. unfold Py.bind at 1. unfold Py.lift at 1.
  rewrite load_own_state_dict.
  unfold MAS.emit. unfold_monad. destruct s. cbn in *. subst.
  by rewrite (set_own_model a m).
Qed.

End Synchronization.

(** ** The orchestration step *)

Ltac simpl_state :=
  unfold MAS.set_agents;
  cbn [MAS.num_processors MAS.model_X_train MAS.model_y_train MAS.agents
       MAS.trace map fmap list_fmap length].

Section Step.
Context {A B : Type}.
Variable agent_step : MAS.agent A B -> MAS.agent A B.
Implicit Types (s : MAS.model_state A B) (a : MAS.agent A B).

(** A step of a model with one processor and one agent. *)
Lemma step_single s a :
  MAS.agents s = [a] -> MAS.num_processors s = 1 ->
  exists s' r,
    MAS.step agent_step s = (s', r)
    /\ MAS.agents s' = [agent_step a]
    /\ (r = Py.Ok tt ->
        loads (MAS.trace s') = loads (MAS.trace s) ++ [MAS.unique_id (agent_step a)]).
Proof.
  intros Hags Hnum. destruct s as [np X y ags tr]. cbn in Hags, Hnum. subst np ags.
  unfold MAS.step.
  unfold Py.bind at 1. unfold MAS.schedule_step at 1, Py.modify at 1.
  unfold Py.bind at 1. unfold Py.get at 1.
  unfold Py.bind at 1.
  simpl_state.
  rewrite bool_decide_eq_false_2 by lia. unfold Py.ret at 1.
  unfold Py.bind at 1. unfold Py.get at 1.
  simpl_state.
  set (a' := agent_step a).
  unfold Py.bind at 1. unfold Py.lift at 1.
  unfold Py.div at 1. rewrite bool_decide_eq_false_2 by done.
  unfold Py.bind at 1. unfold Py.lift at 1.
  unfold Py.div at 1. rewrite bool_decide_eq_false_2 by done.
  unfold Py.bind at 1. unfold Py.lift at 1.
  unfold Py.div at 1. case_bool_decide as Hzero.
  { eexists _, _. split; [reflexivity|]. split; [done|]. discriminate. }
  unfold Py.bind at 1. unfold MAS.emit at 1, Py.modify at 1.
  simpl_state.
  unfold MAS.report_testing_accuracy.
  unfold Py.bind at 1. unfold Py.get at 1.
  unfold Py.bind at 1. unfold Py.lift at 1.
  simpl_state. cbn [Py.getitem lookup list_lookup].
  unfold Py.bind at 1.
  destruct (MAS.neural_net_model a') as [m|] eqn:Hm.
  2:{ eexists _, _. split; [reflexivity|]. split; [done|]. discriminate. }
  unfold Py.ret at 1. unfold Py.bind at 1.
  erewrite (synchronize_single _ a' m); [|reflexivity|done].
  unfold Py.bind at 1. unfold Py.get at 1.
  unfold Py.bind at 1. unfold Py.lift at 1.
  simpl_state. cbn [Py.getitem lookup list_lookup]. rewrite Hm.
  unfold MAS.emit, Py.modify.
  eexists _, _. split; [reflexivity|]. simpl_state.
  split; [done|]. intros _. rewrite !loads_app. cbn. by rewrite !app_nil_r.
Qed.

End Step.

(** C10 (as the code has it).  With exactly one processor the model
    creates a single agent holding the whole training set, inputs and
    labels, unsplit.  A step then runs that agent's local training and
    leaves the agent exactly as the training produced it, parameters
    included, whether or not the step completes; when it completes, the
    agent's model has been overwritten once, by the final synchronization
    at reporting time. *)
Theorem single_processor_step {A B} (agent_step : MAS.agent A B -> MAS.agent A B)
    (X : list A) (y : list B) :
  let created := MAS.init X y 1 in
  let a := MAS.ProcessorAgent 0 X y in
  let out := MAS.step agent_step created.1 in
  created.2 = Py.Ok tt /\
  MAS.agents created.1 = [a] /\
  MAS.X_train a = X /\ MAS.y_train a = y /\
  MAS.agents out.1 = [agent_step a] /\
  (out.2 = Py.Ok tt -> loads (MAS.trace out.1) = [MAS.unique_id (agent_step a)]).
Proof.
  cbv zeta. split_and!; try reflexivity.
  - destruct (step_single agent_step (MAS.init X y 1).1 (MAS.ProcessorAgent 0 X y))
      as (s' & r & -> & Hags & _); done.
  - destruct (step_single agent_step (MAS.init X y 1).1 (MAS.ProcessorAgent 0 X y))
      as (s' & r & -> & _ & Hloads); [done..|]. exact Hloads.
Qed.

(** ** The metrics *)

Section StepReport.
Context {A B : Type}.
Variable agent_step : MAS.agent A B -> MAS.agent A B.

(** Up to the summary, a step with agents and a non-zero number of
    processed examples cannot fail; what follows prints no summary. *)
Lemma step_report (s : MAS.model_state A B) :
  let ags := agent_step <$> MAS.agents s in
  let cumulative := Py.sum (MAS.processing_time <$> ags) in
  let total_correct := Py.sumZ (MAS.correct_classifications <$> ags) in
  let total_processed := Py.sumZ (MAS.total_examples_processed <$> ags) in
  ags ≠ [] -> total_processed ≠ 0 ->
  reports (MAS.trace (MAS.step agent_step s).1)
  = reports (MAS.trace s)
    ++ [(cumulative, (cumulative / Qc_of_Z (Z.of_nat (length ags)))%Qc,
         total_correct, total_processed,
         (Qc_of_Z total_correct / Qc_of_Z total_processed * Qc_of_Z 100)%Qc)].
Proof.
  intros ags cumulative total_correct total_processed Hags Htotal.
  destruct s as [np X y ags0 tr].
  unfold MAS.step.
  unfold Py.bind at 1. unfold MAS.schedule_step at 1, Py.modify at 1.
  unfold Py.bind at 1. unfold Py.get at 1.
  unfold Py.bind at 1. simpl_state.
  assert (Hguard : forall s0 : MAS.model_state A B,
            (if bool_decide (1 < np) then MAS.synchronize_weights None else Py.ret tt) s0
            = (s0, Py.Ok tt)) by (intros s0; by destruct (bool_decide _)).
  rewrite Hguard.
  unfold Py.bind at 1. unfold Py.get at 1. simpl_state.
  cbn [MAS.agents] in ags. fold ags.
  assert (Hlen : Z.of_nat (length ags) ≠ 0) by (destruct ags; [done|cbn; lia]).
  unfold Py.bind at 1. unfold Py.lift at 1.
  unfold Py.div at 1. rewrite length_fmap, bool_decide_eq_false_2 by done.
  unfold Py.bind at 1. unfold Py.lift at 1.
  unfold Py.div at 1. rewrite length_fmap, bool_decide_eq_false_2 by done.
  unfold Py.bind at 1. unfold Py.lift at 1.
  unfold Py.div at 1. fold total_processed. rewrite bool_decide_eq_false_2 by done.
  unfold Py.bind at 1. unfold MAS.emit at 1, Py.modify at 1. simpl_state.
  rewrite report_testing_accuracy_reports. simpl_state.
  rewrite reports_app. reflexivity.
Qed.

End StepReport.

(** C6 (as the code has it).  In simulated mode the step computes, over
    the agents after their local pass, the cumulative time as the sum of
    the per-agent times, the average time per node as that sum divided by
    the number of agents, and the pooled accuracy, in percent, as the sum
    of the correct counts divided by the sum of the processed counts, and
    prints these figures in one summary.  In real-parallel mode the driver
    prints the mean of the fold validation accuracies, in percent. *)
Theorem metrics_aggregation {A B Model} (agent_step : MAS.agent A B -> MAS.agent A B)
    (s : MAS.model_state A B) (test_accuracy_of : Model -> Qc)
    (results : list (KFoldMain.FoldResult Model)) (total_elapsed_time : Qc) :
  let ags := agent_step <$> MAS.agents s in
  let cumulative := foldr Qcplus 0%Qc (MAS.processing_time <$> ags) in
  let total_correct := foldr Z.add 0 (MAS.correct_classifications <$> ags) in
  let total_processed := foldr Z.add 0 (MAS.total_examples_processed <$> ags) in
  ags ≠ [] -> total_processed ≠ 0 -> results ≠ [] ->
  reports (MAS.trace (MAS.step agent_step s).1)
  = reports (MAS.trace s)
    ++ [(cumulative, (cumulative / Qc_of_Z (Z.of_nat (length ags)))%Qc,
         total_correct, total_processed,
         (pooled_accuracy ags * Qc_of_Z 100)%Qc)]
  /\
  average_accuracy_reports
    (KFoldMain.select_and_report test_accuracy_of results total_elapsed_time []).1
  = [(foldr Qcplus 0%Qc (KFoldMain.accuracy <$> results)
      / Qc_of_Z (Z.of_nat (length results)) * Qc_of_Z 100)%Qc].
Proof.
  intros ags cumulative total_correct total_processed Hags Htotal Hres. split.
  - subst ags cumulative total_correct total_processed. unfold pooled_accuracy.
    rewrite <- !sumZ_foldr, <- sum_foldr in *.
    by apply step_report.
  - destruct (select_and_report_run test_accuracy_of results total_elapsed_time Hres)
      as (i & best & _ & _ & _ & Hrun).
    rewrite Hrun.
    cbn. by rewrite sum_foldr.
Qed.

Lemma metrics_aggregation_witness :
  let worker := fun (uid : nat) (c t : Z) =>
    {| MAS.unique_id := uid; MAS.X_train := @nil nat; MAS.y_train := @nil nat;
       MAS.neural_net_model := Some {[ "w" := [1%Qc] ]};
       MAS.fold_loss := 0%Qc; MAS.processing_time := 1%Qc;
       MAS.correct_classifications := c; MAS.total_examples_processed := t |} in
  let s := {| MAS.num_processors := 2; MAS.model_X_train := @nil nat;
              MAS.model_y_train := @nil nat;
              MAS.agents := [worker 0%nat 8 10; worker 1%nat 18 20];
              MAS.trace := [] |} in
  let results := [ {| KFoldMain.loss := 0%Qc; KFoldMain.accuracy := 1%Qc;
                      KFoldMain.model := 0%nat |} ] in
  let ags := id <$> MAS.agents s in
  let cumulative := foldr Qcplus 0%Qc (MAS.processing_time <$> ags) in
  let total_correct := foldr Z.add 0 (MAS.correct_classifications <$> ags) in
  let total_processed := foldr Z.add 0 (MAS.total_examples_processed <$> ags) in
  reports (MAS.trace (MAS.step id s).1)
  = reports (MAS.trace s)
    ++ [(cumulative, (cumulative / Qc_of_Z (Z.of_nat (length ags)))%Qc,
         total_correct, total_processed,
         (pooled_accuracy ags * Qc_of_Z 100)%Qc)]
  /\
  average_accuracy_reports
    (KFoldMain.select_and_report (fun _ : nat => 1%Qc) results 0%Qc []).1
  = [(foldr Qcplus 0%Qc (KFoldMain.accuracy <$> results)
      / Qc_of_Z (Z.of_nat (length results)) * Qc_of_Z 100)%Qc].
Proof.
  intros worker s results.
  apply (metrics_aggregation id s (fun _ : nat => 1%Qc) results 0%Qc);
    [discriminate | vm_compute; discriminate | discriminate].
Defined.

(** C6, counterexample.  Two collections of workers, with the (correct,
    total) counts (8, 10), (18, 20) and (13, 15), (13, 15): the step runs
    to the end on both and does and prints exactly the same, the pooled
    accuracy 26/30 included, while the means of the per-worker accuracies
    differ (17/20 against 13/15).  The step's output does not contain the
    mean of the per-worker accuracies. *)
Lemma step_does_not_report_mean_of_accuracies :
  let worker := fun (uid : nat) (c t : Z) =>
    {| MAS.unique_id := uid; MAS.X_train := @nil nat; MAS.y_train := @nil nat;
       MAS.neural_net_model := Some {[ "w" := [1%Qc] ]};
       MAS.fold_loss := 0%Qc; MAS.processing_time := 1%Qc;
       MAS.correct_classifications := c; MAS.total_examples_processed := t |} in
  let state := fun ags =>
    {| MAS.num_processors := 2; MAS.model_X_train := @nil nat;
       MAS.model_y_train := @nil nat; MAS.agents := ags; MAS.trace := [] |} in
  let ags1 := [worker 0%nat 8 10; worker 1%nat 18 20] in
  let ags2 := [worker 0%nat 13 15; worker 1%nat 13 15] in
  let out1 := MAS.step id (state ags1) in
  let out2 := MAS.step id (state ags2) in
  out1.2 = Py.Ok tt /\ out2.2 = Py.Ok tt /\
  MAS.trace out1.1 = MAS.trace out2.1 /\
  pooled_accuracy ags1 = pooled_accuracy ags2 /\
  mean_of_accuracies ags1 ≠ mean_of_accuracies ags2.
Proof.
  intros worker state ags1 ags2 out1 out2.
  split_and!; [vm_compute; reflexivity | vm_compute; reflexivity | compute_done ..].
Qed.

(** ** Synchronization when every agent takes part *)

Section AllParticipate.
Context {A B : Type}.
Implicit Types (g m sd gw : gmap string (list Qc)) (a : MAS.agent A B).
Local Open Scope Qc_scope.

Lemma same_shape_lookup m g k :
  length <$> m = length <$> g ->
  (m !! k = None /\ g !! k = None) \/
  exists v t, m !! k = Some v /\ g !! k = Some t /\ length v = length t.
Proof.
  intros Hshape. apply (f_equal (fun x => x !! k)) in Hshape.
  rewrite !lookup_fmap in Hshape.
  destruct (m !! k) as [v|], (g !! k) as [t|]; simplify_eq/=; eauto 6.
Qed.

Lemma add_same_shape g m :
  length <$> m = length <$> g -> length <$> merge add_tensors g m = length <$> g.
Proof.
  intros Hshape. apply map_eq. intros k.
  rewrite !lookup_fmap, lookup_add_tensors.
  destruct (same_shape_lookup m g k Hshape) as [[-> ->]|(v & t & -> & -> & Hlen)];
    [done|]. cbn. f_equal. rewrite length_zip_with. lia.
Qed.

Lemma add_state_dict_same_shape g m :
  length <$> m = length <$> g ->
  MAS.add_state_dict g m = Py.Ok (merge add_tensors g m).
Proof.
  intros Hshape. apply add_state_dict_ok. intros k v Hk.
  destruct (same_shape_lookup m g k Hshape) as [[? _]|(v' & t & ? & ? & ?)];
    simplify_eq. eauto.
Qed.

Lemma sum_agents_ok (ags : list (MAS.agent A B)) : forall g,
  Forall (fun a => exists m, MAS.neural_net_model a = Some m
                             /\ length <$> m = length <$> g) ags ->
  MAS.sum_agents ags g = Py.Ok (sum_models g (held_models ags))
  /\ length <$> sum_models g (held_models ags) = length <$> g.
Proof.
  induction ags as [|a ags IH]; intros g Hall; [done|].
  apply Forall_cons in Hall as [(m & Hm & Hshape) Hall].
  cbn [MAS.sum_agents]. unfold held_models. cbn. rewrite Hm. cbn.
  rewrite add_state_dict_same_shape by done.
  pose proof (add_same_shape g m Hshape) as Hg.
  destruct (IH (merge add_tensors g m)) as [-> Hs].
  - eapply Forall_impl; [exact Hall|]. intros a' (m' & ? & ?).
    exists m'. split; [done|]. congruence.
  - split; [done|]. unfold held_models, sum_models in Hs. by rewrite Hs.
Qed.

Lemma insert_middle {T} (l1 l2 : list T) (x y : T) :
  <[length l1 := y]> (l1 ++ x :: l2) = l1 ++ y :: l2.
Proof. by rewrite <- (Nat.add_0_r (length l1)), insert_app_r. Qed.

(** The broadcast loop loads the weights into every agent in turn. *)
Lemma broadcast_all gw (todo : list (MAS.agent A B)) :
  forall (done : list (MAS.agent A B)) (s : MAS.model_state A B),
  MAS.agents s = done ++ todo ->
  Forall (fun a => exists own, MAS.neural_net_model a = Some own
                               /\ length <$> own = length <$> gw) todo ->
  Py.for_each (seq (length done) (length todo)) (MAS.broadcast_to gw) s
  = ({| MAS.num_processors := MAS.num_processors s;
        MAS.model_X_train := MAS.model_X_train s;
        MAS.model_y_train := MAS.model_y_train s;
        MAS.agents := done ++ ((fun a => MAS.set_neural_net_model a gw) <$> todo);
        MAS.trace := MAS.trace s
                     ++ ((fun a => MAS.EvLoadStateDict (MAS.unique_id a)) <$> todo) |},
     Py.Ok tt).
Proof.
  induction todo as [|a todo IH]; intros done s Hags Hall.
  - destruct s. cbn in *. subst. unfold Py.ret. by rewrite !app_nil_r.
  - apply Forall_cons in Hall as [(own & Hown & Hshape) Hall].
    cbn [length seq Py.for_each]. unfold Py.bind at 1.
    unfold MAS.broadcast_to at 1. unfold Py.bind at 1. unfold Py.get at 1.
    unfold Py.bind at 1. unfold Py.lift at 1, Py.getitem at 1.
    rewrite Hags, list_lookup_middle by done. rewrite Hown.
    unfold Py.bind at 1. unfold Py.lift at 1, MAS.load_state_dict at 1.
    rewrite bool_decide_eq_true_2 by done.
    unfold Py.bind at 1. unfold Py.modify at 1. unfold MAS.emit at 1, Py.modify at 1.
    simpl_state. rewrite Hags.
    rewrite insert_middle.
    pose (a' := MAS.set_neural_net_model a gw).
    pose (s' := {| MAS.num_processors := MAS.num_processors s;
                   MAS.model_X_train := MAS.model_X_train s;
                   MAS.model_y_train := MAS.model_y_train s;
                   MAS.agents := (done ++ [a']) ++ todo;
                   MAS.trace := MAS.trace s ++ [MAS.EvLoadStateDict (MAS.unique_id a)] |}).
    specialize (IH (done ++ [a']) s' eq_refl Hall).
    rewrite length_app, Nat.add_1_r in IH. subst s' a'. cbn in IH.
    rewrite <- app_assoc in IH. cbn in IH. rewrite IH.
    cbn. by rewrite <- !app_assoc.
Qed.

Lemma tensor_idiv_shape (gs : gmap string (list Qc)) n :
  length <$> ((fun t => MAS.tensor_idiv t n) <$> gs) = length <$> gs.
Proof.
  rewrite <- map_fmap_compose. apply map_fmap_ext. intros k t _.
  unfold MAS.tensor_idiv. cbn. apply length_fmap.
Qed.

Lemma zeros_like_shape sd : length <$> (MAS.zeros_like <$> sd) = length <$> sd.
Proof.
  rewrite <- map_fmap_compose. apply map_fmap_ext. intros k t _.
  cbn. apply length_zeros_like.
Qed.

(** When every agent holds a model with the names and shapes of the seed,
    the synchronization loads the arithmetic mean of the agents' state
    dicts into every agent: afterwards all the agents hold the same
    parameters. *)
Lemma synchronize_all_participating (s : MAS.model_state A B) sd :
  Forall (fun a => exists m, MAS.neural_net_model a = Some m
                             /\ length <$> m = length <$> sd) (MAS.agents s) ->
  let gw := mean_models sd (held_models (MAS.agents s)) in
  MAS.synchronize_weights (Some sd) s
  = ({| MAS.num_processors := MAS.num_processors s;
        MAS.model_X_train := MAS.model_X_train s;
        MAS.model_y_train := MAS.model_y_train s;
        MAS.agents := (fun a => MAS.set_neural_net_model a gw) <$> MAS.agents s;
        MAS.trace := MAS.trace s
                     ++ ((fun a => MAS.EvLoadStateDict (MAS.unique_id a)) <$> MAS.agents s) |},
     Py.Ok tt).
Proof.
  intros Hall gw. unfold MAS.synchronize_weights.
  unfold Py.bind at 1. unfold Py.get at 1.
  unfold Py.bind at 1. unfold Py.lift at 1.
  destruct (sum_agents_ok (MAS.agents s) (MAS.zeros_like <$> sd)) as [-> Hshape].
  { eapply Forall_impl; [exact Hall|]. intros a (m & ? & ?).
    exists m. split; [done|]. by rewrite zeros_like_shape. }
  assert (Hheld : length (held_models (MAS.agents s)) = length (MAS.agents s)).
  { clear -Hall. unfold held_models. induction Hall as [|a ags (m & Hm & _) _ IH]; [done|].
    cbn. rewrite Hm. cbn. by rewrite IH. }
  subst gw. unfold mean_models. rewrite Hheld.
  apply (broadcast_all _ (MAS.agents s) [] s eq_refl).
  eapply Forall_impl; [exact Hall|]. intros a (m & ? & Hm).
  exists m. split; [done|].
  by rewrite tensor_idiv_shape, Hshape, zeros_like_shape.
Qed.

End AllParticipate.

Section MeanComponents.
Implicit Types (g m sd : gmap string (list Qc)).
Local Open Scope Qc_scope.

Lemma component_add g m k j :
  length <$> m = length <$> g ->
  component (merge add_tensors g m) k j = component g k j + component m k j.
Proof.
  intros Hshape. unfold component. rewrite lookup_add_tensors.
  destruct (same_shape_lookup m g k Hshape) as [[-> ->]|(v & t & -> & -> & Hlen)]; cbn.
  - by rewrite Qcplus_0_l.
  - rewrite lookup_zip_with.
    destruct (t !! j) as [x|] eqn:Ht; cbn.
    + destruct (lookup_lt_is_Some_2 v j) as [y ->]; [|done].
      rewrite Hlen. by eapply lookup_lt_Some.
    + apply lookup_ge_None in Ht. rewrite (proj2 (lookup_ge_None v j)) by lia.
      cbn. by rewrite Qcplus_0_l.
Qed.

Lemma component_sum_models ms : forall g k j,
  Forall (fun m => length <$> m = length <$> g) ms ->
  component (sum_models g ms) k j
  = component g k j + foldr Qcplus 0 ((fun m => component m k j) <$> ms).
Proof.
  induction ms as [|m ms IH]; intros g k j Hall; cbn.
  - by rewrite Qcplus_0_r.
  - apply Forall_cons in Hall as [Hm Hall].
    unfold sum_models in *. rewrite IH.
    + by rewrite component_add, Qcplus_assoc.
    + eapply Forall_impl; [exact Hall|]. intros m' ->. symmetry.
      by apply add_same_shape.
Qed.

Lemma component_zeros sd k j : component (MAS.zeros_like <$> sd) k j = 0.
Proof.
  unfold component. rewrite lookup_fmap. destruct (sd !! k) as [t|]; cbn; [|done].
  unfold MAS.zeros_like.
  destruct (replicate (length t) 0 !! j) as [x|] eqn:Hx; cbn; [|done].
  by apply lookup_replicate in Hx as [-> _].
Qed.

Lemma component_idiv g n k j :
  component ((fun t => MAS.tensor_idiv t n) <$> g) k j
  = component g k j / Qc_of_Z (Z.of_nat n).
Proof.
  unfold component. rewrite lookup_fmap. destruct (g !! k) as [t|]; cbn.
  - unfold MAS.tensor_idiv. rewrite list_lookup_fmap.
    destruct (t !! j); cbn; [done|]. unfold Qcdiv. by rewrite Qcmult_0_l.
  - unfold Qcdiv. by rewrite Qcmult_0_l.
Qed.

(** Every component of the mean of state dicts of one shape is the sum
    of the corresponding components divided by their number. *)
Lemma mean_models_component sd ms k j :
  Forall (fun m => length <$> m = length <$> sd) ms ->
  component (mean_models sd ms) k j
  = foldr Qcplus 0 ((fun m => component m k j) <$> ms) / Qc_of_Z (Z.of_nat (length ms)).
Proof.
  intros Hall. unfold mean_models.
  rewrite component_idiv, component_sum_models, component_zeros, Qcplus_0_l; [done|].
  eapply Forall_impl; [exact Hall|]. intros m ->. symmetry. apply zeros_like_shape.
Qed.

End MeanComponents.

(** X7.  When every agent holds a usable model (the names and shapes of
    the seed), the synchronization succeeds and afterwards every agent holds
    one and the same state dict, each component of which is the sum of
    the agents' components divided by the number of agents. *)
Lemma synchronize_mean_when_all_participate {A B} (s : MAS.model_state A B)
    (sd : gmap string (list Qc)) :
  Forall (fun a => exists m, MAS.neural_net_model a = Some m
                             /\ length <$> m = length <$> sd) (MAS.agents s) ->
  let out := MAS.synchronize_weights (Some sd) s in
  let before := held_models (MAS.agents s) in
  out.2 = Py.Ok tt /\
  exists gw,
    Forall (fun a => MAS.neural_net_model a = Some gw) (MAS.agents out.1) /\
    length (MAS.agents out.1) = length (MAS.agents s) /\
    length before = length (MAS.agents s) /\
    forall k j,
      component gw k j
      = (foldr Qcplus 0%Qc ((fun m => component m k j) <$> before)
         / Qc_of_Z (Z.of_nat (length (MAS.agents s))))%Qc.
Proof.
  intros Hall. cbv zeta. rewrite synchronize_all_participating by done.
  cbn [fst snd MAS.agents]. split; [done|].
  assert (Hheld : length (held_models (MAS.agents s)) = length (MAS.agents s)).
  { clear -Hall. unfold held_models. induction Hall as [|a ags (m & Hm & _) _ IH]; [done|].
    cbn. rewrite Hm. cbn. by rewrite IH. }
  exists (mean_models sd (held_models (MAS.agents s))). split_and!.
  - apply Forall_fmap, Forall_true. done.
  - by rewrite length_fmap.
  - done.
  - intros k j. rewrite mean_models_component, Hheld; [done|].
    clear -Hall. unfold held_models.
    induction Hall as [|a ags (m & Hm & Hshape) _ IH]; [done|].
    cbn. rewrite Hm. cbn. by constructor.
Qed.

(** ** Synchronization: no seed, one processor, agents without a model *)

(** C9.  Called without a seed state dict, [synchronize_weights] returns
    at once: the model state, and with it every agent and every agent's
    parameters, is exactly as before the call. *)
Theorem synchronize_without_seed_is_noop {A B} (s : MAS.model_state A B) :
  let out := MAS.synchronize_weights None s in
  out.2 = Py.Ok tt /\
  out.1 = s /\
  MAS.neural_net_model <$> MAS.agents out.1 = MAS.neural_net_model <$> MAS.agents s.
Proof. cbv zeta. split_and!; reflexivity. Qed.

(** C10, counterexample.  One processor, an agent whose local training
    yields a model: the step completes and has overwritten the agent's
    model once, through [load_state_dict] in the final synchronization.  A
    weight synchronization is performed. *)
Lemma single_processor_step_synchronizes :
  let trained := fun a : MAS.agent nat nat =>
    {| MAS.unique_id := MAS.unique_id a; MAS.X_train := MAS.X_train a;
       MAS.y_train := MAS.y_train a;
       MAS.neural_net_model := Some {[ "w" := [Qc_of_Z 2; Qc_of_Z 4] ]};
       MAS.fold_loss := 1%Qc; MAS.processing_time := 1%Qc;
       MAS.correct_classifications := 2; MAS.total_examples_processed := 3 |} in
  let out := MAS.step trained (MAS.init [10; 20; 30]%nat [0; 1; 0]%nat 1).1 in
  out.2 = Py.Ok tt /\
  loads (MAS.trace out.1) = [0%nat] /\
  ~ no_synchronization out.1.
Proof.
  intros trained out.
  assert (Hloads : loads (MAS.trace out.1) = [0%nat]) by (vm_compute; reflexivity).
  split_and!; [vm_compute; reflexivity | exact Hloads |].
  unfold no_synchronization. rewrite Hloads. discriminate.
Qed.

(** C1, at the failing input.  Two agents, the first with the parameter
    [w = (2, 4)], the second without a model.  Only the first agent takes
    part, so the mean of the participating agents' tensors is [(2, 4)];
    the code divides the sum by the number of all agents and loads
    [(1, 2)] into the first agent, both when [synchronize_weights] is
    called with the first agent's state as seed and when it is reached
    through [report_testing_accuracy]. *)
Theorem synchronize_divides_by_all_agents :
  let sd : gmap string (list Qc) := {[ "w" := [Qc_of_Z 2; Qc_of_Z 4] ]} in
  let a0 := MAS.set_neural_net_model (MAS.ProcessorAgent 0 [1; 2]%nat [0; 1]%nat) sd in
  let a1 := MAS.ProcessorAgent 1 [3; 4]%nat [1; 0]%nat in
  let s := {| MAS.num_processors := 2; MAS.model_X_train := [1; 2; 3; 4]%nat;
              MAS.model_y_train := [0; 1; 1; 0]%nat; MAS.agents := [a0; a1];
              MAS.trace := [] |} in
  let out := MAS.synchronize_weights (Some sd) s in
  held_models (MAS.agents s) = [sd] /\
  out.2 = Py.Ok tt /\
  MAS.neural_net_model <$> MAS.agents out.1
  = [Some {[ "w" := [Qc_of_Z 1; Qc_of_Z 2] ]}; None] /\
  MAS.neural_net_model <$> MAS.agents (MAS.report_testing_accuracy s).1
  = [Some {[ "w" := [Qc_of_Z 1; Qc_of_Z 2] ]}; None].
Proof.
  intros sd a0 a1 s out.
  split_and!; [reflexivity | vm_compute; reflexivity | compute_done ..].
Qed.

(** * Further properties of the code *)

(** ** Sharding: alignment, sizes, degenerate processor counts *)

Section ShardingMore.
Context {A B : Type}.

Lemma reshape_zip (sizes : list nat) : forall (l : list A) (k : list B),
  reshape sizes (zip l k) = zip_with zip (reshape sizes l) (reshape sizes k).
Proof.
  induction sizes as [|n sizes IH]; intros l k; cbn; [done|].
  by rewrite zip_with_take, zip_with_drop, IH.
Qed.

Lemma shard_agents_lookup (sx : list (list A)) (sy : list (list B)) n i :
  (i < n)%nat ->
  shard_agents sx sy 0 n !! i = Some (MAS.ProcessorAgent i (sx !!! i) (sy !!! i)).
Proof.
  intros Hi. unfold shard_agents.
  change (map ?f ?l) with (f <$> l).
  by rewrite list_lookup_fmap, lookup_seq_lt.
Qed.

Lemma shard_agents_lookup_inv (sx : list (list A)) (sy : list (list B)) n i a :
  shard_agents sx sy 0 n !! i = Some a ->
  (i < n)%nat /\ a = MAS.ProcessorAgent i (sx !!! i) (sy !!! i).
Proof.
  intros Hi.
  assert (Hlt : (i < n)%nat).
  { apply lookup_lt_Some in Hi. unfold shard_agents in Hi.
    by rewrite length_map, length_seq in Hi. }
  rewrite shard_agents_lookup in Hi by done. split; congruence.
Qed.

Lemma section_sizes_lookup total sections i :
  (i < sections)%nat ->
  section_sizes total sections !! i
  = Some (total / sections + (if decide (i < total mod sections) then 1 else 0))%nat.
Proof.
  intros Hi. unfold section_sizes.
  pose proof (Nat.mod_upper_bound total sections ltac:(lia)) as Hmod.
  destruct (decide (i < total mod sections)%nat) as [Hlt|Hge].
  - rewrite lookup_app_l by (rewrite length_replicate; lia).
    by rewrite lookup_replicate_2.
  - rewrite lookup_app_r by (rewrite length_replicate; lia).
    rewrite length_replicate, lookup_replicate_2 by lia. f_equal. lia.
Qed.

Lemma reshape_lookup_length (sizes : list nat) (l : list A) i :
  (sum_list sizes <= length l)%nat -> (i < length sizes)%nat ->
  Some (length (reshape sizes l !!! i)) = sizes !! i.
Proof.
  intros Hsum Hi. rewrite <- (reshape_sizes l sizes Hsum) at 2.
  rewrite list_lookup_fmap.
  by rewrite (list_lookup_lookup_total_lt (reshape sizes l) i)
    by (by rewrite length_reshape).
Qed.

End ShardingMore.

(** X1.  When there are as many labels as inputs, every agent's labels
    are those of its inputs: each agent holds as many labels as inputs,
    and pairing inputs with labels shard by shard, in agent order, gives
    the pairing of the whole training set. *)
Theorem shards_keep_labels_aligned {A B} (X : list A) (y : list B) (N : Z) :
  1 <= N -> length X = length y ->
  let ags := MAS.agents (MAS.init X y N).1 in
  mjoin ((fun a => zip (MAS.X_train a) (MAS.y_train a)) <$> ags) = zip X y /\
  Forall (fun a => length (MAS.X_train a) = length (MAS.y_train a)) ags.
Proof.
  intros HN Hlen. rewrite init_shards by done. cbn [fst MAS.agents]. cbv zeta.
  rewrite <- Hlen.
  set (n := Z.to_nat N). assert (Hn : (0 < n)%nat) by (subst n; lia).
  set (sizes := section_sizes (length X) n).
  assert (Hsum : sum_list sizes = length X) by (by apply section_sizes_sum).
  assert (Hsz : length sizes = n) by (by apply section_sizes_length).
  split.
  - rewrite <- (join_reshape sizes (zip X y))
      by (rewrite Hsum, length_zip_with; lia).
    f_equal. rewrite reshape_zip. apply list_eq. intros i.
    rewrite list_lookup_fmap, lookup_zip_with.
    destruct (decide (i < n)%nat) as [Hi|Hi].
    + rewrite shard_agents_lookup by done. cbn.
      rewrite (list_lookup_lookup_total_lt (reshape sizes X) i)
        by (rewrite length_reshape; lia).
      by rewrite (list_lookup_lookup_total_lt (reshape sizes y) i)
        by (rewrite length_reshape; lia).
    + rewrite (proj2 (lookup_ge_None (shard_agents _ _ 0 n) i)).
      2:{ unfold shard_agents. rewrite length_map, length_seq. lia. }
      rewrite (proj2 (lookup_ge_None (reshape sizes X) i)); [done|].
      rewrite length_reshape. lia.
  - apply Forall_lookup. intros i a [Hi ->]%shard_agents_lookup_inv. cbn.
    assert (Some (length (reshape sizes X !!! i)) = Some (length (reshape sizes y !!! i)))
      as [= ->]; [|done].
    rewrite !reshape_lookup_length; try done; lia.
Qed.

Lemma shards_keep_labels_aligned_witness :
  let ags := MAS.agents (MAS.init [10; 20; 30; 40; 50] [1; 0; 1; 0; 1] 2).1 in
  mjoin ((fun a => zip (MAS.X_train a) (MAS.y_train a)) <$> ags)
  = zip [10; 20; 30; 40; 50] [1; 0; 1; 0; 1] /\
  Forall (fun a => length (MAS.X_train a) = length (MAS.y_train a)) ags.
Proof.
  apply (shards_keep_labels_aligned [10; 20; 30; 40; 50] [1; 0; 1; 0; 1] 2);
    [lia | reflexivity].
Defined.

(** X2.  The agent at position [i] has id [i] and a shard of
    [len / N] examples, one more for the first [len mod N] agents.  With
    more processors than examples nothing fails: the agents from position
    [len] on get an empty shard. *)
Theorem shard_size_formula {A B} (X : list A) (y : list B) (N : Z) (i : nat)
    (a : MAS.agent A B) :
  1 <= N -> MAS.agents (MAS.init X y N).1 !! i = Some a ->
  let n := Z.to_nat N in
  MAS.unique_id a = i /\
  length (MAS.X_train a)
  = (length X / n + (if decide (i < length X mod n) then 1 else 0))%nat /\
  ((length X <= i)%nat -> MAS.X_train a = []).
Proof.
  intros HN. rewrite init_shards by done. cbn [fst MAS.agents].
  intros [Hi ->]%shard_agents_lookup_inv. cbv zeta. cbn.
  set (n := Z.to_nat N) in *.
  assert (Hlen : length (reshape (section_sizes (length X) n) X !!! i)
                 = (length X / n + (if decide (i < length X mod n) then 1 else 0))%nat).
  { assert (Some (length (reshape (section_sizes (length X) n) X !!! i))
            = Some (length X / n + (if decide (i < length X mod n) then 1 else 0))%nat)
      as [= ->]; [|done].
    rewrite reshape_lookup_length.
    - by apply section_sizes_lookup.
    - rewrite section_sizes_sum; lia.
    - rewrite section_sizes_length; lia. }
  split_and!; [done..|].
  intros Hge. apply nil_length_inv. rewrite Hlen.
  rewrite Nat.div_small, Nat.mod_small by lia.
  destruct (decide (i < length X)%nat); lia.
Qed.

Lemma shard_size_formula_witness :
  let a := MAS.ProcessorAgent 2 (@nil nat) (@nil nat) in
  let n := Z.to_nat 3 in
  MAS.unique_id a = 2%nat /\
  length (MAS.X_train a)
  = (length [10; 20]%nat / n + (if decide (2 < length [10; 20]%nat mod n) then 1 else 0))%nat /\
  ((length [10; 20]%nat <= 2)%nat -> MAS.X_train a = []).
Proof.
  apply (shard_size_formula [10; 20]%nat [1; 0]%nat 3 2
           (MAS.ProcessorAgent 2 (@nil nat) (@nil nat))); [lia | reflexivity].
Defined.

(** X3.  A processor count of zero or less makes the constructor fail
    with [ValueError], raised by [array_split], before any agent is
    created. *)
Theorem init_rejects_nonpositive_processors {A B} (X : list A) (y : list B) (N : Z) :
  N <= 0 ->
  MAS.init X y N
  = ({| MAS.num_processors := N; MAS.model_X_train := X; MAS.model_y_train := y;
        MAS.agents := []; MAS.trace := [] |}, Py.Raise Py.ValueError).
Proof.
  intros HN. unfold MAS.init, MAS._split_data_and_create_agents.
  unfold Py.bind at 1. unfold Py.get at 1. cbn [MAS.num_processors].
  rewrite bool_decide_eq_false_2 by lia.
  unfold Py.bind at 1. unfold Py.lift at 1, Numpy.array_split.
  cbn [MAS.model_X_train]. by rewrite bool_decide_eq_true_2.
Qed.

Lemma init_rejects_nonpositive_processors_witness :
  MAS.init [10; 20]%nat [1; 0]%nat 0
  = ({| MAS.num_processors := 0; MAS.model_X_train := [10; 20]%nat;
        MAS.model_y_train := [1; 0]%nat;
        MAS.agents := []; MAS.trace := [] |}, Py.Raise Py.ValueError).
Proof. apply (init_rejects_nonpositive_processors [10; 20]%nat [1; 0]%nat 0). lia. Defined.

(** ** Synchronization: frame, seed, repetition, foreign names *)

Section SynchronizationFrame.
Context {A B : Type}.
Implicit Types (s : MAS.model_state A B) (a : MAS.agent A B)
  (g m sd gw : gmap string (list Qc)).

Lemma same_but_parameters_refl a : same_but_parameters a a.
Proof. by repeat split. Qed.

Lemma same_but_parameters_trans a1 a2 a3 :
  same_but_parameters a1 a2 -> same_but_parameters a2 a3 -> same_but_parameters a1 a3.
Proof.
  intros (?&?&?&?&?&?&?&?) (?&?&?&?&?&?&?&?). repeat split; congruence.
Qed.

Lemma frame_of_refl s : frame_of s s.
Proof.
  repeat split. apply Forall2_same_length_lookup. split; [done|].
  intros i x y ? ?. simplify_eq. apply same_but_parameters_refl.
Qed.

Lemma frame_of_trans s1 s2 s3 : frame_of s1 s2 -> frame_of s2 s3 -> frame_of s1 s3.
Proof.
  intros (?&?&?&H12) (?&?&?&H23). repeat split; try congruence.
  eapply Forall2_trans; [|exact H12|exact H23].
  apply same_but_parameters_trans.
Qed.

Lemma broadcast_to_frame gw i s : frame_of s (MAS.broadcast_to gw i s).1.
Proof.
  unfold MAS.broadcast_to. unfold Py.bind at 1. unfold Py.get at 1.
  unfold Py.bind at 1. unfold Py.lift at 1, Py.getitem at 1.
  destruct (MAS.agents s !! i) as [a|] eqn:Ha; [|apply frame_of_refl].
  destruct (MAS.neural_net_model a) as [own|] eqn:Hown; [|apply frame_of_refl].
  unfold Py.bind at 1. unfold Py.lift at 1, MAS.load_state_dict at 1.
  case_bool_decide as Hshape; [|apply frame_of_refl].
  unfold MAS.emit. unfold_monad. simpl_state. cbn [fst].
  repeat split. simpl_state.
  apply Forall2_same_length_lookup. split; [by rewrite length_insert|].
  intros j x x' Hx Hx'.
  destruct (decide (j = i)) as [->|Hne].
  - rewrite list_lookup_insert_eq in Hx' by (by eapply lookup_lt_Some).
    simplify_eq. repeat split. cbn. rewrite Hown. cbn. by rewrite Hshape.
  - rewrite list_lookup_insert_ne in Hx' by done. simplify_eq.
    apply same_but_parameters_refl.
Qed.

Lemma broadcast_loop_frame gw is_ : forall s,
  frame_of s (Py.for_each is_ (MAS.broadcast_to gw) s).1.
Proof.
  induction is_ as [|i is_ IH]; intros s; [apply frame_of_refl|].
  cbn [Py.for_each]. unfold Py.bind at 1.
  pose proof (broadcast_to_frame gw i s) as Hb.
  destruct (MAS.broadcast_to gw i s) as [s1 [[]|e]]; cbn [fst] in *; [|done].
  eapply frame_of_trans; [exact Hb|apply IH].
Qed.

Lemma synchronize_weights_frame seed s : frame_of s (MAS.synchronize_weights seed s).1.
Proof.
  destruct seed as [sd|]; [|apply frame_of_refl]. unfold MAS.synchronize_weights.
  unfold Py.bind at 1. unfold Py.get at 1.
  unfold Py.bind at 1. unfold Py.lift at 1.
  destruct (MAS.sum_agents _ _) as [g|e]; [|apply frame_of_refl].
  apply broadcast_loop_frame.
Qed.

(** The domain of the running weights never changes, and a state dict
    that was added had all its names among them. *)
Lemma add_state_dict_dom g m :
  match MAS.add_state_dict g m with
  | Py.Ok g' => dom g' = dom g /\ dom m ⊆ dom g
  | Py.Raise _ => True
  end.
Proof.
  unfold MAS.add_state_dict.
  apply (map_fold_weak_ind (fun r m' =>
    match r with
    | Py.Ok g' => dom g' = dom g /\ dom m' ⊆ dom g
    | Py.Raise _ => True
    end)).
  - split; [done|]. set_solver.
  - intros i x m' [g'|e] Hi IH; [|done]. destruct IH as [Hdom Hsub].
    destruct (g' !! i) as [t|] eqn:Ht; [|done].
    destruct (MAS.tensor_iadd t x) as [t'|e]; [|done].
    assert (i ∈ dom g) by (rewrite <- Hdom; apply elem_of_dom; eauto).
    split.
    + rewrite dom_insert_L, Hdom. apply (anti_symm (⊆)).
      * apply union_least; [by apply singleton_subseteq_l|done].
      * apply union_subseteq_r.
    + rewrite dom_insert_L. apply union_least; [by apply singleton_subseteq_l|done].
Qed.

Lemma sum_agents_foreign_name (ags : list (MAS.agent A B)) : forall g,
  (exists a m k, a ∈ ags /\ MAS.neural_net_model a = Some m
                 /\ is_Some (m !! k) /\ g !! k = None) ->
  exists e, MAS.sum_agents ags g = Py.Raise e.
Proof.
  induction ags as [|a0 ags IH]; intros g (a & m & k & Ha & Hm & Hk & Hg).
  { by apply elem_of_nil in Ha. }
  cbn [MAS.sum_agents].
  destruct (MAS.neural_net_model a0) as [m0|] eqn:Hm0.
  - pose proof (add_state_dict_dom g m0) as Hdom.
    destruct (MAS.add_state_dict g m0) as [g'|e]; [|eauto].
    destruct Hdom as [Hdom Hsub].
    apply elem_of_cons in Ha as [->|Ha].
    + exfalso. simplify_eq. apply not_elem_of_dom in Hg. apply Hg, Hsub.
      by apply elem_of_dom.
    + apply IH. exists a, m, k. split_and!; try done.
      apply not_elem_of_dom. rewrite Hdom. by apply not_elem_of_dom.
  - apply elem_of_cons in Ha as [->|Ha]; [congruence|].
    apply IH. eauto 10.
Qed.

End SynchronizationFrame.

(** X4.  Whatever its seed and outcome, [synchronize_weights] touches
    nothing but parameter values: the processor count, the data and the
    number and order of the agents are unchanged, and every agent keeps its
    id, shard and metrics, stays without a model if it had none, and
    otherwise keeps the names and shapes of its parameters. *)
Theorem synchronize_touches_only_parameters {A B} (seed : option (gmap string (list Qc)))
    (s : MAS.model_state A B) :
  let s' := (MAS.synchronize_weights seed s).1 in
  MAS.num_processors s' = MAS.num_processors s /\
  MAS.model_X_train s' = MAS.model_X_train s /\
  MAS.model_y_train s' = MAS.model_y_train s /\
  Forall2 same_but_parameters (MAS.agents s) (MAS.agents s').
Proof. apply synchronize_weights_frame. Qed.

(** X5.  Of the seed only the names and shapes matter: two seeds of the
    same names and shapes give the same synchronization. *)
Theorem seed_values_are_irrelevant {A B} (sd sd' : gmap string (list Qc))
    (s : MAS.model_state A B) :
  length <$> sd = length <$> sd' ->
  MAS.synchronize_weights (Some sd) s = MAS.synchronize_weights (Some sd') s.
Proof.
  intros Hshape. unfold MAS.synchronize_weights.
  replace (MAS.zeros_like <$> sd') with (MAS.zeros_like <$> sd); [done|].
  apply map_eq. intros k. rewrite !lookup_fmap.
  destruct (same_shape_lookup sd sd' k Hshape) as [[-> ->]|(v & t & -> & -> & Hlen)];
    [done|]. cbn. unfold MAS.zeros_like. by rewrite Hlen.
Qed.

Lemma seed_values_are_irrelevant_witness :
  let s := {| MAS.num_processors := 1; MAS.model_X_train := [1%nat];
              MAS.model_y_train := [0%nat];
              MAS.agents := [MAS.set_neural_net_model (MAS.ProcessorAgent 0 [1%nat] [0%nat])
                               {[ "w" := [Qc_of_Z 2; Qc_of_Z 4] ]}];
              MAS.trace := [] |} in
  MAS.synchronize_weights (Some {[ "w" := [Qc_of_Z 2; Qc_of_Z 4] ]}) s
  = MAS.synchronize_weights (Some {[ "w" := [Qc_of_Z 7; Qc_of_Z 9] ]}) s.
Proof.
  intros s.
  apply (seed_values_are_irrelevant {[ "w" := [Qc_of_Z 2; Qc_of_Z 4] ]}
           {[ "w" := [Qc_of_Z 7; Qc_of_Z 9] ]} s).
  vm_compute. reflexivity.
Defined.

(** X6.  If an agent holds a parameter whose name the seed does not
    have, [synchronize_weights] raises during the summation and modifies
    nothing: no agent's model is overwritten. *)
Theorem synchronize_foreign_name_raises {A B} (sd : gmap string (list Qc))
    (s : MAS.model_state A B) :
  (exists a m k, a ∈ MAS.agents s /\ MAS.neural_net_model a = Some m
                 /\ is_Some (m !! k) /\ sd !! k = None) ->
  exists e, MAS.synchronize_weights (Some sd) s = (s, Py.Raise e).
Proof.
  intros (a & m & k & Ha & Hm & Hk & Hsd). unfold MAS.synchronize_weights.
  unfold Py.bind at 1. unfold Py.get at 1.
  unfold Py.bind at 1. unfold Py.lift at 1.
  destruct (sum_agents_foreign_name (MAS.agents s) (MAS.zeros_like <$> sd)) as [e ->].
  - exists a, m, k. split_and!; try done. by rewrite lookup_fmap, Hsd.
  - eauto.
Qed.

Lemma synchronize_foreign_name_raises_witness :
  let s := {| MAS.num_processors := 1; MAS.model_X_train := [1%nat];
              MAS.model_y_train := [0%nat];
              MAS.agents := [MAS.set_neural_net_model (MAS.ProcessorAgent 0 [1%nat] [0%nat])
                               {[ "b" := [1%Qc] ]}];
              MAS.trace := [] |} in
  exists e, MAS.synchronize_weights (Some {[ "w" := [1%Qc] ]}) s = (s, Py.Raise e).
Proof.
  intros s.
  apply (synchronize_foreign_name_raises {[ "w" := [1%Qc] ]} s).
  exists (MAS.set_neural_net_model (MAS.ProcessorAgent 0 [1%nat] [0%nat]) {[ "b" := [1%Qc] ]}),
         {[ "b" := [1%Qc] ]}, "b"%string.
  split_and!; [apply list_elem_of_here | reflexivity | by eexists | reflexivity].
Defined.

(** ** Synchronization: repetition *)

Section SynchronizationTwice.
Implicit Types (g m sd gw : gmap string (list Qc)).
Local Open Scope Qc_scope.







End SynchronizationTwice.



(** Witness of the mean over all the agents: two agents with [w = (2, 4)]
    and [w = (4, 8)]. *)
Lemma synchronize_mean_when_all_participate_witness :
  let sd : gmap string (list Qc) := {[ "w" := [Qc_of_Z 2; Qc_of_Z 4] ]} in
  let sd2 : gmap string (list Qc) := {[ "w" := [Qc_of_Z 4; Qc_of_Z 8] ]} in
  let s := {| MAS.num_processors := 2; MAS.model_X_train := [1; 2]%nat;
              MAS.model_y_train := [0; 1]%nat;
              MAS.agents := [MAS.set_neural_net_model (MAS.ProcessorAgent 0 [1%nat] [0%nat]) sd;
                             MAS.set_neural_net_model (MAS.ProcessorAgent 1 [2%nat] [1%nat]) sd2];
              MAS.trace := [] |} in
  let out := MAS.synchronize_weights (Some sd) s in
  let before := held_models (MAS.agents s) in
  out.2 = Py.Ok tt /\
  exists gw,
    Forall (fun a => MAS.neural_net_model a = Some gw) (MAS.agents out.1) /\
    length (MAS.agents out.1) = length (MAS.agents s) /\
    length before = length (MAS.agents s) /\
    forall k j,
      component gw k j
      = (foldr Qcplus 0%Qc ((fun m => component m k j) <$> before)
         / Qc_of_Z (Z.of_nat (length (MAS.agents s))))%Qc.
Proof.
  intros sd sd2 s.
  apply (synchronize_mean_when_all_participate s sd).
  repeat constructor.
  - exists sd. split; [reflexivity | vm_compute; reflexivity].
  - exists sd2. split; [reflexivity | vm_compute; reflexivity].
Defined.

(** ** One round: [step] *)

Section StepRound.
Context {A B : Type}.
Variable agent_step : MAS.agent A B -> MAS.agent A B.
Implicit Types (s : MAS.model_state A B) (a : MAS.agent A B).

(** A round is the local passes, then two guarded divisions, then the
    summary, then [report_testing_accuracy]; the synchronization between
    the local passes and the summary does nothing. *)
Lemma step_run s :
  let s1 := after_local_pass agent_step s in
  let ags := MAS.agents s1 in
  MAS.step agent_step s
  = if bool_decide (ags = []) then (s1, Py.Raise Py.ZeroDivisionError)
    else if bool_decide (Py.sumZ (MAS.total_examples_processed <$> ags) = 0)
    then (s1, Py.Raise Py.ZeroDivisionError)
    else MAS.report_testing_accuracy
           (with_trace (MAS.trace s ++ [summary_of ags]) s1).
Proof.
  intros s1 ags. destruct s as [np X y ags0 tr].
  unfold MAS.step.
  unfold Py.bind at 1. unfold MAS.schedule_step at 1, Py.modify at 1.
  unfold Py.bind at 1. unfold Py.get at 1.
  unfold Py.bind at 1. simpl_state.
  assert (Hguard : forall s0 : MAS.model_state A B,
            (if bool_decide (1 < np) then MAS.synchronize_weights None else Py.ret tt) s0
            = (s0, Py.Ok tt)) by (intros s0; by destruct (bool_decide _)).
  rewrite Hguard.
  unfold Py.bind at 1. unfold Py.get at 1. simpl_state.
  subst s1. unfold after_local_pass in *. simpl_state. cbn [MAS.agents] in ags.
  change (map agent_step ags0) with ags.
  unfold Py.bind at 1. unfold Py.lift at 1.
  unfold Py.div at 1. rewrite length_fmap.
  destruct (decide (ags = [])) as [Hnil|Hnil].
  { rewrite Hnil. cbn [length]. rewrite bool_decide_eq_true_2 by done.
    by rewrite bool_decide_eq_true_2 by done. }
  assert (Hlen : Z.of_nat (length ags) ≠ 0) by (destruct ags; [done|cbn; lia]).
  rewrite (bool_decide_eq_false_2 (Z.of_nat (length ags) = 0)) by done.
  rewrite (bool_decide_eq_false_2 (ags = [])) by done.
  unfold Py.bind at 1. unfold Py.lift at 1.
  unfold Py.div at 1. rewrite length_fmap, bool_decide_eq_false_2 by done.
  unfold Py.bind at 1. unfold Py.lift at 1.
  unfold Py.div at 1.
  destruct (decide (Py.sumZ (MAS.total_examples_processed <$> ags) = 0)) as [Hz|Hz].
  { by rewrite !bool_decide_eq_true_2 by done. }
  rewrite !(bool_decide_eq_false_2 (Py.sumZ _ = 0)) by done.
  unfold Py.bind at 1. unfold MAS.emit at 1, Py.modify at 1. simpl_state.
  reflexivity.
Qed.

(** [report_testing_accuracy] when every agent holds a model with the
    names and shapes of the first agent's. *)
Lemma report_testing_accuracy_run s a0 m0 :
  MAS.agents s !! 0%nat = Some a0 -> MAS.neural_net_model a0 = Some m0 ->
  Forall (fun a => exists m, MAS.neural_net_model a = Some m
                             /\ length <$> m = length <$> m0) (MAS.agents s) ->
  let gw := mean_models m0 (held_models (MAS.agents s)) in
  MAS.report_testing_accuracy s
  = ({| MAS.num_processors := MAS.num_processors s;
        MAS.model_X_train := MAS.model_X_train s;
        MAS.model_y_train := MAS.model_y_train s;
        MAS.agents := (fun a => MAS.set_neural_net_model a gw) <$> MAS.agents s;
        MAS.trace := MAS.trace s
                     ++ ((fun a => MAS.EvLoadStateDict (MAS.unique_id a)) <$> MAS.agents s)
                     ++ [MAS.EvInference (MAS.unique_id a0)] |},
     Py.Ok tt).
Proof.
  intros H0 Hm0 Hall gw.
  unfold MAS.report_testing_accuracy. unfold Py.bind at 1. unfold Py.get at 1.
  unfold Py.bind at 1. unfold Py.lift at 1. unfold Py.getitem at 1. rewrite H0.
  unfold Py.bind at 1. rewrite Hm0. unfold Py.ret at 1. unfold Py.bind at 1.
  rewrite (synchronize_all_participating s m0 Hall). fold gw.
  unfold Py.bind at 1. unfold Py.get at 1.
  unfold Py.bind at 1. unfold Py.lift at 1. unfold Py.getitem at 1.
  cbn [MAS.agents]. rewrite list_lookup_fmap, H0. cbn [fmap option_fmap option_map].
  cbn [MAS.neural_net_model MAS.set_neural_net_model].
  unfold MAS.emit, Py.modify. cbn. by rewrite <- app_assoc.
Qed.

Lemma report_testing_accuracy_no_model s a0 :
  MAS.agents s !! 0%nat = Some a0 -> MAS.neural_net_model a0 = None ->
  MAS.report_testing_accuracy s = (s, Py.Raise Py.AttributeError).
Proof.
  intros H0 Hm0.
  unfold MAS.report_testing_accuracy. unfold Py.bind at 1. unfold Py.get at 1.
  unfold Py.bind at 1. unfold Py.lift at 1. unfold Py.getitem at 1. rewrite H0.
  unfold Py.bind at 1. by rewrite Hm0.
Qed.

End StepRound.

(** X9.  A whole round.  When after the local passes every agent holds a
    model with the names and shapes of the first agent's and some example
    has been processed, [step] succeeds; it prints the summary, then
    loads the mean of the agents' models into every agent, in the order of
    the schedule, then runs the inference with the first agent's model.
    Nothing but the parameters of the agents differs from the state after
    the local passes. *)
Theorem step_round_all_agents {A B} (agent_step : MAS.agent A B -> MAS.agent A B)
    (s : MAS.model_state A B) (a0 : MAS.agent A B) (m0 : gmap string (list Qc)) :
  let ags := agent_step <$> MAS.agents s in
  ags !! 0%nat = Some a0 -> MAS.neural_net_model a0 = Some m0 ->
  Forall (fun a => exists m, MAS.neural_net_model a = Some m
                             /\ length <$> m = length <$> m0) ags ->
  Py.sumZ (MAS.total_examples_processed <$> ags) ≠ 0 ->
  let out := MAS.step agent_step s in
  let gw := mean_models m0 (held_models ags) in
  out.2 = Py.Ok tt
  /\ MAS.agents out.1 = (fun a => MAS.set_neural_net_model a gw) <$> ags
  /\ MAS.trace out.1
     = MAS.trace s ++ [summary_of ags]
       ++ ((fun a => MAS.EvLoadStateDict (MAS.unique_id a)) <$> ags)
       ++ [MAS.EvInference (MAS.unique_id a0)].
Proof.
  intros ags H0 Hm0 Hall Hz. cbv zeta.
  rewrite step_run. cbv zeta.
  change (MAS.agents (after_local_pass agent_step s)) with ags.
  rewrite (bool_decide_eq_false_2 (ags = [])) by (by destruct ags).
  rewrite bool_decide_eq_false_2 by done.
  rewrite (report_testing_accuracy_run _ a0 m0); try done.
  cbn [fst snd MAS.agents MAS.trace with_trace].
  change (MAS.agents (after_local_pass agent_step s)) with ags.
  by rewrite <- app_assoc.
Qed.

Lemma step_round_all_agents_witness :
  let sd : gmap string (list Qc) := {[ "w" := [Qc_of_Z 2; Qc_of_Z 4] ]} in
  let sd2 : gmap string (list Qc) := {[ "w" := [Qc_of_Z 4; Qc_of_Z 8] ]} in
  let a0 := {| MAS.unique_id := 0; MAS.X_train := [1%nat]; MAS.y_train := [0%nat];
               MAS.neural_net_model := Some sd; MAS.fold_loss := Qc_of_Z 1;
               MAS.processing_time := Qc_of_Z 2; MAS.correct_classifications := 1;
               MAS.total_examples_processed := 1 |} in
  let a1 := {| MAS.unique_id := 1; MAS.X_train := [2%nat]; MAS.y_train := [1%nat];
               MAS.neural_net_model := Some sd2; MAS.fold_loss := Qc_of_Z 1;
               MAS.processing_time := Qc_of_Z 4; MAS.correct_classifications := 0;
               MAS.total_examples_processed := 1 |} in
  let s := {| MAS.num_processors := 2; MAS.model_X_train := [1; 2]%nat;
              MAS.model_y_train := [0; 1]%nat; MAS.agents := [a0; a1];
              MAS.trace := [] |} in
  let ags := id <$> MAS.agents s in
  let out := MAS.step id s in
  let gw := mean_models sd (held_models ags) in
  out.2 = Py.Ok tt
  /\ MAS.agents out.1 = (fun a => MAS.set_neural_net_model a gw) <$> ags
  /\ MAS.trace out.1
     = MAS.trace s ++ [summary_of ags]
       ++ ((fun a => MAS.EvLoadStateDict (MAS.unique_id a)) <$> ags)
       ++ [MAS.EvInference (MAS.unique_id a0)].
Proof.
  intros sd sd2 a0 a1 s.
  apply (step_round_all_agents id s a0 sd).
  - reflexivity.
  - reflexivity.
  - repeat constructor.
    + exists sd. split; [reflexivity | vm_compute; reflexivity].
    + exists sd2. split; [reflexivity | vm_compute; reflexivity].
  - vm_compute. discriminate.
Defined.

(** X10.  A round in which no example has been processed (or with no
    agent at all) raises [ZeroDivisionError] after the local passes: no
    summary is printed and no model is loaded or run. *)
Theorem step_nothing_processed_raises {A B} (agent_step : MAS.agent A B -> MAS.agent A B)
    (s : MAS.model_state A B) :
  let ags := agent_step <$> MAS.agents s in
  ags = [] \/ Py.sumZ (MAS.total_examples_processed <$> ags) = 0 ->
  let out := MAS.step agent_step s in
  out.2 = Py.Raise Py.ZeroDivisionError
  /\ MAS.agents out.1 = ags
  /\ MAS.trace out.1 = MAS.trace s.
Proof.
  intros ags Hz. cbv zeta. rewrite step_run. cbv zeta.
  change (MAS.agents (after_local_pass agent_step s)) with ags.
  destruct (bool_decide (ags = [])) eqn:Hnil; [done|].
  apply bool_decide_eq_false in Hnil. destruct Hz as [?|Hz]; [done|].
  by rewrite bool_decide_eq_true_2 by done.
Qed.

Lemma step_nothing_processed_raises_witness :
  let s := {| MAS.num_processors := 1; MAS.model_X_train := [1; 2]%nat;
              MAS.model_y_train := [0; 1]%nat;
              MAS.agents := [MAS.ProcessorAgent 0 [1; 2]%nat [0; 1]%nat];
              MAS.trace := [] |} in
  let ags := id <$> MAS.agents s in
  let out := MAS.step id s in
  out.2 = Py.Raise Py.ZeroDivisionError
  /\ MAS.agents out.1 = ags
  /\ MAS.trace out.1 = MAS.trace s.
Proof.
  intros s.
  apply (step_nothing_processed_raises id s).
  right. reflexivity.
Defined.

(** X11.  When the first agent holds no model after its local pass, the
    round prints its summary and then raises [AttributeError]: no model is
    loaded or run, whatever the other agents hold. *)
Theorem step_first_agent_without_model_raises {A B}
    (agent_step : MAS.agent A B -> MAS.agent A B)
    (s : MAS.model_state A B) (a0 : MAS.agent A B) :
  let ags := agent_step <$> MAS.agents s in
  ags !! 0%nat = Some a0 -> MAS.neural_net_model a0 = None ->
  Py.sumZ (MAS.total_examples_processed <$> ags) ≠ 0 ->
  let out := MAS.step agent_step s in
  out.2 = Py.Raise Py.AttributeError
  /\ MAS.agents out.1 = ags
  /\ MAS.trace out.1 = MAS.trace s ++ [summary_of ags].
Proof.
  intros ags H0 Hm0 Hz. cbv zeta. rewrite step_run. cbv zeta.
  change (MAS.agents (after_local_pass agent_step s)) with ags.
  rewrite (bool_decide_eq_false_2 (ags = [])) by (by destruct ags).
  rewrite bool_decide_eq_false_2 by done.
  by rewrite (report_testing_accuracy_no_model _ a0).
Qed.

Lemma step_first_agent_without_model_raises_witness :
  let a0 := {| MAS.unique_id := 0; MAS.X_train := [1; 2]%nat; MAS.y_train := [0; 1]%nat;
               MAS.neural_net_model := None; MAS.fold_loss := Qc_of_Z 1;
               MAS.processing_time := Qc_of_Z 2; MAS.correct_classifications := 1;
               MAS.total_examples_processed := 2 |} in
  let s := {| MAS.num_processors := 1; MAS.model_X_train := [1; 2]%nat;
              MAS.model_y_train := [0; 1]%nat; MAS.agents := [a0];
              MAS.trace := [] |} in
  let ags := id <$> MAS.agents s in
  let out := MAS.step id s in
  out.2 = Py.Raise Py.AttributeError
  /\ MAS.agents out.1 = ags
  /\ MAS.trace out.1 = MAS.trace s ++ [summary_of ags].
Proof.
  intros a0 s.
  apply (step_first_agent_without_model_raises id s a0).
  - reflexivity.
  - reflexivity.
  - vm_compute. discriminate.
Defined.

(** ** The worker: the exact run of a well-formed call *)

Section WorkerRun.
Import Worker.
Variables (n_train : nat) (args : Args) (o : oracle).
Variables (c : criterion_fn) (op : optimizer_fn) (len_val : nat).
Hypothesis Hn : (0 < n_train)%nat.
Hypothesis Hbs : 0 < batch_size args.
Hypothesis Hv : (0 < len_val)%nat.

Lemma sync_callbacks_app (a b : list event) :
  sync_callbacks (a ++ b) = sync_callbacks a ++ sync_callbacks b.
Proof. apply omap_app. Qed.

Lemma forward_passes_app (a b : list event) :
  forward_passes (a ++ b) = forward_passes a ++ forward_passes b.
Proof. apply omap_app. Qed.

Lemma num_batches_pos : (0 < num_batches n_train args)%nat.
Proof.
  unfold num_batches.
  assert (1 <= (Z.of_nat n_train + batch_size args - 1) / batch_size args); [|lia].
  apply Z.div_le_lower_bound; lia.
Qed.

(** The batch loop keeps the loss of the last batch. *)
Lemma batch_loop_run epoch n : forall k l ct tt tr,
  Py.for_fold (seq k n) (batch_body n_train args o (Some c) (Some op) epoch) (l, ct, tt) tr
  = (tr ++ batch_events epoch k n,
     Py.Ok (match n with
            | O => l
            | S n' => Some (batch_loss o epoch (k + n'))
            end,
            ct + sumZ_over (batch_correct o epoch) k n,
            tt + sumZ_over (batch_len n_train args) k n)).
Proof.
  induction n as [|n IH]; intros k l ct tt tr.
  - cbn. unfold Py.ret, batch_events. cbn. by rewrite app_nil_r, !Z.add_0_r.
  - cbn [seq Py.for_fold]. unfold Py.bind at 1.
    unfold batch_body at 1, emit. unfold_monad. cbn.
    rewrite IH. unfold batch_events. cbn [flat_map].
    rewrite <- !app_assoc. cbn [app sumZ_over].
    rewrite !Z.add_assoc. destruct n as [|n].
    + by rewrite Nat.add_0_r.
    + by rewrite Nat.add_succ_comm.
Qed.

Lemma batch_events_projections epoch n : forall k,
  epochs_started (batch_events epoch k n) = []
  /\ early_stops (batch_events epoch k n) = []
  /\ sync_callbacks (batch_events epoch k n) = []
  /\ optimizer_steps (batch_events epoch k n) = (fun b => (epoch, b)) <$> seq k n
  /\ forward_passes (batch_events epoch k n) = (fun b => (epoch, b)) <$> seq k n.
Proof.
  induction n as [|n IH]; intros k; [done|].
  destruct (IH (S k)) as (H1 & H2 & H3 & H4 & H5).
  change (batch_events epoch k (S n))
    with ([EvZeroGrad epoch k; EvForward epoch k; EvBackward epoch k;
           EvOptimizerStep epoch k] ++ batch_events epoch (S k) n).
  rewrite epochs_started_app, early_stops_app, sync_callbacks_app,
    optimizer_steps_app, forward_passes_app, H1, H2, H3, H4, H5.
  done.
Qed.

(** One epoch of a well-formed call, exactly. *)
Lemma epoch_body_run epoch st tr :
  let st' := locals_after_epoch n_train args o len_val epoch st in
  let stop := bool_decide (patience args <= epochs_without_improvement st') in
  epoch_body n_train args o (Some c) (Some op) len_val epoch st tr
  = (tr ++ epoch_events n_train args o len_val epoch stop, Py.Ok (st', stop)).
Proof.
  intros st' stop.
  unfold epoch_body. unfold Py.bind at 1. unfold emit at 1, Py.modify at 1.
  unfold Py.bind at 1. rewrite batch_loop_run.
  rewrite batch_len_total by done. rewrite !Z.add_0_l.
  pose proof num_batches_pos as Hnb.
  destruct (num_batches n_train args) as [|nb] eqn:Enb; [lia|].
  unfold emit, Py.div. unfold_monad.
  rewrite !bool_decide_eq_false_2 by lia.
  cbv zeta. subst st' stop. unfold locals_after_epoch, epoch_events, percent.
  rewrite Enb. replace (S nb - 1)%nat with (0 + nb)%nat by lia.
  destruct (bool_decide _); cbn [fst snd]; rewrite <- ?app_assoc; cbn [app];
    by rewrite ?app_nil_r.
Qed.

Lemma locals_after_epoch_es epoch st :
  locals_es (locals_after_epoch n_train args o len_val epoch st)
  = es_update (locals_es st) (val_loss o epoch).
Proof.
  unfold locals_after_epoch, update_early_stopping, es_update, locals_es. cbn.
  by destruct (Py.float_lt _ _).
Qed.

Lemma locals_after_epoch_fields epoch st :
  let st' := locals_after_epoch n_train args o len_val epoch st in
  processing_times st' = processing_times st ++ [epoch_duration o epoch]
  /\ loss_var st' = Some (batch_loss o epoch (num_batches n_train args - 1))
  /\ validation_accuracy st' = Some (percent (val_correct o epoch) len_val)
  /\ correct_val st' = Some (val_correct o epoch).
Proof.
  unfold locals_after_epoch, update_early_stopping. by destruct (Py.float_lt _ _).
Qed.

Lemma epoch_events_projections epoch stop :
  let evs := epoch_events n_train args o len_val epoch stop in
  epochs_started evs = [epoch]
  /\ early_stops evs = (if stop then [S epoch] else [])
  /\ sync_callbacks evs = [epoch]
  /\ optimizer_steps evs = (fun b => (epoch, b)) <$> seq 0 (num_batches n_train args)
  /\ forward_passes evs = (fun b => (epoch, b)) <$> seq 0 (num_batches n_train args).
Proof.
  cbv zeta. unfold epoch_events.
  destruct (batch_events_projections epoch (num_batches n_train args) 0)
    as (H1 & H2 & H3 & H4 & H5).
  rewrite !epochs_started_app, !early_stops_app, !sync_callbacks_app,
    !optimizer_steps_app, !forward_passes_app, H1, H2, H3, H4, H5.
  destruct stop; cbn; by rewrite ?app_nil_r.
Qed.

(** The epoch loop of a well-formed call over the epochs [k], ...,
    [k + n - 1]: it runs the epochs up to the first one after which the
    counter has reached the patience. *)
Lemma epoch_loop_run_from n : forall k st tr,
  exists m evs st',
    Py.for_break (seq k n) (epoch_body n_train args o (Some c) (Some op) len_val) st tr
    = (tr ++ evs, Py.Ok st')
    /\ (m <= n)%nat /\ ((0 < n)%nat -> (0 < m)%nat)
    /\ epochs_started evs = seq k m
    /\ sync_callbacks evs = seq k m
    /\ optimizer_steps evs = all_batches (num_batches n_train args) k m
    /\ forward_passes evs = all_batches (num_batches n_train args) k m
    /\ early_stops evs
       = (if bool_decide ((0 < m)%nat /\ patience args <= epochs_without_improvement st')
          then [(k + m)%nat] else [])
    /\ locals_es st' = es_run o (locals_es st) k m
    /\ processing_times st' = processing_times st ++ (epoch_duration o <$> seq k m)
    /\ (forall j, (0 < j < m)%nat ->
          ~ es_stopped (patience args) (es_run o (locals_es st) k j))
    /\ ((m < n)%nat -> es_stopped (patience args) (es_run o (locals_es st) k m))
    /\ ((0 < m)%nat ->
          loss_var st' = Some (batch_loss o (k + m - 1) (num_batches n_train args - 1))
          /\ validation_accuracy st'
             = Some (percent (val_correct o (k + m - 1)) len_val)
          /\ correct_val st' = Some (val_correct o (k + m - 1)))
    /\ (m = 0%nat -> st' = st /\ evs = []).
Proof.
  induction n as [|n IH]; intros k st tr.
  - exists 0%nat, [], st. cbn. unfold Py.ret. rewrite app_nil_r.
    split_and!; try done; try lia. by rewrite app_nil_r.
  - cbn [seq Py.for_break]. unfold Py.bind at 1.
    rewrite epoch_body_run. cbn [fst snd].
    set (st1 := locals_after_epoch n_train args o len_val k st).
    pose proof (locals_after_epoch_es k st) as Hes1. fold st1 in Hes1.
    destruct (locals_after_epoch_fields k st) as (Ht1 & Hl1 & Hva1 & Hcv1).
    fold st1 in Ht1, Hl1, Hva1, Hcv1.
    assert (Hone : es_run o (locals_es st) k 1 = locals_es st1) by (by rewrite Hes1).
    case_bool_decide as Hbrk.
    + destruct (epoch_events_projections k true) as (P1 & P2 & P3 & P4 & P5).
      exists 1%nat, (epoch_events n_train args o len_val k true), st1. unfold Py.ret.
      split_and!; try done; try lia.
      * unfold all_batches. cbn. by rewrite app_nil_r.
      * unfold all_batches. cbn. by rewrite app_nil_r.
      * rewrite P2, bool_decide_eq_true_2 by (split; [lia|done]).
        by rewrite Nat.add_1_r.
      * intros _. rewrite Hone. exact Hbrk.
      * intros _. replace (k + 1 - 1)%nat with k by lia. done.
    + destruct (epoch_events_projections k false) as (P1 & P2 & P3 & P4 & P5).
      destruct (IH (S k) st1 (tr ++ epoch_events n_train args o len_val k false))
        as (m & evs & st' & -> & Hm & Hpos & Hstart & Hsync & Hopt & Hfwd & Hstop
            & Hes & Ht & Hbefore & Hafter & Hlast & Hzero).
      exists (S m), (epoch_events n_train args o len_val k false ++ evs), st'.
      rewrite <- app_assoc.
      assert (Hrun : forall j, es_run o (locals_es st) k (S j)
                               = es_run o (locals_es st1) (S k) j).
      { intros j. by rewrite es_run_S, Hes1. }
      split_and!; try done; try lia.
      * by rewrite epochs_started_app, P1, Hstart.
      * by rewrite sync_callbacks_app, P3, Hsync.
      * by rewrite optimizer_steps_app, P4, Hopt.
      * by rewrite forward_passes_app, P5, Hfwd.
      * rewrite early_stops_app, P2, Hstop. cbn [app].
        destruct m as [|m].
        -- destruct (Hzero eq_refl) as [-> _].
           rewrite bool_decide_eq_false_2 by lia.
           by rewrite bool_decide_eq_false_2 by (intros [_ ?]; done).
        -- replace (S k + S m)%nat with (k + S (S m))%nat by lia.
           rewrite (bool_decide_ext _ ((0 < S (S m))%nat
             /\ patience args <= epochs_without_improvement st')) by intuition lia.
           done.
      * by rewrite Hrun.
      * rewrite Ht, Ht1, <- app_assoc. reflexivity.
      * intros [|j] Hj; [lia|]. rewrite Hrun.
        destruct j as [|j]; [exact Hbrk|].
        apply Hbefore. lia.
      * intros Hlt. rewrite Hrun. apply Hafter. lia.
      * intros _. destruct m as [|m].
        -- destruct (Hzero eq_refl) as [-> _].
           replace (k + 1 - 1)%nat with k by lia. done.
        -- replace (k + S (S m) - 1)%nat with (S k + S m - 1)%nat by lia.
           apply Hlast. lia.
Qed.

End WorkerRun.

(** The validation slice of slot [fold]: piece [fold] of the split. *)
Lemma val_slice_getitem (fold n_val : nat) (processors : Z) :
  1 <= processors -> Z.of_nat fold < processors ->
  exists piece,
    Py.getitem (reshape (section_sizes (length (seq 0 n_val)) (Z.to_nat processors))
                        (seq 0 n_val)) fold = Py.Ok piece
    /\ length piece = val_slice_len n_val processors fold.
Proof.
  intros Hp Hfold.
  set (sizes := section_sizes (length (seq 0 n_val)) (Z.to_nat processors)).
  assert (Hlen : length sizes = Z.to_nat processors)
    by (apply section_sizes_length; lia).
  destruct (lookup_lt_is_Some_2 (reshape sizes (seq 0 n_val)) fold) as [piece Hpiece].
  { rewrite length_reshape, Hlen. lia. }
  exists piece. unfold Py.getitem. rewrite Hpiece. split; [done|].
  assert (Some (length (reshape sizes (seq 0 n_val) !!! fold))
          = Some (val_slice_len n_val processors fold)) as [= <-].
  { rewrite reshape_lookup_length.
    - subst sizes. rewrite length_seq. apply section_sizes_lookup. lia.
    - subst sizes. rewrite section_sizes_sum; lia.
    - lia. }
  by rewrite (list_lookup_total_correct _ _ _ Hpiece).
Qed.

(** A well-formed call of [train_simulated], exactly: the model is built,
    the epochs [0], ..., [m - 1] run, [m] being the first epoch count at
    which the counter has reached the patience (or all the epochs), and
    the result is made of what the last epoch left. *)
Lemma train_simulated_run (fold n_train n_val : nat) (args : Worker.Args)
    (o : Worker.oracle) a c op :
  1 <= Worker.processors args ->
  Z.of_nat fold < Worker.processors args ->
  (0 < val_slice_len n_val (Worker.processors args) fold)%nat ->
  Worker.choose_activation (Worker.activation args) = Some a ->
  Worker.choose_criterion (Worker.loss args) = Some c ->
  Worker.choose_optimizer (Worker.optimizer args) = Some op ->
  (0 < n_train)%nat -> 0 < Worker.batch_size args -> 0 < Worker.epochs args ->
  let len_val := val_slice_len n_val (Worker.processors args) fold in
  let nb := Worker.num_batches n_train args in
  exists m evs slowest,
    Worker.train_simulated fold n_train n_val args o []
    = ([Worker.EvModelBuilt a] ++ evs
       ++ [Worker.EvPrintProcessingTime slowest; Worker.EvForwardTrainSet],
       Py.Ok {| Worker.final_loss := Worker.batch_loss o (m - 1) (nb - 1);
                Worker.final_validation_accuracy :=
                  percent (Worker.val_correct o (m - 1)) len_val;
                Worker.correct_classifications_train := Worker.final_train_correct o;
                Worker.final_correct_val := Worker.val_correct o (m - 1);
                Worker.len_y_val_fold := len_val;
                Worker.slowest_processing_time := slowest |})
    /\ (0 < m <= Z.to_nat (Worker.epochs args))%nat
    /\ Worker.epochs_started evs = seq 0 m
    /\ sync_callbacks evs = seq 0 m
    /\ Worker.optimizer_steps evs = all_batches nb 0 m
    /\ Worker.forward_passes evs = all_batches nb 0 m
    /\ early_stops evs
       = (if bool_decide (Worker.patience args <= Worker.counter (Worker.es_after o m))
          then [m] else [])
    /\ (forall j, (0 < j < m)%nat ->
          ~ Worker.es_stopped (Worker.patience args) (Worker.es_after o j))
    /\ ((m < Z.to_nat (Worker.epochs args))%nat ->
          Worker.es_stopped (Worker.patience args) (Worker.es_after o m)).
Proof.
  intros Hp Hfold Hval Ha Hc Hop Hn Hbs Hep len_val nb.
  unfold Worker.train_simulated.
  unfold Py.bind at 1. unfold Py.lift at 1. rewrite array_split_reshape by done.
  destruct (val_slice_getitem fold n_val (Worker.processors args) Hp Hfold)
    as (piece & -> & Hlen).
  fold len_val in Hlen, Hval.
  unfold Py.bind at 1. unfold Py.lift at 1.
  rewrite Ha, Hc, Hop, Hlen.
  unfold Py.bind at 1. unfold Py.read_local at 1, Py.ret at 1.
  unfold Py.bind at 1. unfold Worker.emit at 1, Py.modify at 1.
  unfold Py.bind at 1. rewrite bool_decide_eq_false_2 by lia. unfold Py.ret at 1.
  unfold Py.bind at 1. unfold Worker.epoch_loop, Py.range.
  destruct (epoch_loop_run_from n_train args o c op len_val Hn Hbs Hval
              (Z.to_nat (Worker.epochs args)) 0 Worker.init_locals
              ([] ++ [Worker.EvModelBuilt a]))
    as (m & evs & st & -> & Hm & Hpos & Hstart & Hsync & Hopt & Hfwd & Hstop
        & Hes & Ht & Hbefore & Hafter & Hlast & _).
  specialize (Hpos ltac:(lia)).
  destruct (Hlast Hpos) as (Hl & Hva & Hcv).
  unfold Py.bind at 1. unfold Py.lift at 1.
  destruct (max_spec (Worker.processing_times st)) as (mx & -> & _).
  { rewrite Ht. destruct m; [lia|]. done. }
  unfold Worker.emit. unfold_monad. rewrite Hl, Hva, Hcv. cbn [fst snd].
  change (es_run o (locals_es Worker.init_locals) 0) with (Worker.es_after o)
    in Hes, Hbefore, Hafter.
  exists m, evs, mx. split_and!; try done; try lia.
  - rewrite <- !app_assoc. reflexivity.
  - rewrite Hstop. rewrite <- Hes. cbn [Worker.counter locals_es].
    rewrite (bool_decide_ext _ (Worker.patience args
                                <= Worker.epochs_without_improvement st))
      by intuition lia.
    done.
Qed.

(** X12.  A well-formed call of [train_simulated] (a slot among the
    processors with a non-empty validation slice, known selectors, a
    non-empty training partition, a positive batch size and at least one
    epoch) returns, and what it returns is what the last epoch that ran
    has left, not what the best epoch had: the loss of the last batch of
    that epoch, its validation accuracy and count; and the length of the
    validation slice is that of piece [fold] of the split. *)
Theorem train_simulated_reports_last_epoch (fold n_train n_val : nat)
    (args : Worker.Args) (o : Worker.oracle) :
  1 <= Worker.processors args ->
  Z.of_nat fold < Worker.processors args ->
  (0 < val_slice_len n_val (Worker.processors args) fold)%nat ->
  is_Some (Worker.choose_activation (Worker.activation args)) ->
  is_Some (Worker.choose_criterion (Worker.loss args)) ->
  is_Some (Worker.choose_optimizer (Worker.optimizer args)) ->
  (0 < n_train)%nat -> 0 < Worker.batch_size args -> 0 < Worker.epochs args ->
  let out := Worker.train_simulated fold n_train n_val args o [] in
  let len_val := val_slice_len n_val (Worker.processors args) fold in
  exists r last,
    out.2 = Py.Ok r
    /\ Worker.epochs_started out.1 = seq 0 (S last)
    /\ Worker.final_loss r
       = Worker.batch_loss o last (Worker.num_batches n_train args - 1)
    /\ Worker.final_correct_val r = Worker.val_correct o last
    /\ Worker.final_validation_accuracy r = percent (Worker.val_correct o last) len_val
    /\ Worker.len_y_val_fold r = len_val
    /\ Worker.correct_classifications_train r = Worker.final_train_correct o.
Proof.
  intros Hp Hfold Hval [a Ha] [c Hc] [op Hop] Hn Hbs Hep. cbv zeta.
  destruct (train_simulated_run fold n_train n_val args o a c op)
    as (m & evs & slowest & -> & Hm & Hstart & _); try done.
  destruct m as [|last]; [lia|]. replace (S last - 1)%nat with last by lia.
  eexists _, last. cbn [fst snd]. split; [reflexivity|].
  split_and!; try done.
  rewrite !epochs_started_app, Hstart. cbn. by rewrite app_nil_r.
Qed.

Lemma train_simulated_reports_last_epoch_witness :
  let args := {| Worker.processors := 2; Worker.activation := "RELU";
                 Worker.loss := "CE"; Worker.optimizer := "ADAM";
                 Worker.patience := 2; Worker.epochs := 10;
                 Worker.batch_size := 4 |} in
  let o := {| Worker.batch_loss := fun e b => Py.Fin (Qc_of_Z (Z.of_nat (e + b)));
              Worker.batch_correct := fun _ _ => 3;
              Worker.epoch_duration := fun e => Qc_of_Z (Z.of_nat e);
              Worker.val_loss := fun e => Py.Fin (Qc_of_Z 1);
              Worker.val_correct := fun e => Z.of_nat e;
              Worker.final_train_correct := 7 |} in
  let out := Worker.train_simulated 0 10 11 args o [] in
  let len_val := val_slice_len 11 (Worker.processors args) 0 in
  exists r last,
    out.2 = Py.Ok r
    /\ Worker.epochs_started out.1 = seq 0 (S last)
    /\ Worker.final_loss r
       = Worker.batch_loss o last (Worker.num_batches 10 args - 1)
    /\ Worker.final_correct_val r = Worker.val_correct o last
    /\ Worker.final_validation_accuracy r = percent (Worker.val_correct o last) len_val
    /\ Worker.len_y_val_fold r = len_val
    /\ Worker.correct_classifications_train r = Worker.final_train_correct o.
Proof.
  intros args o.
  apply (train_simulated_reports_last_epoch 0 10 11 args o).
  - vm_compute. discriminate.
  - reflexivity.
  - vm_compute. lia.
  - vm_compute. eauto.
  - vm_compute. eauto.
  - vm_compute. eauto.
  - lia.
  - reflexivity.
  - reflexivity.
Defined.

(** X13.  In a well-formed call every epoch that starts visits every
    batch of the training partition once, in order, with one forward pass
    and one optimizer step per batch, and calls the synchronization
    callback once, after its batches. *)
Theorem every_epoch_steps_every_batch_once (fold n_train n_val : nat)
    (args : Worker.Args) (o : Worker.oracle) :
  1 <= Worker.processors args ->
  Z.of_nat fold < Worker.processors args ->
  (0 < val_slice_len n_val (Worker.processors args) fold)%nat ->
  is_Some (Worker.choose_activation (Worker.activation args)) ->
  is_Some (Worker.choose_criterion (Worker.loss args)) ->
  is_Some (Worker.choose_optimizer (Worker.optimizer args)) ->
  (0 < n_train)%nat -> 0 < Worker.batch_size args -> 0 < Worker.epochs args ->
  let tr := (Worker.train_simulated fold n_train n_val args o []).1 in
  let n := length (Worker.epochs_started tr) in
  let nb := Worker.num_batches n_train args in
  Worker.epochs_started tr = seq 0 n
  /\ Worker.optimizer_steps tr = all_batches nb 0 n
  /\ Worker.forward_passes tr = all_batches nb 0 n
  /\ sync_callbacks tr = seq 0 n
  /\ sumZ_over (Worker.batch_len n_train args) 0 nb = Z.of_nat n_train.
Proof.
  intros Hp Hfold Hval [a Ha] [c Hc] [op Hop] Hn Hbs Hep. cbv zeta.
  destruct (train_simulated_run fold n_train n_val args o a c op)
    as (m & evs & slowest & -> & Hm & Hstart & Hsync & Hopt & Hfwd & _); try done.
  cbn [fst].
  rewrite !epochs_started_app, !optimizer_steps_app, !forward_passes_app,
    !sync_callbacks_app, Hstart, Hsync, Hopt, Hfwd.
  cbn. rewrite !app_nil_r, length_seq.
  split_and!; try done. by apply batch_len_total.
Qed.

Lemma every_epoch_steps_every_batch_once_witness :
  let args := {| Worker.processors := 2; Worker.activation := "RELU";
                 Worker.loss := "CE"; Worker.optimizer := "ADAM";
                 Worker.patience := 2; Worker.epochs := 10;
                 Worker.batch_size := 4 |} in
  let o := {| Worker.batch_loss := fun e b => Py.Fin (Qc_of_Z (Z.of_nat (e + b)));
              Worker.batch_correct := fun _ _ => 3;
              Worker.epoch_duration := fun e => Qc_of_Z (Z.of_nat e);
              Worker.val_loss := fun e => Py.Fin (Qc_of_Z 1);
              Worker.val_correct := fun e => Z.of_nat e;
              Worker.final_train_correct := 7 |} in
  let tr := (Worker.train_simulated 0 10 11 args o []).1 in
  let n := length (Worker.epochs_started tr) in
  let nb := Worker.num_batches 10 args in
  Worker.epochs_started tr = seq 0 n
  /\ Worker.optimizer_steps tr = all_batches nb 0 n
  /\ Worker.forward_passes tr = all_batches nb 0 n
  /\ sync_callbacks tr = seq 0 n
  /\ sumZ_over (Worker.batch_len 10 args) 0 nb = Z.of_nat 10.
Proof.
  intros args o.
  apply (every_epoch_steps_every_batch_once 0 10 11 args o).
  - vm_compute. discriminate.
  - reflexivity.
  - vm_compute. lia.
  - vm_compute. eauto.
  - vm_compute. eauto.
  - vm_compute. eauto.
  - lia.
  - reflexivity.
  - reflexivity.
Defined.

(** ** The worker: early stopping in three situations *)

Lemma es_after_S (o : Worker.oracle) (j : nat) :
  Worker.es_after o (S j) = Worker.es_update (Worker.es_after o j) (Worker.val_loss o j).
Proof.
  unfold Worker.es_after. rewrite seq_S, fmap_app, fold_left_app. reflexivity.
Qed.

Lemma es_after_counter_nonneg (o : Worker.oracle) (j : nat) :
  0 <= Worker.counter (Worker.es_after o j).
Proof.
  induction j as [|j IH]; [done|].
  rewrite es_after_S. unfold Worker.es_update.
  destruct (Py.float_lt _ _); cbn; lia.
Qed.

(** While every validation loss is below the one before, the best loss is
    the last one and the counter is zero. *)
Lemma es_after_improving (o : Worker.oracle) (n : nat) :
  (forall j, (j < n)%nat ->
     Py.float_lt (Worker.val_loss o j)
       (match j with O => Py.PInf | S j' => Worker.val_loss o j' end) = true) ->
  forall j, (j < n)%nat ->
    Worker.es_after o (S j)
    = {| Worker.best_validation_loss := Worker.val_loss o j; Worker.counter := 0 |}.
Proof.
  intros Himp. induction j as [|j IH]; intros Hj.
  - rewrite es_after_S. unfold Worker.es_update. cbn.
    by rewrite (Himp 0%nat Hj).
  - rewrite es_after_S, IH by lia. unfold Worker.es_update. cbn.
    by rewrite (Himp (S j) Hj).
Qed.

(** While no validation loss is below +infinity, the best loss stays
    +infinity and the counter counts the epochs. *)
Lemma es_after_never_improving (o : Worker.oracle) (n : nat) :
  (forall j, (j < n)%nat -> Py.float_lt (Worker.val_loss o j) Py.PInf = false) ->
  forall j, (j <= n)%nat ->
    Worker.es_after o j
    = {| Worker.best_validation_loss := Py.PInf; Worker.counter := Z.of_nat j |}.
Proof.
  intros Hnev. induction j as [|j IH]; intros Hj; [done|].
  rewrite es_after_S, IH by lia. unfold Worker.es_update. cbn.
  rewrite (Hnev j) by lia. f_equal. lia.
Qed.

(** X14.  With a patience of zero or less a well-formed call runs the
    first epoch only and announces early stopping after it, whatever the
    validation loss. *)
Theorem nonpositive_patience_runs_one_epoch (fold n_train n_val : nat)
    (args : Worker.Args) (o : Worker.oracle) :
  1 <= Worker.processors args ->
  Z.of_nat fold < Worker.processors args ->
  (0 < val_slice_len n_val (Worker.processors args) fold)%nat ->
  is_Some (Worker.choose_activation (Worker.activation args)) ->
  is_Some (Worker.choose_criterion (Worker.loss args)) ->
  is_Some (Worker.choose_optimizer (Worker.optimizer args)) ->
  (0 < n_train)%nat -> 0 < Worker.batch_size args -> 0 < Worker.epochs args ->
  Worker.patience args <= 0 ->
  let out := Worker.train_simulated fold n_train n_val args o [] in
  (exists r, out.2 = Py.Ok r)
  /\ Worker.epochs_started out.1 = [0%nat]
  /\ early_stops out.1 = [1%nat].
Proof.
  intros Hp Hfold Hval [a Ha] [c Hc] [op Hop] Hn Hbs Hep Hpat. cbv zeta.
  destruct (train_simulated_run fold n_train n_val args o a c op)
    as (m & evs & slowest & -> & Hm & Hstart & _ & _ & _ & Hstop & Hbefore & _);
    try done.
  pose proof (es_after_counter_nonneg o) as Hpos.
  assert (m = 1%nat) as ->.
  { destruct m as [|[|m]]; [lia|done|]. exfalso.
    apply (Hbefore 1%nat ltac:(lia)). unfold Worker.es_stopped.
    specialize (Hpos 1%nat). lia. }
  cbn [fst snd]. split; [eauto|].
  rewrite !epochs_started_app, !early_stops_app, Hstart, Hstop.
  rewrite bool_decide_eq_true_2 by (specialize (Hpos 1%nat); lia).
  done.
Qed.

Lemma nonpositive_patience_runs_one_epoch_witness :
  let args := {| Worker.processors := 2; Worker.activation := "RELU";
                 Worker.loss := "CE"; Worker.optimizer := "ADAM";
                 Worker.patience := 0; Worker.epochs := 10;
                 Worker.batch_size := 4 |} in
  let o := {| Worker.batch_loss := fun e b => Py.Fin (Qc_of_Z (Z.of_nat (e + b)));
              Worker.batch_correct := fun _ _ => 3;
              Worker.epoch_duration := fun e => Qc_of_Z (Z.of_nat e);
              Worker.val_loss := fun e => Py.Fin (Qc_of_Z 1);
              Worker.val_correct := fun e => Z.of_nat e;
              Worker.final_train_correct := 7 |} in
  let out := Worker.train_simulated 0 10 11 args o [] in
  (exists r, out.2 = Py.Ok r)
  /\ Worker.epochs_started out.1 = [0%nat]
  /\ early_stops out.1 = [1%nat].
Proof.
  intros args o.
  apply (nonpositive_patience_runs_one_epoch 0 10 11 args o).
  - vm_compute. discriminate.
  - reflexivity.
  - vm_compute. lia.
  - vm_compute. eauto.
  - vm_compute. eauto.
  - vm_compute. eauto.
  - lia.
  - reflexivity.
  - reflexivity.
  - vm_compute. discriminate.
Defined.

(** X15.  When every validation loss is below the one before (the first
    one below +infinity) and the patience is positive, a well-formed call
    runs all the configured epochs and never announces early stopping. *)
Theorem improving_loss_runs_all_epochs (fold n_train n_val : nat)
    (args : Worker.Args) (o : Worker.oracle) :
  1 <= Worker.processors args ->
  Z.of_nat fold < Worker.processors args ->
  (0 < val_slice_len n_val (Worker.processors args) fold)%nat ->
  is_Some (Worker.choose_activation (Worker.activation args)) ->
  is_Some (Worker.choose_criterion (Worker.loss args)) ->
  is_Some (Worker.choose_optimizer (Worker.optimizer args)) ->
  (0 < n_train)%nat -> 0 < Worker.batch_size args -> 0 < Worker.epochs args ->
  0 < Worker.patience args ->
  (forall j, (j < Z.to_nat (Worker.epochs args))%nat ->
     Py.float_lt (Worker.val_loss o j)
       (match j with O => Py.PInf | S j' => Worker.val_loss o j' end) = true) ->
  let out := Worker.train_simulated fold n_train n_val args o [] in
  (exists r, out.2 = Py.Ok r)
  /\ Worker.epochs_started out.1 = Py.range (Worker.epochs args)
  /\ early_stops out.1 = [].
Proof.
  intros Hp Hfold Hval [a Ha] [c Hc] [op Hop] Hn Hbs Hep Hpat Himp. cbv zeta.
  destruct (train_simulated_run fold n_train n_val args o a c op)
    as (m & evs & slowest & -> & Hm & Hstart & _ & _ & _ & Hstop & _ & Hafter);
    try done.
  destruct m as [|m]; [lia|].
  pose proof (es_after_improving o _ Himp m ltac:(lia)) as Hes.
  assert (S m = Z.to_nat (Worker.epochs args)) as Heq.
  { destruct (decide (S m < Z.to_nat (Worker.epochs args))%nat) as [Hlt|]; [|lia].
    specialize (Hafter Hlt). unfold Worker.es_stopped in Hafter.
    rewrite Hes in Hafter. cbn in Hafter. lia. }
  cbn [fst snd]. split; [eauto|].
  rewrite !epochs_started_app, !early_stops_app, Hstart, Hstop, Hes.
  cbn [Worker.counter]. rewrite bool_decide_eq_false_2 by lia.
  unfold Py.range. rewrite <- Heq. cbn. by rewrite app_nil_r.
Qed.

Lemma improving_loss_runs_all_epochs_witness :
  let args := {| Worker.processors := 2; Worker.activation := "RELU";
                 Worker.loss := "CE"; Worker.optimizer := "ADAM";
                 Worker.patience := 1; Worker.epochs := 3;
                 Worker.batch_size := 4 |} in
  let o := {| Worker.batch_loss := fun e b => Py.Fin (Qc_of_Z (Z.of_nat (e + b)));
              Worker.batch_correct := fun _ _ => 3;
              Worker.epoch_duration := fun e => Qc_of_Z (Z.of_nat e);
              Worker.val_loss := fun e => Py.Fin (Qc_of_Z (10 - Z.of_nat e));
              Worker.val_correct := fun e => Z.of_nat e;
              Worker.final_train_correct := 7 |} in
  let out := Worker.train_simulated 0 10 11 args o [] in
  (exists r, out.2 = Py.Ok r)
  /\ Worker.epochs_started out.1 = Py.range (Worker.epochs args)
  /\ early_stops out.1 = [].
Proof.
  intros args o.
  apply (improving_loss_runs_all_epochs 0 10 11 args o).
  - vm_compute. discriminate.
  - reflexivity.
  - vm_compute. lia.
  - vm_compute. eauto.
  - vm_compute. eauto.
  - vm_compute. eauto.
  - lia.
  - reflexivity.
  - reflexivity.
  - reflexivity.
  - intros [|[|[|j]]] Hj; [vm_compute; reflexivity..|].
    exfalso. revert Hj. vm_compute. lia.
Defined.

(** X16.  A validation loss that is never below +infinity (a NaN, or
    +infinity itself, in every epoch) never counts as an improvement:
    with a positive patience a well-formed call runs exactly the first
    [patience] epochs, or all of them if there are fewer, and announces
    early stopping exactly when [patience] epochs have run. *)
Theorem never_improving_loss_stops_at_patience (fold n_train n_val : nat)
    (args : Worker.Args) (o : Worker.oracle) :
  1 <= Worker.processors args ->
  Z.of_nat fold < Worker.processors args ->
  (0 < val_slice_len n_val (Worker.processors args) fold)%nat ->
  is_Some (Worker.choose_activation (Worker.activation args)) ->
  is_Some (Worker.choose_criterion (Worker.loss args)) ->
  is_Some (Worker.choose_optimizer (Worker.optimizer args)) ->
  (0 < n_train)%nat -> 0 < Worker.batch_size args -> 0 < Worker.epochs args ->
  0 < Worker.patience args ->
  (forall j, (j < Z.to_nat (Worker.epochs args))%nat ->
     Py.float_lt (Worker.val_loss o j) Py.PInf = false) ->
  let out := Worker.train_simulated fold n_train n_val args o [] in
  (exists r, out.2 = Py.Ok r)
  /\ Worker.epochs_started out.1
     = Py.range (Z.min (Worker.patience args) (Worker.epochs args))
  /\ early_stops out.1
     = (if bool_decide (Worker.patience args <= Worker.epochs args)
        then [Z.to_nat (Worker.patience args)] else []).
Proof.
  intros Hp Hfold Hval [a Ha] [c Hc] [op Hop] Hn Hbs Hep Hpat Hnev. cbv zeta.
  destruct (train_simulated_run fold n_train n_val args o a c op)
    as (m & evs & slowest & -> & Hm & Hstart & _ & _ & _ & Hstop & Hbefore & Hafter);
    try done.
  pose proof (es_after_never_improving o _ Hnev) as Hes.
  assert (Hle : Z.of_nat m <= Worker.patience args).
  { destruct m as [|[|m]]; [lia..|].
    specialize (Hbefore (S m) ltac:(lia)). unfold Worker.es_stopped in Hbefore.
    rewrite Hes in Hbefore by lia. cbn in Hbefore. lia. }
  assert (Heq : m = Z.to_nat (Z.min (Worker.patience args) (Worker.epochs args))).
  { destruct (decide (m < Z.to_nat (Worker.epochs args))%nat) as [Hlt|]; [|lia].
    specialize (Hafter Hlt). unfold Worker.es_stopped in Hafter.
    rewrite Hes in Hafter by lia. cbn in Hafter. lia. }
  rewrite Hes in Hstop by lia. cbn [Worker.counter] in Hstop.
  cbn [fst snd]. split; [eauto|].
  rewrite !epochs_started_app, !early_stops_app, Hstart, Hstop.
  unfold Py.range. rewrite <- Heq. cbn. rewrite !app_nil_r.
  split; [done|].
  destruct (decide (Worker.patience args <= Worker.epochs args)) as [H2|H2].
  - rewrite (bool_decide_eq_true_2 _ H2), bool_decide_eq_true_2 by lia.
    f_equal. lia.
  - rewrite (bool_decide_eq_false_2 _ H2), bool_decide_eq_false_2 by lia.
    done.
Qed.

Lemma never_improving_loss_stops_at_patience_witness :
  let args := {| Worker.processors := 2; Worker.activation := "RELU";
                 Worker.loss := "CE"; Worker.optimizer := "ADAM";
                 Worker.patience := 2; Worker.epochs := 3;
                 Worker.batch_size := 4 |} in
  let o := {| Worker.batch_loss := fun e b => Py.NaN;
              Worker.batch_correct := fun _ _ => 3;
              Worker.epoch_duration := fun e => Qc_of_Z (Z.of_nat e);
              Worker.val_loss := fun e => Py.NaN;
              Worker.val_correct := fun e => Z.of_nat e;
              Worker.final_train_correct := 7 |} in
  let out := Worker.train_simulated 0 10 11 args o [] in
  (exists r, out.2 = Py.Ok r)
  /\ Worker.epochs_started out.1
     = Py.range (Z.min (Worker.patience args) (Worker.epochs args))
  /\ early_stops out.1
     = (if bool_decide (Worker.patience args <= Worker.epochs args)
        then [Z.to_nat (Worker.patience args)] else []).
Proof.
  intros args o.
  apply (never_improving_loss_stops_at_patience 0 10 11 args o).
  - vm_compute. discriminate.
  - reflexivity.
  - vm_compute. lia.
  - vm_compute. eauto.
  - vm_compute. eauto.
  - vm_compute. eauto.
  - lia.
  - reflexivity.
  - reflexivity.
  - reflexivity.
  - intros j _. reflexivity.
Defined.

(** ** The worker: calls that fail *)

(** X17.  A slot that is not among the processors makes [train_simulated]
    fail at once, before the model is built: with [ValueError] when the
    processor count is not positive (the split), with [IndexError]
    otherwise (the slot's piece). *)
Theorem slot_out_of_range_raises (fold n_train n_val : nat) (args : Worker.Args)
    (o : Worker.oracle) (tr : list Worker.event) :
  Worker.processors args <= Z.of_nat fold ->
  Worker.train_simulated fold n_train n_val args o tr
  = (tr, Py.Raise (if bool_decide (Worker.processors args <= 0)
                   then Py.ValueError else Py.IndexError)).
Proof.
  intros Hfold. unfold Worker.train_simulated.
  unfold Py.bind at 1. unfold Py.lift at 1.
  destruct (decide (Worker.processors args <= 0)) as [Hp|Hp].
  - unfold Numpy.array_split. rewrite !bool_decide_eq_true_2 by done. reflexivity.
  - rewrite (bool_decide_eq_false_2 _ Hp), array_split_reshape by lia.
    unfold Py.bind at 1. unfold Py.lift at 1. unfold Py.getitem.
    rewrite lookup_ge_None_2; [done|].
    rewrite length_reshape, section_sizes_length; lia.
Qed.

Lemma slot_out_of_range_raises_witness :
  let args := {| Worker.processors := 2; Worker.activation := "RELU";
                 Worker.loss := "CE"; Worker.optimizer := "ADAM";
                 Worker.patience := 2; Worker.epochs := 10;
                 Worker.batch_size := 4 |} in
  let o := {| Worker.batch_loss := fun e b => Py.NaN;
              Worker.batch_correct := fun _ _ => 3;
              Worker.epoch_duration := fun e => Qc_of_Z (Z.of_nat e);
              Worker.val_loss := fun e => Py.NaN;
              Worker.val_correct := fun e => Z.of_nat e;
              Worker.final_train_correct := 7 |} in
  Worker.train_simulated 2 10 11 args o []
  = ([], Py.Raise (if bool_decide (Worker.processors args <= 0)
                   then Py.ValueError else Py.IndexError)).
Proof.
  intros args o.
  apply (slot_out_of_range_raises 2 10 11 args o []).
  vm_compute. discriminate.
Defined.

(** X18.  A call that cannot run any epoch, because the batch size or the
    epoch count is not positive, builds the model and then raises
    [ValueError]; no epoch starts, and the loss and optimizer selectors
    are not looked at. *)
Theorem no_epoch_raises_value_error (fold n_train n_val : nat) (args : Worker.Args)
    (o : Worker.oracle) (a : Worker.activation_fn) :
  1 <= Worker.processors args ->
  Z.of_nat fold < Worker.processors args ->
  Worker.choose_activation (Worker.activation args) = Some a ->
  Worker.batch_size args <= 0 \/ Worker.epochs args <= 0 ->
  Worker.train_simulated fold n_train n_val args o []
  = ([Worker.EvModelBuilt a], Py.Raise Py.ValueError).
Proof.
  intros Hp Hfold Ha Hnone. unfold Worker.train_simulated.
  unfold Py.bind at 1. unfold Py.lift at 1. rewrite array_split_reshape by done.
  destruct (val_slice_getitem fold n_val (Worker.processors args) Hp Hfold)
    as (piece & -> & _).
  unfold Py.bind at 1. unfold Py.lift at 1. rewrite Ha.
  unfold Py.bind at 1. unfold Py.read_local at 1, Py.ret at 1.
  unfold Py.bind at 1. unfold Worker.emit at 1, Py.modify at 1.
  unfold Py.bind at 1.
  case_bool_decide as Hbs; [done|].
  destruct Hnone as [?|Hep]; [lia|].
  unfold Py.ret at 1. unfold Py.bind at 1.
  unfold Worker.epoch_loop, Py.range.
  replace (Z.to_nat (Worker.epochs args)) with 0%nat by lia.
  done.
Qed.

Lemma no_epoch_raises_value_error_witness :
  let args := {| Worker.processors := 2; Worker.activation := "RELU";
                 Worker.loss := "none"; Worker.optimizer := "none";
                 Worker.patience := 2; Worker.epochs := 0;
                 Worker.batch_size := 4 |} in
  let o := {| Worker.batch_loss := fun e b => Py.NaN;
              Worker.batch_correct := fun _ _ => 3;
              Worker.epoch_duration := fun e => Qc_of_Z (Z.of_nat e);
              Worker.val_loss := fun e => Py.NaN;
              Worker.val_correct := fun e => Z.of_nat e;
              Worker.final_train_correct := 7 |} in
  Worker.train_simulated 0 10 11 args o []
  = ([Worker.EvModelBuilt Worker.ReLU], Py.Raise Py.ValueError).
Proof.
  intros args o.
  apply (no_epoch_raises_value_error 0 10 11 args o Worker.ReLU).
  - vm_compute. discriminate.
  - reflexivity.
  - reflexivity.
  - right. vm_compute. discriminate.
Defined.

(** X19.  When the validation slice of the slot is empty (fewer
    validation rows than processors, and a slot past them) an otherwise
    well-formed call fails, and it fails only after the whole first epoch
    of training: every batch has been stepped and the synchronization
    callback called.  (The validation pass itself is opaque here; when it
    returns on the empty slice, the division by the length of the slice
    raises.) *)
Theorem empty_validation_slice_raises (fold n_train n_val : nat) (args : Worker.Args)
    (o : Worker.oracle) :
  1 <= Worker.processors args ->
  Z.of_nat fold < Worker.processors args ->
  val_slice_len n_val (Worker.processors args) fold = 0%nat ->
  is_Some (Worker.choose_activation (Worker.activation args)) ->
  is_Some (Worker.choose_criterion (Worker.loss args)) ->
  is_Some (Worker.choose_optimizer (Worker.optimizer args)) ->
  (0 < n_train)%nat -> 0 < Worker.batch_size args -> 0 < Worker.epochs args ->
  let out := Worker.train_simulated fold n_train n_val args o [] in
  (exists e, out.2 = Py.Raise e)
  /\ Worker.epochs_started out.1 = [0%nat]
  /\ Worker.optimizer_steps out.1
     = (fun b => (0%nat, b)) <$> seq 0 (Worker.num_batches n_train args)
  /\ sync_callbacks out.1 = [0%nat].
Proof.
  intros Hp Hfold Hval [a Ha] [c Hc] [op Hop] Hn Hbs Hep. cbv zeta.
  assert (Hrun : Worker.train_simulated fold n_train n_val args o []
            = ([Worker.EvModelBuilt a; Worker.EvEpochStart 0]
               ++ batch_events 0 0 (Worker.num_batches n_train args)
               ++ [Worker.EvSyncCallback 0; Worker.EvValidation 0],
               Py.Raise Py.ZeroDivisionError)).
  { unfold Worker.train_simulated.
    unfold Py.bind at 1. unfold Py.lift at 1. rewrite array_split_reshape by done.
    destruct (val_slice_getitem fold n_val (Worker.processors args) Hp Hfold)
      as (piece & -> & Hlen).
    unfold Py.bind at 1. unfold Py.lift at 1. rewrite Ha, Hc, Hop, Hlen, Hval.
    unfold Py.bind at 1. unfold Py.read_local at 1, Py.ret at 1.
    unfold Py.bind at 1. unfold Worker.emit at 1, Py.modify at 1.
    unfold Py.bind at 1. rewrite bool_decide_eq_false_2 by lia. unfold Py.ret at 1.
    unfold Py.bind at 1. unfold Worker.epoch_loop, Py.range.
    destruct (Z.to_nat (Worker.epochs args)) as [|n] eqn:En; [lia|].
    cbn [seq Py.for_break]. unfold Py.bind at 1.
    unfold Worker.epoch_body. unfold Py.bind at 1.
    unfold Worker.emit at 1, Py.modify at 1.
    unfold Py.bind at 1. rewrite batch_loop_run.
    unfold Worker.emit, Py.div. unfold_monad.
    rewrite bool_decide_eq_true_2 by done. cbn [fst snd].
    rewrite <- !app_assoc. reflexivity. }
  rewrite Hrun. cbn [fst snd].
  destruct (batch_events_projections 0 (Worker.num_batches n_train args) 0)
    as (H1 & _ & H3 & H4 & _).
  change ([Worker.EvModelBuilt a; Worker.EvEpochStart 0] ++ ?l)
    with ([Worker.EvModelBuilt a; Worker.EvEpochStart 0] ++ l).
  rewrite !epochs_started_app, !optimizer_steps_app, !sync_callbacks_app, H1, H3, H4.
  cbn. rewrite !app_nil_r. eauto.
Qed.

Lemma empty_validation_slice_raises_witness :
  let args := {| Worker.processors := 4; Worker.activation := "RELU";
                 Worker.loss := "CE"; Worker.optimizer := "ADAM";
                 Worker.patience := 2; Worker.epochs := 3;
                 Worker.batch_size := 4 |} in
  let o := {| Worker.batch_loss := fun e b => Py.NaN;
              Worker.batch_correct := fun _ _ => 3;
              Worker.epoch_duration := fun e => Qc_of_Z (Z.of_nat e);
              Worker.val_loss := fun e => Py.NaN;
              Worker.val_correct := fun e => Z.of_nat e;
              Worker.final_train_correct := 7 |} in
  let out := Worker.train_simulated 3 10 2 args o [] in
  (exists e, out.2 = Py.Raise e)
  /\ Worker.epochs_started out.1 = [0%nat]
  /\ Worker.optimizer_steps out.1
     = (fun b => (0%nat, b)) <$> seq 0 (Worker.num_batches 10 args)
  /\ sync_callbacks out.1 = [0%nat].
Proof.
  intros args o.
  apply (empty_validation_slice_raises 3 10 2 args o).
  - vm_compute. discriminate.
  - reflexivity.
  - vm_compute. reflexivity.
  - vm_compute. eauto.
  - vm_compute. eauto.
  - vm_compute. eauto.
  - lia.
  - reflexivity.
  - reflexivity.
Defined.

(** ** The driver: the folds of [parallel_kfold] *)

(** X20.  With two folds or more, no more than samples, and a pool of
    one process or more, [parallel_kfold] dispatches once and returns one
    result per fold, in fold order, the result of fold [i] being what
    [train] returns for [i] and its index sets.  The validation sets of the
    folds are non-empty consecutive blocks that together are all the
    samples, each once; the training set of a fold is every sample outside
    its validation set. *)
Theorem parallel_kfold_folds_partition_samples {Model}
    (train : nat -> list nat -> list nat -> KFoldMain.FoldResult Model)
    (elapsed_time : Qc) (args : KFoldMain.Args) (n_samples : nat)
    (tr : list (KFoldMain.event Model)) :
  2 <= KFoldMain.folds args -> KFoldMain.folds args <= Z.of_nat n_samples ->
  1 <= KFoldMain.processors args ->
  exists splits,
    KFoldMain.parallel_kfold train elapsed_time args n_samples tr
    = (tr ++ [KFoldMain.EvStarmap (Z.to_nat (KFoldMain.folds args))],
       Py.Ok (imap (fun fold '(train_idx, val_idx) => train fold train_idx val_idx) splits,
              elapsed_time))
    /\ length splits = Z.to_nat (KFoldMain.folds args)
    /\ mjoin (snd <$> splits) = seq 0 n_samples
    /\ Forall (fun '(train_idx, val_idx) =>
                 val_idx ≠ []
                 /\ train_idx = filter (fun i => i ∉ val_idx) (seq 0 n_samples)) splits.
Proof.
  intros Hfolds Hsamples Hproc.
  unfold KFoldMain.parallel_kfold.
  unfold Py.bind at 1. unfold Py.lift at 1, KFoldMain.KFold.
  rewrite bool_decide_eq_false_2 by lia.
  unfold Py.bind at 1. rewrite bool_decide_eq_false_2 by lia. unfold Py.ret at 1.
  unfold Py.bind at 1. unfold Py.lift at 1, KFoldMain.kfold_split.
  rewrite bool_decide_eq_false_2 by lia.
  rewrite array_split_reshape by lia. rewrite length_seq.
  set (k := Z.to_nat (KFoldMain.folds args)).
  set (sizes := section_sizes n_samples k).
  set (blocks := reshape sizes (seq 0 n_samples)).
  set (splits := _ <$> blocks).
  assert (Hsum : sum_list sizes = n_samples) by (apply section_sizes_sum; lia).
  assert (Hlen : length splits = k).
  { subst splits blocks sizes. rewrite length_fmap, length_reshape, section_sizes_length; lia. }
  unfold Py.bind at 1. unfold KFoldMain.emit at 1, Py.modify at 1. unfold Py.ret at 1.
  cbn [fst snd]. rewrite Hlen.
  exists splits. split_and!; try done.
  - subst splits. rewrite <- list_fmap_compose.
    rewrite (list_fmap_ext _ id blocks) by done. rewrite list_fmap_id.
    apply join_reshape. by rewrite length_seq.
  - subst splits. apply Forall_fmap, Forall_forall. intros v Hv. cbn. split; [|done].
    assert (Hin : length v ∈ sizes).
    { rewrite <- (reshape_sizes (seq 0 n_samples) sizes) by (rewrite length_seq; lia).
      by apply list_elem_of_fmap_2. }
    apply section_sizes_near in Hin.
    assert (1 <= n_samples / k)%nat by (apply Nat.div_le_lower_bound; lia).
    intros ->. cbn in Hin. lia.
Qed.

Lemma parallel_kfold_folds_partition_samples_witness :
  let args := {| KFoldMain.folds := 3; KFoldMain.processors := 2;
                 KFoldMain.batch_size := 4; KFoldMain.epochs := 2;
                 KFoldMain.ds := "MNIST" |} in
  let train := fun (f : nat) (_ _ : list nat) =>
    {| KFoldMain.loss := 0%Qc; KFoldMain.accuracy := 1%Qc; KFoldMain.model := f |} in
  exists splits,
    KFoldMain.parallel_kfold train 0%Qc args 10 []
    = ([] ++ [KFoldMain.EvStarmap (Z.to_nat (KFoldMain.folds args))],
       Py.Ok (imap (fun fold '(train_idx, val_idx) => train fold train_idx val_idx) splits,
              0%Qc))
    /\ length splits = Z.to_nat (KFoldMain.folds args)
    /\ mjoin (snd <$> splits) = seq 0 10
    /\ Forall (fun '(train_idx, val_idx) =>
                 val_idx ≠ []
                 /\ train_idx = filter (fun i => i ∉ val_idx) (seq 0 10)) splits.
Proof.
  intros args train.
  apply (parallel_kfold_folds_partition_samples train 0%Qc args 10 []).
  - vm_compute. discriminate.
  - vm_compute. discriminate.
  - vm_compute. discriminate.
Defined.

(** X21.  In cross-validation mode a pool of no process, or more folds
    than samples, makes [main] raise [ValueError] right after the split
    message: nothing is dispatched, tested or reported. *)
Theorem cross_validation_bad_configuration_raises {Model}
    (train : nat -> list nat -> list nat -> KFoldMain.FoldResult Model)
    (fresh_model : KFoldMain.architecture -> Model)
    (sgd_step : Model -> nat -> nat -> Model) (test_accuracy_of : Model -> Qc)
    (elapsed_time : Qc) (args : KFoldMain.Args) (n_samples n_train n_test : nat) :
  2 <= KFoldMain.folds args ->
  KFoldMain.processors args < 1 \/ Z.of_nat n_samples < KFoldMain.folds args ->
  KFoldMain.main train fresh_model sgd_step test_accuracy_of elapsed_time
    args n_samples n_train n_test []
  = ([KFoldMain.EvPrintSplit n_train n_test], Py.Raise Py.ValueError).
Proof.
  intros Hfolds Hbad.
  unfold KFoldMain.main. unfold Py.bind at 1. unfold KFoldMain.emit at 1, Py.modify at 1.
  rewrite bool_decide_eq_false_2 by lia.
  unfold Py.bind at 1. unfold KFoldMain.parallel_kfold.
  unfold Py.bind at 1. unfold Py.lift at 1, KFoldMain.KFold.
  rewrite bool_decide_eq_false_2 by lia.
  unfold Py.bind at 1.
  destruct (decide (KFoldMain.processors args < 1)) as [Hp|Hp].
  - by rewrite bool_decide_eq_true_2 by done.
  - rewrite bool_decide_eq_false_2 by done. unfold Py.ret at 1.
    destruct Hbad as [?|Hn]; [done|].
    unfold Py.bind at 1. unfold Py.lift at 1, KFoldMain.kfold_split.
    by rewrite bool_decide_eq_true_2 by done.
Qed.

Lemma cross_validation_bad_configuration_raises_witness :
  let args := {| KFoldMain.folds := 3; KFoldMain.processors := 0;
                 KFoldMain.batch_size := 4; KFoldMain.epochs := 2;
                 KFoldMain.ds := "MNIST" |} in
  let train := fun (f : nat) (_ _ : list nat) =>
    {| KFoldMain.loss := 0%Qc; KFoldMain.accuracy := 1%Qc; KFoldMain.model := f |} in
  KFoldMain.main train (fun _ => 0%nat) (fun m _ _ => S m) (fun _ => 1%Qc) 0%Qc
    args 10 8 2 []
  = ([KFoldMain.EvPrintSplit 8 2], Py.Raise Py.ValueError).
Proof.
  intros args train.
  apply (cross_validation_bad_configuration_raises train (fun _ => 0%nat)
           (fun m _ _ => S m) (fun _ => 1%Qc) 0%Qc args 10 8 2).
  - vm_compute. discriminate.
  - left. reflexivity.
Defined.

(** ** The driver: the model trained on the whole set *)

Section WholeSetModel.
Import KFoldMain.
Context {Model : Type}.
Variable sgd_step : Model -> nat -> nat -> Model.







End WholeSetModel.



(** Witness of the cross-validation run of [main]: three folds over ten
    samples. *)
Lemma main_tests_first_best_witness :
  let args := {| KFoldMain.folds := 3; KFoldMain.processors := 2;
                 KFoldMain.batch_size := 4; KFoldMain.epochs := 2;
                 KFoldMain.ds := "MNIST" |} in
  let train := fun (f : nat) (_ _ : list nat) =>
    {| KFoldMain.loss := 0%Qc; KFoldMain.accuracy := Qc_of_Z (Z.of_nat (f mod 2));
       KFoldMain.model := f |} in
  exists results i best tr,
    length results = Z.to_nat (KFoldMain.folds args) /\
    (forall fold r, results !! fold = Some r ->
       exists train_idx val_idx, r = train fold train_idx val_idx) /\
    results !! i = Some best /\
    (forall r, r ∈ results -> (KFoldMain.accuracy r ≤ KFoldMain.accuracy best)%Qc) /\
    (forall j r, (j < i)%nat -> results !! j = Some r ->
                 (KFoldMain.accuracy r < KFoldMain.accuracy best)%Qc) /\
    KFoldMain.main train (fun _ => 0%nat) (fun m _ _ => S m) (fun _ => 1%Qc) 0%Qc
      args 10 8 2 [] = (tr, Py.Ok tt) /\
    tested_models tr = [KFoldMain.model best].
Proof.
  intros args train.
  apply (main_tests_first_best train (fun _ => 0%nat) (fun m _ _ => S m)
           (fun _ => 1%Qc) 0%Qc args 10 8 2).
  - vm_compute. discriminate.
  - vm_compute. discriminate.
  - vm_compute. discriminate.
Defined.

(** ** The shapes through the networks *)

Lemma div2_bounds (a : nat) : (2 * (a / 2) <= a < 2 * (a / 2) + 2)%nat.
Proof.
  pose proof (Nat.div_mod_eq a 2). pose proof (Nat.mod_upper_bound a 2). lia.
Qed.

(** Names the halves that occur, innermost last, with their bounds. *)
Ltac div2_names :=
  repeat match goal with
  | |- context [(?a / 2)%nat] =>
      let H := fresh "Hdiv" in
      pose proof (div2_bounds a) as H;
      generalize dependent (a / 2)%nat; intros
  | _ : context [(?a / 2)%nat] |- _ =>
      let H := fresh "Hdiv" in
      pose proof (div2_bounds a) as H;
      generalize dependent (a / 2)%nat; intros
  end.

Ltac simpl_shape :=
  cbn [Shapes.batch Shapes.channels Shapes.height Shapes.width fst snd].

(** X24.  [LeNet5.forward] accepts a batch of images exactly when the
    batch is not empty, the images have one channel and the two pooled
    sides multiply to 25, as they do for 28 x 28 images; it then returns
    one row of [num_classes] scores per image.  In every other case, an
    empty batch among them, it raises [RuntimeError]. *)
Theorem LeNet5_forward_shape (num_classes : nat) (x : Shapes.images) :
  let side := fun s => ((s / 2 - 4) / 2)%nat in
  Shapes.LeNet5_forward num_classes x
  = (if bool_decide (0 < Shapes.batch x /\ Shapes.channels x = 1
                     /\ 12 <= Shapes.height x /\ 12 <= Shapes.width x
                     /\ side (Shapes.height x) * side (Shapes.width x) = 25)%nat
     then Py.Ok (Shapes.batch x, num_classes)
     else Py.Raise Py.RuntimeError)
  /\ (side 28 * side 28 = 25)%nat.
Proof.
  cbv beta zeta. split; [|reflexivity].
  destruct x as [n c h w]. unfold Shapes.LeNet5_forward.
  unfold Shapes.conv2d, Shapes.pool2d, Shapes.view_keep_batch, Shapes.linear,
    Shapes.and_then.
  cbn [Shapes.batch Shapes.channels Shapes.height Shapes.width fst snd].
  destruct (decide (c = 1 /\ 12 <= h /\ 12 <= w)%nat) as [(-> & Hh & Hw)|Hbad].
  - rewrite (bool_decide_eq_true_2 (1 = 1 /\ 5 <= h + 2 * 2 /\ 5 <= w + 2 * 2)%nat)
      by lia. simpl_shape.
    replace (h + 2 * 2 - 5 + 1)%nat with h by lia.
    replace (w + 2 * 2 - 5 + 1)%nat with w by lia.
    rewrite (bool_decide_eq_true_2 (2 <= h /\ 2 <= w)%nat) by lia. simpl_shape.
    rewrite (bool_decide_eq_true_2 (6 = 6 /\ 5 <= h / 2 + 2 * 0 /\ 5 <= w / 2 + 2 * 0)%nat)
      by (div2_names; lia). simpl_shape.
    replace (h / 2 + 2 * 0 - 5 + 1)%nat with (h / 2 - 4)%nat by (div2_names; lia).
    replace (w / 2 + 2 * 0 - 5 + 1)%nat with (w / 2 - 4)%nat by (div2_names; lia).
    rewrite (bool_decide_eq_true_2 (2 <= h / 2 - 4 /\ 2 <= w / 2 - 4)%nat)
      by (div2_names; lia). simpl_shape.
    set (a := ((h / 2 - 4) / 2)%nat). set (b := ((w / 2 - 4) / 2)%nat).
    clearbody a b.
    repeat case_bool_decide; try done; exfalso; cbn [fst snd] in *; lia.
  - rewrite (bool_decide_eq_false_2 (_ /\ c = 1 /\ 12 <= h /\ 12 <= w /\ _)%nat) by tauto.
    repeat case_bool_decide; try done; exfalso; apply Hbad;
      cbn [Shapes.batch Shapes.channels Shapes.height Shapes.width fst snd] in *;
      div2_names; lia.
Qed.

(** X25.  [LeNet.forward] of the driver reshapes to rows of 256 features
    whatever the batch: it accepts one-channel images of 16 x 16 or more
    whose pooled features fill whole rows, and returns [batch * side *
    side' / 16] rows of 10 scores.  That is one row per image when the
    pooled sides multiply to 16, as they do for 28 x 28 images; for other
    sizes the rows no longer correspond to the images. *)
Theorem LeNet_forward_shape (x : Shapes.images) :
  let side := fun s => (((s - 4) / 2 - 4) / 2)%nat in
  let pooled := (side (Shapes.height x) * side (Shapes.width x))%nat in
  Shapes.LeNet_forward x
  = (if bool_decide (Shapes.channels x = 1
                     /\ 16 <= Shapes.height x /\ 16 <= Shapes.width x
                     /\ (Shapes.batch x * pooled) mod 16 = 0)%nat
     then Py.Ok ((Shapes.batch x * pooled / 16)%nat, 10%nat)
     else Py.Raise Py.RuntimeError)
  /\ (pooled = 16 -> Shapes.batch x * pooled / 16 = Shapes.batch x)%nat
  /\ (side 28 * side 28 = 16)%nat.
Proof.
  cbv beta zeta. split; [|split; [|reflexivity]].
  2:{ intros ->. by rewrite Nat.div_mul. }
  destruct x as [n c h w]. unfold Shapes.LeNet_forward.
  unfold Shapes.conv2d, Shapes.pool2d, Shapes.view_rows, Shapes.linear,
    Shapes.numel, Shapes.and_then.
  cbn [Shapes.batch Shapes.channels Shapes.height Shapes.width fst snd].
  destruct (decide (c = 1 /\ 16 <= h /\ 16 <= w)%nat) as [(-> & Hh & Hw)|Hbad].
  - rewrite (bool_decide_eq_true_2 (1 = 1 /\ 5 <= h + 2 * 0 /\ 5 <= w + 2 * 0)%nat)
      by lia. simpl_shape.
    replace (h + 2 * 0 - 5 + 1)%nat with (h - 4)%nat by lia.
    replace (w + 2 * 0 - 5 + 1)%nat with (w - 4)%nat by lia.
    rewrite (bool_decide_eq_true_2 (2 <= h - 4 /\ 2 <= w - 4)%nat) by lia. simpl_shape.
    rewrite (bool_decide_eq_true_2
               (6 = 6 /\ 5 <= (h - 4) / 2 + 2 * 0 /\ 5 <= (w - 4) / 2 + 2 * 0)%nat)
      by (div2_names; lia). simpl_shape.
    replace ((h - 4) / 2 + 2 * 0 - 5 + 1)%nat with ((h - 4) / 2 - 4)%nat
      by (div2_names; lia).
    replace ((w - 4) / 2 + 2 * 0 - 5 + 1)%nat with ((w - 4) / 2 - 4)%nat
      by (div2_names; lia).
    rewrite (bool_decide_eq_true_2
               (2 <= (h - 4) / 2 - 4 /\ 2 <= (w - 4) / 2 - 4)%nat)
      by (div2_names; lia). simpl_shape.
    set (a := (((h - 4) / 2 - 4) / 2)%nat). set (b := (((w - 4) / 2 - 4) / 2)%nat).
    replace (n * (16 * a * b))%nat with (n * (a * b) * 16)%nat by lia.
    change (16 * 4 * 4)%nat with (16 * 16)%nat.
    rewrite Nat.Div0.mul_mod_distr_r, Nat.Div0.div_mul_cancel_r by lia.
    rewrite (bool_decide_ext ((n * (a * b)) mod 16 * 16 = 0)%nat
                             (1 = 1 /\ 16 <= h /\ 16 <= w /\ (n * (a * b)) mod 16 = 0)%nat)
      by lia.
    case_bool_decide; [|done]. cbn [fst snd].
    by rewrite !bool_decide_eq_true_2 by done.
  - rewrite (bool_decide_eq_false_2 (c = 1 /\ 16 <= h /\ 16 <= w /\ _)%nat) by tauto.
    repeat case_bool_decide; try done; exfalso; apply Hbad;
      cbn [Shapes.batch Shapes.channels Shapes.height Shapes.width fst snd] in *;
      div2_names; lia.
Qed.
